(** * AI wellness companion: emotion classification, recommendation and
      history core.

    A shallow embedding of the classification facade, its multilingual
    keyword fallback and its recommendation engine (ai-service.js), of the
    message content.js sends after an analysis, of the background worker's
    recommendation engine and message listener (background.js) and of the
    dashboard's window filter and insight rules (dashboard.js), with the
    properties the specification states about them.  Further sections
    cover the rest of the service (language detection, translation,
    summaries, generated texts, the availability check), the content
    script's page analysis and banner decision, the worker's reminder
    alarm, the dashboard's periods and statistics, the popup's summary and
    the breathing and mindfulness pages, with properties read off the code.

    Strings are sequences of UTF-16 code units.  Numbers are exact
    rationals; the comparisons the code makes against 0.01, 0.02, 0.5 and
    the like come out as in double arithmetic for texts and logs of any
    length an engine can hold.  An external call either returns a value or
    raises; one that never settles is outside the model. *)

From Stdlib Require Import Ascii String DecimalString QArith.
From stdpp Require Import base tactics option list numbers strings gmap
  sorting.

Set Warnings "-register-all".
Local Open Scope N_scope.

(** ** JavaScript strings

    A JavaScript string is a sequence of UTF-16 code units. *)

Abbreviation code_unit := N (only parsing).
Abbreviation jsstring := (list N) (only parsing).

Module Utf16.

(** Literals are written as Rocq strings (UTF-8 bytes) and decoded to
    code units, with a surrogate pair for code points above U+FFFF. *)
Definition cont (b : N) : N := b mod 64.

Fixpoint decode (bs : list N) : jsstring :=
  match bs with
  | [] => []
  | b :: r =>
      if b <? 128 then b :: decode r
      else if b <? 224 then
        match r with
        | c1 :: r' => ((b mod 32) * 64 + cont c1) :: decode r'
        | _ => []
        end
      else if b <? 240 then
        match r with
        | c1 :: c2 :: r' =>
            ((b mod 16) * 4096 + cont c1 * 64 + cont c2) :: decode r'
        | _ => []
        end
      else
        match r with
        | c1 :: c2 :: c3 :: r' =>
            let cp := (b mod 8) * 262144 + cont c1 * 4096
                      + cont c2 * 64 + cont c3 in
            let v := cp - 65536 in
            (55296 + v / 1024) :: (56320 + v mod 1024) :: decode r'
        | _ => []
        end
  end.

Definition js (s : string) : jsstring :=
  decode (List.map N_of_ascii (String.list_ascii_of_string s)).

End Utf16.

Abbreviation js := Utf16.js.

(** ** JavaScript values *)

(** Numbers that [JSON.parse], counting and division by a positive count
    can produce: rationals and the two infinities. *)
Inductive number : Type :=
  | Finite (q : Q)
  | PosInfinity
  | NegInfinity.

Inductive value : Type :=
  | JUndefined
  | JNull
  | JBool (b : bool)
  | JNum (n : number)
  | JStr (s : jsstring)
  | JArr (items : list value)
  | JObj (fields : list (jsstring * value)).

(** What a [throw] carries: the two built-in errors this code can run
    into, or any value an external capability raises. *)
Inductive exn : Type :=
  | TypeError
  | SyntaxError
  | Thrown (v : value).

(** The result of evaluating code that may raise. *)
Inductive outcome (A : Type) : Type :=
  | Returned (a : A)
  | Threw (e : exn).
Arguments Returned {A} a.
Arguments Threw {A} e.

#[global] Instance outcome_ret : MRet outcome := fun _ a => Returned a.

#[global] Instance outcome_bind : MBind outcome := fun _ _ k m =>
  match m with
  | Returned a => k a
  | Threw e => Threw e
  end.

(** [try { body } catch (e) { handler }] *)
Definition try_catch {A} (body : outcome A) (handler : exn -> outcome A)
  : outcome A :=
  match body with
  | Returned a => Returned a
  | Threw e => handler e
  end.

Module Num.

Definition zero : number := Finite 0.
Definition one : number := Finite 1.

(** [a < b] *)
Definition ltb (a b : number) : bool :=
  match a, b with
  | Finite x, Finite y => negb (Qle_bool y x)
  | NegInfinity, Finite _ | NegInfinity, PosInfinity
  | Finite _, PosInfinity => true
  | _, _ => false
  end.

(** [a > b] *)
Definition gtb (a b : number) : bool := ltb b a.

Definition leb (a b : number) : bool := negb (ltb b a).

(** [Math.max(a, b)] and [Math.min(a, b)] *)
Definition max (a b : number) : number := if ltb a b then b else a.
Definition min (a b : number) : number := if ltb b a then b else a.

(** Zero is the one falsy number here. *)
Definition is_zero (a : number) : bool :=
  match a with
  | Finite q => Qeq_bool q 0
  | _ => false
  end.

Definition of_nat (n : nat) : number := Finite (inject_Z (Z.of_nat n)).

(** [a / b] for counts [a] and a positive count [b]. *)
Definition div_nat (a b : nat) : number :=
  Finite (Z.of_nat a # Pos.of_nat b).

Definition le (a b : number) : Prop := leb a b = true.

End Num.

(** ToBoolean *)
Definition truthy (v : value) : bool :=
  match v with
  | JUndefined | JNull => false
  | JBool b => b
  | JNum n => negb (Num.is_zero n)
  | JStr s => negb (bool_decide (s = []))
  | JArr _ | JObj _ => true
  end.

(** [a || b] *)
Definition or_else (a b : value) : value := if truthy a then a else b.

Fixpoint assoc {A} (k : jsstring) (l : list (jsstring * A)) : option A :=
  match l with
  | [] => None
  | (k', v) :: l' => if bool_decide (k' = k) then Some v else assoc k l'
  end.

(** [v.k] for the property names this program reads, none of which is a
    member of a built-in prototype: an own property of an object, and
    [undefined] otherwise.  Reading a property of [null] or [undefined]
    raises. *)
Definition prop (v : value) (k : jsstring) : value :=
  match v with
  | JObj fields => default JUndefined (assoc k fields)
  | _ => JUndefined
  end.

Definition getProp (v : value) (k : jsstring) : outcome value :=
  match v with
  | JUndefined | JNull => Threw TypeError
  | _ => Returned (prop v k)
  end.

(** ** Host primitives

    The string and JSON built-ins of the engine the extension runs on are
    taken as an interface; every result below holds for any host. *)
Class Host : Type := {
  (** [String.prototype.toLowerCase] *)
  toLowerCase : jsstring -> jsstring;
  (** the case canonicalisation of regular expressions with the [i] flag *)
  canonicalize : code_unit -> code_unit;
  (** [JSON.parse] *)
  JSON_parse : jsstring -> outcome value;
  (** [Number::toString] *)
  Number_toString : number -> jsstring
}.

(** [v === s] for a string [s], and [v === false]. *)
Definition is_str (s : jsstring) (v : value) : bool :=
  match v with
  | JStr s' => bool_decide (s' = s)
  | _ => false
  end.

Definition is_false (v : value) : bool :=
  match v with
  | JBool false => true
  | _ => false
  end.

Fixpoint join (sep : jsstring) (parts : list jsstring) : jsstring :=
  match parts with
  | [] => []
  | [p] => p
  | p :: rest => p ++ sep ++ join sep rest
  end.

(** ToString, on plain data: what a template literal and a computed
    property name make of a value. *)
Fixpoint ToString `{Host} (v : value) : jsstring :=
  match v with
  | JUndefined => js "undefined"
  | JNull => js "null"
  | JBool true => js "true"
  | JBool false => js "false"
  | JNum n => Number_toString n
  | JStr s => s
  | JArr items =>
      join (js ",")
        (List.map (fun x => match x with
                            | JUndefined | JNull => []
                            | _ => ToString x
                            end) items)
  | JObj _ => js "[object Object]"
  end.

(** The names every object inherits from [Object.prototype]; each is
    bound there to a function or an object, neither an array nor
    iterable. *)
Definition objectPrototypeMembers : list jsstring := [
  js "constructor"; js "hasOwnProperty"; js "isPrototypeOf";
  js "propertyIsEnumerable"; js "toLocaleString"; js "toString";
  js "valueOf"; js "__proto__"; js "__defineGetter__";
  js "__defineSetter__"; js "__lookupGetter__"; js "__lookupSetter__"
].

(** [table[key] || table.fallbackKey] for an object literal [table] whose
    own values are all truthy. *)
Inductive tableEntry (A : Type) : Type :=
  | Own (a : A)
  | Inherited
  | Fallback (a : A).
Arguments Own {A} a.
Arguments Inherited {A}.
Arguments Fallback {A} a.

Definition tableLookup {A} `{Inhabited A} (table : list (jsstring * A))
    (key fallbackKey : jsstring) : tableEntry A :=
  match assoc key table with
  | Some a => Own a
  | None =>
      if bool_decide (key ∈ objectPrototypeMembers) then Inherited
      else Fallback (default inhabitant (assoc fallbackKey table))
  end.

(** [error.message], as a handler reads it. *)
Definition error_message (e : exn) : outcome value :=
  match e with
  | TypeError | SyntaxError => Returned (JStr [])
  | Thrown v => getProp v (js "message")
  end.

(** [items.filter(keep)] for a callback that may raise. *)
Fixpoint filterM {A} (keep : A -> outcome bool) (items : list A)
    : outcome (list A) :=
  match items with
  | [] => Returned []
  | x :: rest =>
      k ← keep x;
      kept ← filterM keep rest;
      Returned (if (k : bool) then x :: kept else kept)
  end.

(** ** Regular expressions and splitting, as the classifier uses them *)

Module Str.
Section with_host.
Context `{Host}.

Definition between (lo hi c : N) : bool := (lo <=? c) && (c <=? hi).

(** The word characters of [\b] without the [u] flag:
    [a-z], [A-Z], [0-9] and [_]. *)
Definition isWordChar (c : code_unit) : bool :=
  between 97 122 c || between 65 90 c || between 48 57 c || (c =? 95).

(** The characters of [\s]: white space and line terminators. *)
Definition isWhiteSpace (c : code_unit) : bool :=
  between 9 13 c || (c =? 32) || (c =? 160) || (c =? 5760)
  || between 8192 8202 c || (c =? 8232) || (c =? 8233) || (c =? 8239)
  || (c =? 8287) || (c =? 12288) || (c =? 65279).

Definition wordAt (c : option code_unit) : bool :=
  match c with
  | Some c => isWordChar c
  | None => false
  end.

(** [\b] between the code unit before a position and the one at it. *)
Definition isBoundary (before after : option code_unit) : bool :=
  xorb (wordAt before) (wordAt after).

(** The literal [kw] at the head of [s], compared case-insensitively:
    the rest of [s] after it. *)
Fixpoint matchLiteral (kw s : jsstring) : option jsstring :=
  match kw, s with
  | [], _ => Some s
  | k :: kw', c :: s' =>
      if canonicalize k =? canonicalize c then matchLiteral kw' s' else None
  | _ :: _, [] => None
  end.

(** [\bkw\b] at the position of [s] whose preceding code unit is
    [before]: the matched substring. *)
Definition matchHere (kw : jsstring) (before : option code_unit)
    (s : jsstring) : option jsstring :=
  if isBoundary before (head s) then
    match matchLiteral kw s with
    | Some rest =>
        let matched := take (length kw) s in
        if isBoundary (last matched) (head rest) then Some matched
        else None
    | None => None
    end
  else None.

(** The successive matches of [new RegExp(`\\b${kw}\\b`, "gi")] in a
    string, for a non-empty literal [kw] free of pattern syntax: the
    search resumes after each match, [skip] counting the code units of
    the current match still to pass. *)
Fixpoint scan (kw : jsstring) (before : option code_unit) (skip : nat)
    (s : jsstring) : list jsstring :=
  match s with
  | [] => []
  | c :: s' =>
      match skip with
      | S k => scan kw (Some c) k s'
      | O =>
          match matchHere kw before s with
          | Some m => m :: scan kw (Some c) (length kw - 1) s'
          | None => scan kw (Some c) 0 s'
          end
      end
  end.

(** A keyword the pattern can take as it is: not empty, and made of
    lower-case letters, spaces and code units outside ASCII only, none of
    which is pattern syntax. *)
Definition isLiteralUnit (c : code_unit) : bool :=
  between 97 122 c || (c =? 32) || (128 <=? c).

Definition isLiteralKeyword (kw : jsstring) : bool :=
  negb (length kw =? 0)%nat && forallb isLiteralUnit kw.

(** [text.match(regex)]: the array of matches, or [null] without any. *)
Definition match_all (kw text : jsstring) : option (list jsstring) :=
  match scan kw None 0 text with
  | [] => None
  | ms => Some ms
  end.

(** [s.split(/\s+/)]: the pieces between maximal runs of white space;
    [cur] is the current piece, reversed, and [inRun] tells whether the
    previous code unit was white space. *)
Fixpoint split_go (s : jsstring) (cur : jsstring) (inRun : bool)
    : list jsstring :=
  match s with
  | [] => [rev cur]
  | c :: s' =>
      if isWhiteSpace c then
        if inRun then split_go s' [] true
        else rev cur :: split_go s' [] true
      else split_go s' (c :: cur) false
  end.

Definition split_ws (s : jsstring) : list jsstring := split_go s [] false.

(** [response.match(/\{[\s\S]*\}/)]: from the first opening brace to the
    last closing brace after it. *)
Fixpoint dropUntil (c : code_unit) (s : jsstring) : option jsstring :=
  match s with
  | [] => None
  | x :: s' => if x =? c then Some s else dropUntil c s'
  end.

Definition match_braces (s : jsstring) : option jsstring :=
  match dropUntil 123 s with
  | Some fromOpen =>
      match dropUntil 125 (rev fromOpen) with
      | Some revMatched => Some (rev revMatched)
      | None => None
      end
  | None => None
  end.

End with_host.
End Str.

(** ** ai-service.js *)

Module AIService.

Record ClassificationResult : Type := {
  emotion : value;
  score : number;
  intensity : value;
  keywords : value;
  suggestion : value;
  source : value
}.

Local Open Scope string_scope.

Definition emotionKeywords : list (jsstring * list jsstring) := [
  (js "positive",
   List.map js [
     (* English *)
     "happy"; "joy"; "wonderful"; "great"; "positive"; "optimistic";
     "celebrate"; "excited"; "love"; "beautiful"; "amazing"; "excellent";
     "fantastic"; "cheerful"; "delighted"; "pleased";
     (* Portuguese *)
     "feliz"; "alegria"; "maravilhoso"; "ótimo"; "positivo"; "otimista";
     "celebrar"; "animado"; "amor"; "lindo"; "incrível"; "excelente";
     "fantástico";
     (* Spanish *)
     "feliz"; "alegría"; "maravilloso"; "genial"; "positivo"; "optimista";
     "celebrar"; "emocionado"; "amor"; "hermoso"; "increíble"; "excelente";
     "fantástico";
     (* French *)
     "heureux"; "joie"; "merveilleux"; "génial"; "positif"; "optimiste";
     "célébrer"; "excité"; "amour"; "beau"; "incroyable"; "excellent";
     "fantastique";
     (* German *)
     "glücklich"; "freude"; "wunderbar"; "großartig"; "positiv";
     "optimistisch"; "feiern"; "aufgeregt"; "liebe"; "schön";
     "erstaunlich"; "ausgezeichnet"
   ]);
  (js "negative",
   List.map js [
     (* English *)
     "sad"; "terrible"; "worst"; "awful"; "horrible"; "bad"; "unfortunate";
     "disappointing"; "depressing"; "tragic"; "miserable"; "unhappy";
     "sorrow"; "pain"; "hurt";
     (* Portuguese *)
     "triste"; "terrível"; "pior"; "horrível"; "ruim"; "infeliz";
     "decepcionante"; "deprimente"; "trágico"; "miserável"; "dor";
     "sofrimento";
     (* Spanish *)
     "triste"; "terrible"; "peor"; "horrible"; "malo"; "desafortunado";
     "decepcionante"; "deprimente"; "trágico"; "miserable"; "dolor";
     "sufrimiento";
     (* French *)
     "triste"; "terrible"; "pire"; "horrible"; "mauvais"; "malheureux";
     "décevant"; "déprimant"; "tragique"; "misérable"; "douleur";
     (* German *)
     "traurig"; "schrecklich"; "schlimmste"; "furchtbar"; "schlecht";
     "unglücklich"; "enttäuschend"; "deprimierend"; "tragisch"; "elend";
     "schmerz"
   ]);
  (js "anxiety",
   List.map js [
     (* English *)
     "anxious"; "panic"; "worry"; "nervous"; "stress"; "stressed";
     "overwhelmed"; "fear"; "scared"; "afraid"; "uncertain"; "tension";
     "pressure"; "worried"; "concern";
     (* Portuguese *)
     "ansioso"; "pânico"; "preocupado"; "nervoso"; "estresse";
     "estressado"; "sobrecarregado"; "medo"; "assustado"; "receio";
     "incerto"; "tensão"; "pressão";
     (* Spanish *)
     "ansioso"; "pánico"; "preocupado"; "nervioso"; "estrés"; "estresado";
     "abrumado"; "miedo"; "asustado"; "temeroso"; "incierto"; "tensión";
     "presión";
     (* French *)
     "anxieux"; "panique"; "inquiet"; "nerveux"; "stress"; "stressé";
     "débordé"; "peur"; "effrayé"; "craintif"; "incertain"; "tension";
     "pression";
     (* German *)
     "ängstlich"; "panik"; "besorgt"; "nervös"; "stress"; "gestresst";
     "überfordert"; "angst"; "erschrocken"; "unsicher"; "spannung"; "druck"
   ]);
  (js "anger",
   List.map js [
     (* English *)
     "angry"; "outrage"; "furious"; "irate"; "rage"; "hate"; "attack";
     "violence"; "fight"; "hostile"; "aggressive"; "frustrated"; "annoyed";
     "irritated"; "mad";
     (* Portuguese *)
     "raiva"; "furioso"; "irritado"; "ódio"; "ataque"; "violência"; "luta";
     "hostil"; "agressivo"; "frustrado"; "chateado"; "bravo";
     (* Spanish *)
     "enojado"; "furia"; "furioso"; "odio"; "ataque"; "violencia"; "pelea";
     "hostil"; "agresivo"; "frustrado"; "molesto"; "irritado";
     (* French *)
     "en colère"; "furieux"; "rage"; "haine"; "attaque"; "violence";
     "combat"; "hostile"; "agressif"; "frustré"; "agacé"; "irrité";
     (* German *)
     "wütend"; "zorn"; "wut"; "hass"; "angriff"; "gewalt"; "kampf";
     "feindselig"; "aggressiv"; "frustriert"; "verärgert"; "gereizt"
   ])
].
Local Close Scope string_scope.

Section with_host.
Context `{Host}.

(** [counts[emotion] += n] on the counts object, whose keys are those of
    the lexicon. *)
Definition bump (emotion : jsstring) (n : nat)
    (counts : list (jsstring * nat)) : list (jsstring * nat) :=
  List.map (fun '(e, c) =>
              if bool_decide (e = emotion) then (e, (c + n)%nat) else (e, c))
           counts.

(** The body of [keywords.forEach], for one keyword. *)
Definition countKeyword (lowerText emotion : jsstring)
    (counts : list (jsstring * nat)) (keyword : jsstring)
    : list (jsstring * nat) :=
  match Str.match_all keyword lowerText with
  | Some matches => bump emotion (length matches) counts
  | None => counts
  end.

Definition countMatches (lowerText : jsstring) : list (jsstring * nat) :=
  fold_left
    (fun counts '(emotion, keywords) =>
       fold_left (countKeyword lowerText emotion) keywords counts)
    emotionKeywords
    [(js "positive", 0%nat); (js "negative", 0%nat);
     (js "anxiety", 0%nat); (js "anger", 0%nat)].

(** [Object.values(counts).reduce((a, b) => a + b, 0)] *)
Definition totalMatches (counts : list (jsstring * nat)) : nat :=
  fold_left Nat.add (List.map snd counts) 0%nat.

(** The loop that selects the dominant emotion. *)
Definition dominantStep (acc : jsstring * nat) (entry : jsstring * nat)
    : jsstring * nat :=
  let '(dominant, maxCount) := acc in
  let '(emotion, count) := entry in
  if (maxCount <? count)%nat then (emotion, count) else (dominant, maxCount).

Definition neutralResult : ClassificationResult :=
  {| emotion := JStr (js "neutral"); score := Num.zero;
     intensity := JStr (js "low"); keywords := JArr [];
     suggestion := JStr []; source := JStr (js "multilingual-heuristic") |}.

Definition fallbackEmotionAnalysis (text : jsstring)
    : ClassificationResult :=
  let lowerText := toLowerCase text in
  let words := Str.split_ws lowerText in
  let counts := countMatches lowerText in
  if (totalMatches counts =? 0)%nat then neutralResult
  else
    let '(dominant, maxCount) :=
      fold_left dominantStep counts (js "neutral", 0%nat) in
    let score := Num.div_nat maxCount (length words) in
    let intensity :=
      if Num.gtb score (Finite (2 # 100)) then js "high"
      else if Num.gtb score (Finite (1 # 100)) then js "medium"
      else js "low" in
    {| emotion := JStr dominant; score := score;
       intensity := JStr intensity; keywords := JArr [];
       suggestion := JStr []; source := JStr (js "multilingual-heuristic") |}.

(** *** The model path and its surroundings *)

(** A language-model session, [session.prompt(text)], and a translator
    session, [session.translate(text)]. *)
Record Session : Type := { prompt : jsstring -> outcome value }.

Record TranslatorSession : Type := { translate : jsstring -> outcome value }.

(** A built-in capability such as [self.ai.languageModel]: what its
    [capabilities()] and [create(...)] calls come to. *)
Record Capability (S : Type) : Type := {
  capabilities : outcome value;
  create : outcome (option S)
}.
Arguments capabilities {S} _.
Arguments create {S} _.

(** The browser: each capability may be absent. *)
Record Env : Type := {
  ai_languageModel : option (Capability Session);
  ai_translator : option (Capability TranslatorSession)
}.

(** The session caches of the service. *)
Record Cache : Type := {
  languageModelSession : option Session;
  translatorSession : option TranslatorSession
}.

(** [initLanguageModel] and [initTranslator]: the session left in the
    cache, none when the capability is absent, reports "no" or raises. *)
Definition initCapability {S} (capability : option (Capability S))
    : option S :=
  match capability with
  | None => None
  | Some api =>
      match
        (caps ← capabilities api;
         available ← getProp caps (js "available");
         if is_str (js "no") available then Returned None
         else create api)
      with
      | Returned session => session
      | Threw _ => None
      end
  end.

Definition initLanguageModel (env : Env) : option Session :=
  initCapability (ai_languageModel env).

Definition initTranslator (env : Env) : option TranslatorSession :=
  initCapability (ai_translator env).

(** The cached session once [analyzeEmotion] has made sure of it. *)
Definition ensureSession (env : Env) (cache : Cache) : option Session :=
  match languageModelSession cache with
  | Some session => Some session
  | None => initLanguageModel env
  end.

(** [s.trim()] and [s.includes(sub)] *)
Fixpoint trimStart (s : jsstring) : jsstring :=
  match s with
  | c :: s' => if Str.isWhiteSpace c then trimStart s' else s
  | [] => []
  end.

Definition trim (s : jsstring) : jsstring :=
  rev (trimStart (rev (trimStart s))).

Fixpoint includes (sub s : jsstring) : bool :=
  bool_decide (take (length sub) s = sub)
  || match s with
     | [] => false
     | _ :: s' => includes sub s'
     end.

(** The share of code units below 128 in a text, not a number for the
    empty text; and [ratio > q]. *)
Definition asciiRatio (text : jsstring) : option number :=
  if (length text =? 0)%nat then None
  else Some (Num.div_nat (length (List.filter (fun c => c <? 128) text))
                         (length text)).

Definition ratioAbove (ratio : option number) (q : Q) : bool :=
  match ratio with
  | Some r => Num.gtb r (Finite q)
  | None => false
  end.

Definition detectionPrompt (text : jsstring) : jsstring :=
  js "What language is this text written in? Respond with ONLY the language name in English (e.g., "
  ++ [34] ++ js "English" ++ [34] ++ js ", "
  ++ [34] ++ js "Spanish" ++ [34] ++ js ", "
  ++ [34] ++ js "French" ++ [34] ++ js ", etc.): "
  ++ [34] ++ take 200 text ++ [34].

Definition isEnglishText (session : option Session) (text : jsstring) : bool :=
  match
    (let ratio := asciiRatio text in
     if ratioAbove ratio (9 # 10) then Returned true
     else
       match session with
       | Some s =>
           response ← prompt s (detectionPrompt text);
           match response with
           | JStr r =>
               let detectedLanguage := toLowerCase (trim r) in
               Returned (includes (js "english") detectedLanguage
                         || bool_decide (detectedLanguage = js "en"))
           | _ => Threw TypeError
           end
       | None => Returned (ratioAbove ratio (8 # 10))
       end)
  with
  | Returned isEnglish => isEnglish
  | Threw _ => true
  end.

Definition translateForAnalysis (env : Env) (session : option Session)
    (cache : Cache) (text : jsstring) : outcome value :=
  try_catch
    (if isEnglishText session text then Returned (JStr text)
     else
       let translator :=
         match translatorSession cache with
         | Some t => Some t
         | None => initTranslator env
         end in
       match translator with
       | Some t =>
           translatedText ← translate t text;
           if truthy translatedText && negb (is_str text translatedText)
           then Returned translatedText
           else Returned (JStr text)
       | None => Returned (JStr text)
       end)
    (fun error => _ ← error_message error; Returned (JStr text)).

(** [v.slice(0, n)] *)
Definition slice0 (n : nat) (v : value) : outcome value :=
  match v with
  | JStr s => Returned (JStr (take n s))
  | JArr items => Returned (JArr (take n items))
  | _ => Threw TypeError
  end.

(** [response.match(/\{[\s\S]*\}/)] *)
Definition response_match (response : value) : outcome (option jsstring) :=
  match response with
  | JStr s => Returned (Str.match_braces s)
  | _ => Threw TypeError
  end.

(** [Math.min(Math.max(x, 0), 1)] *)
Definition clamp01 (x : number) : number :=
  Num.min (Num.max x Num.zero) Num.one.

(** The inner [try] block: the validated result, if there is one. *)
Definition parseResponse (response : value)
    : outcome (option ClassificationResult) :=
  jsonMatch ← response_match response;
  match jsonMatch with
  | Some matched =>
      result ← JSON_parse matched;
      resultEmotion ← getProp result (js "emotion");
      match truthy resultEmotion, prop result (js "score") with
      | true, JNum resultScore =>
          Returned (Some
            {| emotion := resultEmotion;
               score := clamp01 resultScore;
               intensity :=
                 or_else (prop result (js "intensity")) (JStr (js "medium"));
               keywords := or_else (prop result (js "keywords")) (JArr []);
               suggestion := or_else (prop result (js "suggestion")) (JStr []);
               source := JStr (js "chrome-ai") |})
      | _, _ => Returned None
      end
  | None => Returned None
  end.

Definition promptFor (truncatedText : value) : jsstring :=
  js "Analyze the emotional tone of this text and respond with JSON only:"
  ++ [10; 10; 34] ++ ToString truncatedText ++ [34].

Definition analyzeEmotion (env : Env) (cache : Cache) (text : jsstring)
    : outcome ClassificationResult :=
  try_catch
    (match ensureSession env cache with
     | None => Returned (fallbackEmotionAnalysis text)
     | Some session =>
         textForAnalysis ← translateForAnalysis env (Some session) cache text;
         truncatedText ← slice0 5000 textForAnalysis;
         response ← prompt session (promptFor truncatedText);
         parsed ← try_catch (parseResponse response)
                            (fun parseError => Returned None);
         match parsed with
         | Some result => Returned result
         | None => Returned (fallbackEmotionAnalysis text)
         end
     end)
    (fun error => Returned (fallbackEmotionAnalysis text)).

(** *** The recommendation engine of the service *)

Definition recommendations : list (jsstring * list jsstring) := [
  (js "anxiety", [js "breathing"; js "mindfulness"]);
  (js "anger", [js "breathing"; js "mindfulness"]);
  (js "negative", [js "affirmation"; js "mindfulness"]);
  (js "positive", [js "affirmation"]);
  (js "neutral", [js "breathing"; js "affirmation"; js "mindfulness"])
].

(** [recommendations[emotion] || recommendations.neutral] *)
Definition suggestedFor (emotion : jsstring) : tableEntry (list jsstring) :=
  tableLookup recommendations emotion (js "neutral").

(** The callback of [suggested.filter]. *)
Definition isAvailable (preferences : value) (ex : jsstring) : outcome bool :=
  preferredExercises ← getProp preferences (js "preferredExercises");
  Returned (negb (truthy preferredExercises)
            || negb (is_false (prop preferredExercises ex))).

(** [availableExercises[0] || "breathing"] *)
Definition firstOr (fallback : jsstring) (exercises : list jsstring)
    : jsstring :=
  match exercises with
  | ex :: _ => if bool_decide (ex = []) then fallback else ex
  | [] => fallback
  end.

Definition getRecommendedExercise (emotion : jsstring) (preferences : value)
    : outcome jsstring :=
  let preferences :=
    match preferences with
    | JUndefined => JObj []
    | _ => preferences
    end in
  match suggestedFor emotion with
  | Own suggested | Fallback suggested =>
      availableExercises ← filterM (isAvailable preferences) suggested;
      Returned (firstOr (js "breathing") availableExercises)
  | Inherited => Threw TypeError
  end.

End with_host.

Arguments fallbackEmotionAnalysis : simpl never.
Arguments promptFor : simpl never.

End AIService.

(** ** Stored records *)

Module EmotionRecord.
Record t : Type := {
  ts : Z;
  url : value;
  title : value;
  emotion : value;
  score : value;
  intensity : value;
  keywords : value;
  suggestion : value;
  source : value
}.
End EmotionRecord.

Module ExerciseRecord.
Record t : Type := {
  ts : Z;
  exercise : value;
  duration : value;
  completed : value
}.
End ExerciseRecord.

(** [chrome.storage.local], as far as the two logs go. *)
Record Storage : Type := {
  emotionHistory : list EmotionRecord.t;
  exerciseHistory : list ExerciseRecord.t
}.

(** ** content.js: the message sent after an analysis *)

Module Content.

Definition trackEmotionMessage (result : AIService.ClassificationResult)
    : value :=
  JObj [
    (js "type", JStr (js "TRACK_EMOTION"));
    (js "emotion", AIService.emotion result);
    (js "score", JNum (AIService.score result));
    (js "intensity", AIService.intensity result);
    (js "keywords", AIService.keywords result);
    (js "suggestion", AIService.suggestion result);
    (js "source", AIService.source result)
  ].

End Content.

(** ** background.js *)

Module Background.

Definition DEFAULT_CONFIG : value :=
  JObj [
    (js "reminderIntervalMinutes", JNum (Finite 120));
    (js "sensitivity", JStr (js "medium"));
    (js "enabledNotifications", JBool true);
    (js "trackEmotions",
     JObj [(js "positive", JBool true); (js "negative", JBool true);
           (js "anxiety", JBool true); (js "anger", JBool true);
           (js "neutral", JBool true)]);
    (js "preferredExercises",
     JObj [(js "breathing", JBool true); (js "affirmation", JBool true);
           (js "mindfulness", JBool true)]);
    (js "exerciseDuration", JNum (Finite 60));
    (js "enableSoundEffects", JBool true);
    (js "highContrastMode", JBool false)
  ].

Definition recommendations : list (jsstring * list jsstring) := [
  (js "anxiety", [js "breathing"; js "mindfulness"]);
  (js "anger", [js "breathing"; js "mindfulness"]);
  (js "negative", [js "affirmation"; js "mindfulness"]);
  (js "positive", [js "affirmation"]);
  (js "neutral", [js "breathing"; js "affirmation"; js "mindfulness"])
].

(** [cfg.preferredExercises && cfg.preferredExercises[ex]], as a
    condition. *)
Definition isPreferred (preferredExercises : value) (ex : jsstring) : bool :=
  truthy preferredExercises && truthy (prop preferredExercises ex).

(** The list of preferred exercises, all three when none is preferred. *)
Definition preferredList (preferredExercises : value) : list jsstring :=
  let exercises :=
    (if isPreferred preferredExercises (js "breathing")
     then [js "breathing"] else [])
    ++ (if isPreferred preferredExercises (js "affirmation")
        then [js "affirmation"] else [])
    ++ (if isPreferred preferredExercises (js "mindfulness")
        then [js "mindfulness"] else []) in
  if (length exercises =? 0)%nat
  then [js "breathing"; js "affirmation"; js "mindfulness"]
  else exercises.

(** [for (const ex of suggested) if (exercises.includes(ex)) return ex] *)
Fixpoint firstIncluded (exercises suggested : list jsstring)
    : option jsstring :=
  match suggested with
  | [] => None
  | ex :: rest =>
      if bool_decide (ex ∈ exercises) then Some ex
      else firstIncluded exercises rest
  end.

Definition getRecommendedExercise (emotion : jsstring) (cfg : value)
    : outcome jsstring :=
  preferredExercises ← getProp cfg (js "preferredExercises");
  let exercises := preferredList preferredExercises in
  match tableLookup recommendations emotion (js "neutral") with
  | Own suggested | Fallback suggested =>
      match firstIncluded exercises suggested with
      | Some ex => Returned ex
      | None => Returned (AIService.firstOr (js "breathing") exercises)
      end
  | Inherited => Threw TypeError
  end.

(** The record the TRACK_EMOTION handler builds, stamped [now]. *)
Definition emotionRecord (now : Z) (msg sender : value) : EmotionRecord.t :=
  let tab := prop sender (js "tab") in
  {| EmotionRecord.ts := now;
     EmotionRecord.url := if truthy tab then prop tab (js "url") else JNull;
     EmotionRecord.title :=
       if truthy tab then prop tab (js "title") else JNull;
     EmotionRecord.emotion := prop msg (js "emotion");
     EmotionRecord.score := or_else (prop msg (js "score")) JNull;
     EmotionRecord.intensity :=
       or_else (prop msg (js "intensity")) (JStr (js "medium"));
     EmotionRecord.keywords := or_else (prop msg (js "keywords")) (JArr []);
     EmotionRecord.suggestion :=
       or_else (prop msg (js "suggestion")) (JStr []);
     EmotionRecord.source :=
       or_else (prop msg (js "source")) (JStr (js "unknown")) |}.

Definition exerciseRecord (now : Z) (msg : value) : ExerciseRecord.t :=
  {| ExerciseRecord.ts := now;
     ExerciseRecord.exercise := prop msg (js "exercise");
     ExerciseRecord.duration := or_else (prop msg (js "duration")) JNull;
     ExerciseRecord.completed :=
       or_else (prop msg (js "completed")) (JBool false) |}.

Definition sevenDays : Z := 7 * 24 * 60 * 60 * 1000.
Definition thirtyDays : Z := 30 * 24 * 60 * 60 * 1000.

(** The retention filter: [arr.filter(r => r.ts >= now - retention)]. *)
Definition evict (retention now : Z) (arr : list EmotionRecord.t)
    : list EmotionRecord.t :=
  filter (fun r => (now - retention <= EmotionRecord.ts r)%Z) arr.

Definition evictExercises (retention now : Z) (arr : list ExerciseRecord.t)
    : list ExerciseRecord.t :=
  filter (fun r => (now - retention <= ExerciseRecord.ts r)%Z) arr.

(** The message listener's effect on the store.  The clock is read twice:
    [stamp] when the record is built, [now] inside the storage callback. *)
Definition onMessage (stamp now : Z) (msg sender : value) (st : Storage)
    : Storage :=
  if truthy msg && is_str (js "TRACK_EMOTION") (prop msg (js "type")) then
    let record := emotionRecord stamp msg sender in
    let arr := emotionHistory st ++ [record] in
    {| emotionHistory := evict sevenDays now arr;
       exerciseHistory := exerciseHistory st |}
  else if truthy msg && is_str (js "TRACK_EXERCISE") (prop msg (js "type"))
  then
    let record := exerciseRecord stamp msg in
    let arr := exerciseHistory st ++ [record] in
    {| emotionHistory := emotionHistory st;
       exerciseHistory := evictExercises thirtyDays now arr |}
  else st.

(** The recommendation the TRACK_EMOTION handler replies with. *)
Definition trackEmotionReply `{Host} (msg cfg : value) : outcome jsstring :=
  getRecommendedExercise (ToString (prop msg (js "emotion"))) cfg.

End Background.

(** ** dashboard.js *)

Module Dashboard.
Section with_host.
Context `{Host}.

(** [loadData]: the slice of the emotion log shown for a period that
    starts at [startTime]. *)
Definition queryWindow (startTime : Z) (allEmotions : list EmotionRecord.t)
    : list EmotionRecord.t :=
  filter (fun r => (startTime <= EmotionRecord.ts r)%Z) allEmotions.

(** [acc[r.emotion] = (acc[r.emotion] || 0) + 1].  The four keys read
    below are not inherited ones, for which the stored value would not
    be a count. *)
Definition countStep (acc : gmap (list N) nat) (r : EmotionRecord.t)
    : gmap (list N) nat :=
  let key := ToString (EmotionRecord.emotion r) in
  <[key := (default 0 (acc !! key) + 1)%nat]> acc.

Definition countEmotions (emotionData : list EmotionRecord.t)
    : gmap (list N) nat :=
  fold_left countStep emotionData ∅.

(** [counts.k || 0] *)
Definition countOf (counts : gmap (list N) nat) (k : jsstring) : nat :=
  default 0%nat (counts !! k).

(** [n > total * q] *)
Definition exceeds (n total : nat) (q : Q) : bool :=
  Num.gtb (Num.of_nat n) (Finite (inject_Z (Z.of_nat total) * q)).

Definition decimal (n : nat) : jsstring := ToString (JNum (Num.of_nat n)).

Definition msgPositive : jsstring :=
  js "You've been exposed to mostly positive content. Great job curating your digital environment!".
Definition msgNegative : jsstring :=
  js "You've encountered significant negative or stressful content. Consider taking breaks or using wellness exercises more frequently.".
Definition msgBalanced : jsstring :=
  js "Your emotional exposure is balanced. Keep monitoring your wellbeing as you browse.".
Definition msgAnxiety : jsstring :=
  js "High anxiety detection. Try the breathing exercise to help manage stress levels.".
Definition msgCommitment (completedExercises : nat) : jsstring :=
  js "Great commitment! You've completed " ++ decimal completedExercises
  ++ js " wellness exercises. Keep up the self-care!".
Definition msgTryExercises : jsstring :=
  js "You haven't tried any wellness exercises yet. They can help manage stress and improve your mood.".
Definition msgAi (aiAnalyzed : nat) : jsstring :=
  decimal aiAnalyzed
  ++ js " analyses were powered by Chrome's built-in AI for enhanced accuracy.".

(** What [generateInsights] renders: the empty state, or the insight
    items in order. *)
Inductive insightView : Type :=
  | NotEnoughData
  | Insights (items : list jsstring).

Definition generateInsights (emotionData : list EmotionRecord.t)
    (exerciseData : list ExerciseRecord.t) : insightView :=
  if (length emotionData <? 5)%nat then NotEnoughData
  else
    let counts := countEmotions emotionData in
    let total := length emotionData in
    let negativeCount :=
      (countOf counts (js "negative") + countOf counts (js "anxiety")
       + countOf counts (js "anger"))%nat in
    let positiveCount := countOf counts (js "positive") in
    let mood :=
      if exceeds positiveCount total (5 # 10) then [msgPositive]
      else if exceeds negativeCount total (5 # 10) then [msgNegative]
      else [msgBalanced] in
    let anxietyInsight :=
      if exceeds (countOf counts (js "anxiety")) total (3 # 10)
      then [msgAnxiety] else [] in
    let completedExercises :=
      length (List.filter (fun e => truthy (ExerciseRecord.completed e))
                          exerciseData) in
    let exerciseInsight :=
      if (5 <? completedExercises)%nat then [msgCommitment completedExercises]
      else if (completedExercises =? 0)%nat && (3 <? negativeCount)%nat
      then [msgTryExercises]
      else [] in
    let aiAnalyzed :=
      length (List.filter
                (fun e => is_str (js "chrome-ai") (EmotionRecord.source e))
                emotionData) in
    let aiInsight := if (0 <? aiAnalyzed)%nat then [msgAi aiAnalyzed] else [] in
    Insights (mood ++ anxietyInsight ++ exerciseInsight ++ aiInsight).

End with_host.
End Dashboard.

(** ** A reference host

    An executable instance of the host interface, used to run the
    definitions on concrete inputs.  Case mapping covers Basic Latin and
    the Latin-1 Supplement, the blocks the lexicon is written in; the JSON
    reader keeps numbers exact instead of rounding them to doubles. *)

Module ReferenceHost.

Definition lowerUnit (c : code_unit) : code_unit :=
  if Str.between 65 90 c then c + 32
  else if Str.between 192 222 c && negb (c =? 215) then c + 32
  else c.

Definition upperUnit (c : code_unit) : code_unit :=
  if Str.between 97 122 c then c - 32
  else if Str.between 224 254 c && negb (c =? 247) then c - 32
  else if c =? 255 then 376
  else if c =? 181 then 924
  else c.

Definition digits (n : N) : jsstring :=
  js (DecimalString.NilZero.string_of_uint (N.to_uint n)).

(** Decimal digits of the fraction [r / d], at most [k] of them. *)
Fixpoint fraction (k : nat) (r d : N) : jsstring :=
  match k with
  | O => []
  | S k' =>
      if r =? 0 then []
      else (48 + (10 * r) / d) :: fraction k' ((10 * r) mod d) d
  end.

Definition numberToString (x : number) : jsstring :=
  match x with
  | PosInfinity => js "Infinity"
  | NegInfinity => js "-Infinity"
  | Finite q =>
      let n := Z.abs_N (Qnum q) in
      let d := Npos (Qden q) in
      (if (Qnum q <? 0)%Z then js "-" else [])
      ++ digits (n / d)
      ++ (if n mod d =? 0 then [] else js "." ++ fraction 17 (n mod d) d)
  end.

(** *** Reading JSON *)

Definition isJsonSpace (c : code_unit) : bool :=
  (c =? 32) || (c =? 9) || (c =? 10) || (c =? 13).

Fixpoint skipSpace (s : jsstring) : jsstring :=
  match s with
  | c :: s' => if isJsonSpace c then skipSpace s' else s
  | [] => []
  end.

Definition isDigit (c : code_unit) : bool := Str.between 48 57 c.

Definition hexValue (c : code_unit) : option N :=
  if isDigit c then Some (c - 48)
  else if Str.between 97 102 c then Some (c - 87)
  else if Str.between 65 70 c then Some (c - 55)
  else None.

(** The characters of a string literal after its opening quote. *)
Fixpoint readString (s : jsstring) : option (jsstring * jsstring) :=
  match s with
  | [] => None
  | 34 :: rest => Some ([], rest)
  | 92 :: e :: rest =>
      if e =? 117 then
        match rest with
        | h1 :: h2 :: h3 :: h4 :: rest' =>
            match hexValue h1, hexValue h2, hexValue h3, hexValue h4,
                  readString rest' with
            | Some a, Some b, Some c, Some d, Some (str, rest'') =>
                Some ((a * 4096 + b * 256 + c * 16 + d) :: str, rest'')
            | _, _, _, _, _ => None
            end
        | _ => None
        end
      else
        let unescaped :=
          if (e =? 34) || (e =? 92) || (e =? 47) then Some e
          else if e =? 98 then Some 8
          else if e =? 102 then Some 12
          else if e =? 110 then Some 10
          else if e =? 114 then Some 13
          else if e =? 116 then Some 9
          else None in
        match unescaped, readString rest with
        | Some c, Some (str, rest') => Some (c :: str, rest')
        | _, _ => None
        end
  | c :: rest =>
      if c <? 32 then None
      else
        match readString rest with
        | Some (str, rest') => Some (c :: str, rest')
        | None => None
        end
  end.

(** A run of digits: its value continuing from [acc], how many there
    were, and the rest. *)
Fixpoint readDigits (acc : N) (count : nat) (s : jsstring)
    : N * nat * jsstring :=
  match s with
  | c :: s' =>
      if isDigit c then readDigits (acc * 10 + (c - 48)) (S count) s'
      else (acc, count, s)
  | [] => (acc, count, s)
  end.

Definition readExponent (s : jsstring) : option (Z * jsstring) :=
  match s with
  | c :: s' =>
      if (c =? 101) || (c =? 69) then
        let '(negative, s'') :=
          match s' with
          | 45 :: t => (true, t)
          | 43 :: t => (false, t)
          | _ => (false, s')
          end in
        let '(e, count, rest) := readDigits 0 0 s'' in
        if (count =? 0)%nat then None
        else Some (if negative then (- Z.of_N e)%Z else Z.of_N e, rest)
      else Some (0%Z, s)
  | [] => Some (0%Z, s)
  end.

Definition scaled (negative : bool) (mantissa : N) (exponent : Z) : number :=
  let m := inject_Z (Z.of_N mantissa) in
  let q :=
    if (0 <=? exponent)%Z then (m * inject_Z (10 ^ exponent))%Q
    else (m / inject_Z (10 ^ (- exponent)))%Q in
  if Qle_bool (inject_Z (2 ^ 1024)) q then
    if negative then NegInfinity else PosInfinity
  else Finite (Qred (if negative then - q else q)).

Definition readNumber (s : jsstring) : option (number * jsstring) :=
  let '(negative, s1) :=
    match s with
    | 45 :: t => (true, t)
    | _ => (false, s)
    end in
  let '(int, intCount, s2) := readDigits 0 0 s1 in
  let leadingZero :=
    match s1 with
    | 48 :: _ => (1 <? intCount)%nat
    | _ => false
    end in
  if (intCount =? 0)%nat || leadingZero then None
  else
    let fractionPart :=
      match s2 with
      | 46 :: t =>
          let '(m, count, s3) := readDigits int 0 t in
          if (count =? 0)%nat then None else Some (m, count, s3)
      | _ => Some (int, 0%nat, s2)
      end in
    match fractionPart with
    | Some (mantissa, fractionCount, s3) =>
        match readExponent s3 with
        | Some (e, rest) =>
            Some (scaled negative mantissa (e - Z.of_nat fractionCount),
                  rest)
        | None => None
        end
    | None => None
    end.

Definition expect (word : jsstring) (v : value) (s : jsstring)
    : option (value * jsstring) :=
  if bool_decide (take (length word) s = word)
  then Some (v, drop (length word) s) else None.

(** A later member replaces an earlier one of the same name. *)
Definition setField (k : jsstring) (v : value)
    (fields : list (jsstring * value)) : list (jsstring * value) :=
  List.filter (fun kv => negb (bool_decide (kv.1 = k))) fields ++ [(k, v)].

Fixpoint readValue (fuel : nat) (s : jsstring) : option (value * jsstring) :=
  match fuel with
  | O => None
  | S fuel' =>
      match skipSpace s with
      | 123 :: rest =>
          match skipSpace rest with
          | 125 :: rest' => Some (JObj [], rest')
          | _ => readMembers fuel' [] rest
          end
      | 91 :: rest =>
          match skipSpace rest with
          | 93 :: rest' => Some (JArr [], rest')
          | _ => readElements fuel' [] rest
          end
      | 34 :: rest =>
          match readString rest with
          | Some (str, rest') => Some (JStr str, rest')
          | None => None
          end
      | 116 :: _ => expect (js "true") (JBool true) (skipSpace s)
      | 102 :: _ => expect (js "false") (JBool false) (skipSpace s)
      | 110 :: _ => expect (js "null") JNull (skipSpace s)
      | _ =>
          match readNumber (skipSpace s) with
          | Some (n, rest) => Some (JNum n, rest)
          | None => None
          end
      end
  end
with readMembers (fuel : nat) (fields : list (jsstring * value))
    (s : jsstring) : option (value * jsstring) :=
  match fuel with
  | O => None
  | S fuel' =>
      match skipSpace s with
      | 34 :: rest =>
          match readString rest with
          | Some (key, rest1) =>
              match skipSpace rest1 with
              | 58 :: rest2 =>
                  match readValue fuel' rest2 with
                  | Some (v, rest3) =>
                      let fields' := setField key v fields in
                      match skipSpace rest3 with
                      | 44 :: rest4 => readMembers fuel' fields' rest4
                      | 125 :: rest4 => Some (JObj fields', rest4)
                      | _ => None
                      end
                  | None => None
                  end
              | _ => None
              end
          | None => None
          end
      | _ => None
      end
  end
with readElements (fuel : nat) (items : list value) (s : jsstring)
    : option (value * jsstring) :=
  match fuel with
  | O => None
  | S fuel' =>
      match readValue fuel' s with
      | Some (v, rest) =>
          match skipSpace rest with
          | 44 :: rest' => readElements fuel' (items ++ [v]) rest'
          | 93 :: rest' => Some (JArr (items ++ [v]), rest')
          | _ => None
          end
      | None => None
      end
  end.

Definition parse (s : jsstring) : outcome value :=
  match readValue (S (length s)) s with
  | Some (v, rest) =>
      match skipSpace rest with
      | [] => Returned v
      | _ => Threw SyntaxError
      end
  | None => Threw SyntaxError
  end.

Definition host : Host := {|
  toLowerCase := List.map lowerUnit;
  canonicalize := upperUnit;
  JSON_parse := parse;
  Number_toString := numberToString
|}.

End ReferenceHost.

(** ** Vocabulary of the specification *)

Module Spec.
Section with_host.
Context `{Host}.

(** The closed enumeration of emotion categories. *)
Definition emotionCategories : list jsstring :=
  [js "positive"; js "negative"; js "anxiety"; js "anger"; js "neutral"].

Definition isCategory (v : value) : Prop :=
  exists e, e ∈ emotionCategories /\ v = JStr e.

Definition inUnitInterval (x : number) : Prop :=
  Num.le Num.zero x /\ Num.le x Num.one.

(** The lexicon terms of a category. *)
Definition keywordsOf (category : jsstring) : list jsstring :=
  default [] (assoc category AIService.emotionKeywords).

(** Whole-word matches of one term in a text. *)
Definition matchCount (lowerText keyword : jsstring) : nat :=
  length (Str.scan keyword None 0 lowerText).

(** Matches of a list of terms, summed. *)
Definition termMatches (lowerText : jsstring) (terms : list jsstring) : nat :=
  sum_list (List.map (matchCount lowerText) terms).

(** The match count of a category. *)
Definition categoryCount (lowerText category : jsstring) : nat :=
  termMatches lowerText (keywordsOf category).

(** The order in which the classifier visits the categories. *)
Definition scanOrder : list jsstring :=
  [js "positive"; js "negative"; js "anxiety"; js "anger"].

(** The intensity label of a score. *)
Definition intensityOf (q : Q) : jsstring :=
  if Qlt_le_dec (2 # 100) q then js "high"
  else if Qlt_le_dec (1 # 100) q then js "medium"
  else js "low".

(** The three exercises, and what it is for one to be explicitly
    disabled in a preferences mapping. *)
Definition exerciseIds : list jsstring :=
  [js "breathing"; js "affirmation"; js "mindfulness"].

Definition disabledIn (mapping : value) (ex : jsstring) : Prop :=
  truthy mapping = true /\ prop mapping ex = JBool false.

(** Not explicitly disabled: the service's reading of a preference. *)
Definition availableIn (mapping : value) (ex : jsstring) : Prop :=
  ~ disabledIn mapping ex.

(** Preferred, and enabled: the worker's reading, under which all three
    exercises are enabled when none is preferred. *)
Definition preferredIn (mapping : value) (ex : jsstring) : bool :=
  truthy mapping && truthy (prop mapping ex).

Definition enabledIn (mapping : value) (ex : jsstring) : Prop :=
  ex ∈ exerciseIds
  /\ (preferredIn mapping ex = true
      \/ Forall (fun x => preferredIn mapping x = false) exerciseIds).

(** Every entry of a mapping is [false] or truthy. *)
Definition regularIn (mapping : value) : Prop :=
  Forall (fun ex => prop mapping ex = JBool false
                    \/ truthy (prop mapping ex) = true) exerciseIds.

(** The candidate list of an emotion in the fixed priority table, the
    neutral one for an emotion the table does not list. *)
Definition candidatesOf (emotion : jsstring) : list jsstring :=
  match tableLookup AIService.recommendations emotion (js "neutral") with
  | Own l | Fallback l => l
  | Inherited => []
  end.

Definition candidateLists : list (list jsstring) :=
  [[js "breathing"; js "mindfulness"]; [js "affirmation"; js "mindfulness"];
   [js "affirmation"]; [js "breathing"; js "affirmation"; js "mindfulness"]].

(** The two selection rules on one candidate list. *)
Definition serviceChoice (mapping : value) (suggested : list jsstring)
    : jsstring :=
  AIService.firstOr (js "breathing")
    (List.filter (fun ex => negb (truthy mapping)
                            || negb (is_false (prop mapping ex))) suggested).

Definition workerChoice (mapping : value) (suggested : list jsstring)
    : jsstring :=
  match Background.firstIncluded (Background.preferredList mapping) suggested
  with
  | Some ex => ex
  | None => AIService.firstOr (js "breathing")
              (Background.preferredList mapping)
  end.

(** A message the TRACK_EMOTION branch of the listener accepts. *)
Definition isTrackEmotion (msg : value) : Prop :=
  truthy msg = true /\ prop msg (js "type") = JStr (js "TRACK_EMOTION").

(** The first element of a list that satisfies [P], all earlier ones
    failing it. *)
Definition firstSuch {A} (P : A -> Prop) (l : list A) (x : A) : Prop :=
  exists before after,
    l = before ++ x :: after /\ Forall (fun y => ~ P y) before /\ P x.

(** Records of a slice whose emotion names the given category. *)
Definition recordsOf (category : jsstring)
    (emotionData : list EmotionRecord.t) : nat :=
  length (List.filter
            (fun r => bool_decide
                        (ToString (EmotionRecord.emotion r) = category))
            emotionData).

End with_host.
End Spec.

(** ** Scenarios *)

Module Scenario.

Definition quoted (s : string) : jsstring := [34] ++ js s ++ [34].

(** A browser without the built-in capabilities, and empty caches. *)
Definition noModel : AIService.Env :=
  {| AIService.ai_languageModel := None;
     AIService.ai_translator := None |}.

Definition cold : AIService.Cache :=
  {| AIService.languageModelSession := None;
     AIService.translatorSession := None |}.

(** A browser whose language model answers every prompt the same way. *)
Definition answering (response : outcome value) : AIService.Env :=
  {| AIService.ai_languageModel :=
       Some {| AIService.capabilities :=
                 Returned (JObj [(js "available", JStr (js "readily"))]);
               AIService.create :=
                 Returned
                   (Some {| AIService.prompt := fun _ => response |}) |};
     AIService.ai_translator := None |}.

(** The response text [{"emotion": "joy", "score": 0.9}]. *)
Definition joyResponse : jsstring :=
  js "{" ++ quoted "emotion" ++ js ": " ++ quoted "joy" ++ js ", "
  ++ quoted "score" ++ js ": 0.9}".

(** The text of the specification's positive scenario. *)
Definition happyText : jsstring :=
  js "I am so happy and joyful today, what a wonderful and amazing day".

(** Configurations: [{preferredExercises: {affirmation: false}}], and one
    that leaves only mindfulness on. *)
Definition affirmationOff : value :=
  JObj [(js "preferredExercises", JObj [(js "affirmation", JBool false)])].

Definition onlyMindfulness : value :=
  JObj [(js "preferredExercises",
         JObj [(js "breathing", JBool false); (js "affirmation", JBool false);
               (js "mindfulness", JBool true)])].

Definition sender : value :=
  JObj [(js "tab", JObj [(js "url", JStr (js "https://example.org/"));
                         (js "title", JStr (js "Example"))])].

(** A stored record with a given time stamp and emotion. *)
Definition stored (ts : Z) (emotion : string) : EmotionRecord.t :=
  {| EmotionRecord.ts := ts;
     EmotionRecord.url := JNull;
     EmotionRecord.title := JNull;
     EmotionRecord.emotion := JStr (js emotion);
     EmotionRecord.score := JNum (Finite (1 # 10));
     EmotionRecord.intensity := JStr (js "high");
     EmotionRecord.keywords := JArr [];
     EmotionRecord.suggestion := JStr [];
     EmotionRecord.source := JStr (js "multilingual-heuristic") |}.

(** Ten records, six of them positive; and eight, four of them positive. *)
Definition sixOfTen : list EmotionRecord.t :=
  List.map (stored 1000)
    ["positive"; "negative"; "positive"; "anxiety"; "positive"; "neutral";
     "positive"; "positive"; "anger"; "positive"]%string.

Definition fourOfEight : list EmotionRecord.t :=
  List.map (stored 1000)
    ["positive"; "negative"; "positive"; "anxiety"; "positive"; "neutral";
     "neutral"; "positive"]%string.

(** A store with one expired and one recent record, and the messages
    content.js sends for the positive scenario and for the empty text. *)
Definition clock : Z := 1700000000000.
Definition day : Z := 24 * 60 * 60 * 1000.

Definition log : Storage :=
  {| emotionHistory :=
       [stored 1000 "negative"; stored (clock - day) "positive"];
     exerciseHistory := [] |}.

Definition happyMessage : value :=
  Content.trackEmotionMessage
    (AIService.fallbackEmotionAnalysis (H := ReferenceHost.host) happyText).

Definition silentMessage : value :=
  Content.trackEmotionMessage
    (AIService.fallbackEmotionAnalysis (H := ReferenceHost.host) []).

End Scenario.

(** ** ai-service.js: summaries, generated texts and the availability check *)

Module Generation.
Section with_host.
Context `{Host}.

(** A summarizer session: [session.summarize(text)]. *)
Record SummarizerSession : Type := {
  summarize : jsstring -> outcome value
}.

(** [initSummarizer]: the session left in the cache. *)
Definition initSummarizer
    (ai_summarizer : option (AIService.Capability SummarizerSession))
    : option SummarizerSession :=
  AIService.initCapability ai_summarizer.

Definition summaryUnavailable : jsstring :=
  js "Summary not available. Chrome AI Summarizer is not enabled.".

(** [text.slice(0, 500) + "..."] *)
Definition excerpt (text : jsstring) : jsstring := take 500 text ++ js "...".

Definition summarizeContent
    (ai_summarizer : option (AIService.Capability SummarizerSession))
    (summarizerSession : option SummarizerSession) (text : jsstring)
    : outcome value :=
  try_catch
    (let session :=
       match summarizerSession with
       | Some s => Some s
       | None => initSummarizer ai_summarizer
       end in
     match session with
     | None => Returned (JStr summaryUnavailable)
     | Some s =>
         summary ← summarize s text;
         Returned (or_else summary (JStr (excerpt text)))
     end)
    (fun error => Returned (JStr (excerpt text))).

(** What a text generator hands back: a text, or the member of
    [Object.prototype] that a table lookup by an inherited name yields. *)
Inductive reply : Type :=
  | Text (s : jsstring)
  | Member (name : jsstring).

(** [table[emotion] || table.neutral] on a table of texts. *)
Definition tableReply (table : list (jsstring * jsstring))
    (emotion : jsstring) : reply :=
  match tableLookup table emotion (js "neutral") with
  | Own s =>
      if bool_decide (s = []) then Text (default [] (assoc (js "neutral") table))
      else Text s
  | Fallback s => Text s
  | Inherited => Member emotion
  end.

Definition affirmations : list (jsstring * jsstring) := [
  (js "anxiety",
   js "I am calm and in control. I breathe deeply and release tension.");
  (js "anger",
   js "I choose peace over frustration. I release what I cannot control.");
  (js "negative",
   js "I am resilient and capable. Better moments are coming.");
  (js "positive",
   js "I embrace this positive energy and share it with the world.");
  (js "neutral", js "I am present and aware. I appreciate this moment.")
].

Definition getFallbackAffirmation (emotion : jsstring) : reply :=
  tableReply affirmations emotion.

Definition tips : list (jsstring * jsstring) := [
  (js "anxiety",
   js "Focus on your breath. Notice 5 things you can see, 4 you can touch, 3 you can hear.");
  (js "anger",
   js "Pause before reacting. Count to 10 slowly. Notice where you feel tension in your body.");
  (js "negative",
   js "Acknowledge your feelings without judgment. They are temporary and will pass.");
  (js "positive",
   js "Savor this feeling. Take a moment to appreciate what brought you joy.");
  (js "neutral",
   js "Be present. Notice your surroundings with curiosity and openness.")
].

Definition getFallbackMindfulnessTip (emotion : jsstring) : reply :=
  tableReply tips emotion.

(** [s.replace(/^["']|["']$/g, '')]: a quote at the start goes, and so
    does a quote at the end of what is left. *)
Definition isQuote (c : code_unit) : bool := (c =? 34) || (c =? 39).

Definition stripQuotes (s : jsstring) : jsstring :=
  let s' :=
    match s with
    | c :: rest => if isQuote c then rest else s
    | [] => []
    end in
  match last s' with
  | Some c => if isQuote c then take (length s' - 1) s' else s'
  | None => s'
  end.

(** [text.trim().replace(...)] on a response, which raises unless the
    response is a string. *)
Definition cleaned (response : value) : outcome jsstring :=
  match response with
  | JStr s => Returned (stripQuotes (AIService.trim s))
  | _ => Threw TypeError
  end.

(** The common shape of [generateAffirmation] and
    [generateMindfulnessTip]. *)
Definition generateText (promptOf : jsstring -> jsstring)
    (fallback : jsstring -> reply) (env : AIService.Env)
    (cache : AIService.Cache) (emotion : jsstring) : outcome reply :=
  try_catch
    (match AIService.ensureSession env cache with
     | None => Returned (fallback emotion)
     | Some session =>
         response ← AIService.prompt session (promptOf emotion);
         text ← cleaned response;
         Returned (if bool_decide (text = []) then fallback emotion
                   else Text text)
     end)
    (fun error => Returned (fallback emotion)).

Definition affirmationPrompt (emotion : jsstring) : jsstring :=
  js "Generate a single short, positive, personal affirmation (max 15 words) for someone feeling "
  ++ emotion
  ++ js ". Respond with ONLY the affirmation text, no quotes or extra formatting.".

Definition generateAffirmation (env : AIService.Env) (cache : AIService.Cache)
    (emotion : jsstring) : outcome reply :=
  generateText affirmationPrompt getFallbackAffirmation env cache emotion.

Definition tipPrompt (emotion : jsstring) : jsstring :=
  js "Generate a brief mindfulness tip (max 25 words) for someone feeling "
  ++ emotion
  ++ js ". Focus on practical, immediate actions. Respond with ONLY the tip, no quotes.".

Definition generateMindfulnessTip (env : AIService.Env)
    (cache : AIService.Cache) (emotion : jsstring) : outcome reply :=
  generateText tipPrompt getFallbackMindfulnessTip env cache emotion.

(** One entry of [checkAIAvailability]: whether the capability is there
    and does not report "no"; a raising check counts as unavailable. *)
Definition available {S} (capability : option (AIService.Capability S))
    : bool :=
  match capability with
  | None => false
  | Some api =>
      match
        (caps ← AIService.capabilities _ api;
         state ← getProp caps (js "available");
         Returned (negb (is_str (js "no") state)))
      with
      | Returned status => status
      | Threw _ => false
      end
  end.

Record Status : Type := {
  languageModel : bool;
  summarizer : bool;
  translator : bool
}.

Definition checkAIAvailability (env : AIService.Env)
    (ai_summarizer : option (AIService.Capability SummarizerSession))
    : Status :=
  {| languageModel := available (AIService.ai_languageModel env);
     summarizer := available ai_summarizer;
     translator := available (AIService.ai_translator env) |}.

End with_host.
End Generation.

(** ** Word boundaries and letters outside ASCII *)

Module Lexicon.
Section with_host.
Context `{Host}.

(** Case folding keeps the class of a code unit: units the pattern
    compares as equal are both word characters or both not. *)
Definition wordPreserving : Prop :=
  forall a b : code_unit,
    canonicalize a = canonicalize b -> Str.isWordChar a = Str.isWordChar b.

(** No code unit of [s] that the pattern takes for [k] stands directly
    after a word character; [before] is the code unit before [s]. *)
Fixpoint followsNoWord (k : code_unit) (before : option code_unit)
    (s : jsstring) : bool :=
  match s with
  | [] => true
  | c :: s' =>
      (negb (canonicalize c =? canonicalize k) || negb (Str.wordAt before))
      && followsNoWord k (Some c) s'
  end.

End with_host.
End Lexicon.

(** ** Language detection and translation, in counts *)

Module Language.
Section with_host.
Context `{Host}.

(** The code units of a text below 128. *)
Definition asciiUnits (text : jsstring) : nat :=
  length (List.filter (fun c => c <? 128) text).

(** The translator [translateForAnalysis] turns to: the cached session,
    or the one [initTranslator] leaves. *)
Definition translatorOf (env : AIService.Env) (cache : AIService.Cache)
    : option AIService.TranslatorSession :=
  match AIService.translatorSession cache with
  | Some t => Some t
  | None => AIService.initTranslator env
  end.

(** A translator whose translations are strings. *)
Definition stringTranslator (t : AIService.TranslatorSession) : Prop :=
  forall x v, AIService.translate t x = Returned v -> exists s, v = JStr s.

(** Two sessions that answer every prompt of at most [n] code units
    alike. *)
Definition agreeUpTo (n : nat) (s1 s2 : AIService.Session) : Prop :=
  forall p, (length p <= n)%nat -> AIService.prompt s1 p = AIService.prompt s2 p.

(** The longest analysis prompt: the instruction, the quotes and 5000
    code units of text. *)
Definition promptLimit : nat :=
  Eval vm_compute in length (AIService.promptFor (JStr [])) + 5000.

(** The longest detection prompt: the question, the quotes and 200 code
    units of text. *)
Definition detectionLimit : nat :=
  Eval vm_compute in length (AIService.detectionPrompt []) + 200.

End with_host.
End Language.

(** ** content.js: the analysis of a page and the banner decision *)

Module ContentScript.

#[global] Instance number_inhabited : Inhabited number := populate Num.zero.

Section with_host.
Context `{Host}.

(** The items [chrome.storage.sync.get] hands to the callback: the
    sensitivity the options page stores, the notifications switch and
    the [trackEmotions] object with its own properties. *)
Record Config : Type := {
  sensitivity : jsstring;
  enabledNotifications : value;
  trackEmotions : list (jsstring * value)
}.

Definition defaultConfig : Config :=
  {| sensitivity := js "medium";
     enabledNotifications := JBool true;
     trackEmotions :=
       [(js "positive", JBool true); (js "negative", JBool true);
        (js "anxiety", JBool true); (js "anger", JBool true);
        (js "neutral", JBool true)] |}.

(** [config.trackEmotions[result.emotion]] as a condition: an own
    property by its value, an inherited member being truthy. *)
Definition tracked (trackEmotions : list (jsstring * value))
    (emotion : value) : bool :=
  let key := ToString emotion in
  match assoc key trackEmotions with
  | Some v => truthy v
  | None => bool_decide (key ∈ objectPrototypeMembers)
  end.

Definition thresholds : list (jsstring * number) := [
  (js "low", Finite (15 # 1000));
  (js "medium", Finite (10 # 1000));
  (js "high", Finite (5 # 1000))
].

(** [["anxiety", "anger", "negative"].includes(emotion)] *)
Definition stressful (emotion : value) : bool :=
  is_str (js "anxiety") emotion || is_str (js "anger") emotion
  || is_str (js "negative") emotion.

(** The callback of the preferences read: whether [showWellnessBanner]
    is called.  A threshold read by an inherited name is a function,
    which no score reaches. *)
Definition showsBanner (config : Config)
    (result : AIService.ClassificationResult) : bool :=
  if negb (tracked (trackEmotions config) (AIService.emotion result))
     || negb (truthy (enabledNotifications config))
  then false
  else
    match tableLookup thresholds (sensitivity config) (js "medium") with
    | Own threshold | Fallback threshold =>
        stressful (AIService.emotion result)
        && Num.leb threshold (AIService.score result)
    | Inherited => false
    end.

(** What [analyzeAndReport] does with the visible text of a page:
    nothing, or one TRACK_EMOTION message and the banner decision. *)
Inductive report : Type :=
  | Skipped
  | Reported (message : value) (banner : bool).

Definition analyzeAndReport (env : AIService.Env) (cache : AIService.Cache)
    (config : Config) (visibleText : jsstring) : report :=
  let text := take (8 * 1000) visibleText in
  if bool_decide (text = []) || (length text <? 100)%nat then Skipped
  else
    match AIService.analyzeEmotion env cache text with
    | Returned result =>
        Reported (Content.trackEmotionMessage result)
                 (showsBanner config result)
    | Threw _ => Skipped
    end.

End with_host.
End ContentScript.

(** ** background.js: the reminder alarm *)

Module Worker.

Definition WELLNESS_ALARM : jsstring := js "wellnessReminder".

(** [arr.slice(-n)] *)
Definition lastN {A} (n : nat) (arr : list A) : list A :=
  drop (length arr - n) arr.

(** [["anxiety", "anger", "negative"].includes(e.emotion)] *)
Definition stressful (e : EmotionRecord.t) : bool :=
  is_str (js "anxiety") (EmotionRecord.emotion e)
  || is_str (js "anger") (EmotionRecord.emotion e)
  || is_str (js "negative") (EmotionRecord.emotion e).

Definition rechargeMessage : jsstring :=
  js "You've been browsing for a while. Take a moment to recharge.".

Definition stressMessage : jsstring :=
  js "Detected stressful content recently. Time for a wellness break?".

(** The alarm listener: the message of the notification it creates, if
    it creates one.  [cfg] is the items object of the configuration
    read. *)
Definition onAlarm (alarmName : jsstring) (cfg : value)
    (emotionHistory : list EmotionRecord.t) : option jsstring :=
  if bool_decide (alarmName = WELLNESS_ALARM) then
    if negb (truthy (prop cfg (js "enabledNotifications"))) then None
    else
      let recentEmotions := lastN 10 emotionHistory in
      let negativeCount := length (List.filter stressful recentEmotions) in
      Some (if (5 <? negativeCount)%nat then stressMessage
            else rechargeMessage)
  else None.





End Worker.

(** ** dashboard.js: periods and statistics *)

Module DashboardPage.
Section with_host.
Context `{Host}.

(** [getDateRange]: [now] is the clock and [today] the local midnight
    before it. *)
Definition getDateRange (period : value) (now today : Z) : Z :=
  if is_str (js "today") period then today
  else if is_str (js "week") period then (now - 7 * 24 * 60 * 60 * 1000)%Z
  else if is_str (js "month") period then (now - 30 * 24 * 60 * 60 * 1000)%Z
  else today.

(** The four figures [updateStats] writes. *)
Record Stats : Type := {
  emotionTotal : nat;
  posCount : nat;
  anxCount : nat;
  exerciseTotal : nat
}.

Definition updateStats (emotionData : list EmotionRecord.t)
    (exerciseData : list ExerciseRecord.t) : Stats :=
  {| emotionTotal := length emotionData;
     posCount :=
       length (List.filter
                 (fun e => is_str (js "positive") (EmotionRecord.emotion e))
                 emotionData);
     anxCount :=
       length (List.filter
                 (fun e => is_str (js "anxiety") (EmotionRecord.emotion e))
                 emotionData);
     exerciseTotal :=
       length (List.filter (fun e => truthy (ExerciseRecord.completed e))
                           exerciseData) |}.

(** [loadData], the chart apart: the statistics and the insights of the
    slice of the current period, both over every stored exercise. *)
Record View : Type := {
  stats : Stats;
  insights : Dashboard.insightView
}.

Definition loadData (currentPeriod : value) (now today : Z) (data : Storage)
    : View :=
  let allEmotions := emotionHistory data in
  let allExercises := exerciseHistory data in
  let startTime := getDateRange currentPeriod now today in
  let filteredEmotions := Dashboard.queryWindow startTime allEmotions in
  {| stats := updateStats filteredEmotions allExercises;
     insights := Dashboard.generateInsights filteredEmotions allExercises |}.

End with_host.
End DashboardPage.

(** ** popup.js: the summary of today *)

Module Popup.
Section with_host.
Context `{Host}.

(** The counts object, by its own keys in order. *)
Definition noCounts : list (jsstring * nat) :=
  [(js "positive", 0%nat); (js "negative", 0%nat); (js "anxiety", 0%nat);
   (js "anger", 0%nat); (js "neutral", 0%nat)].

(** [if (counts.hasOwnProperty(record.emotion)) counts[record.emotion]++] *)
Definition countRecord (counts : list (jsstring * nat))
    (record : EmotionRecord.t) : list (jsstring * nat) :=
  let key := ToString (EmotionRecord.emotion record) in
  match assoc key counts with
  | Some _ =>
      List.map (fun '(k, c) =>
                  if bool_decide (k = key) then (k, S c) else (k, c))
               counts
  | None => counts
  end.

(** The four figures the popup shows. *)
Record Summary : Type := {
  positive : nat;
  negative : nat;
  anxiety : nat;
  anger : nat
}.

Definition showEmotionalSummary (today : Z) (arr : list EmotionRecord.t)
    : Summary :=
  let todayRecords := filter (fun r => (today <= EmotionRecord.ts r)%Z) arr in
  let counts := fold_left countRecord todayRecords noCounts in
  let read k := default 0%nat (assoc k counts) in
  {| positive := read (js "positive");
     negative := read (js "negative");
     anxiety := read (js "anxiety");
     anger := read (js "anger") |}.

End with_host.
End Popup.

(** ** exercises/breathing.js *)

Module Breathing.

Definition steps : list (jsstring * Z) := [
  (js "Inhale slowly", 4000%Z);
  (js "Hold", 4000%Z);
  (js "Exhale slowly", 6000%Z);
  (js "Relax", 2000%Z)
].

(** The page: the period of the running timer, if one runs, and the
    index of the step on display. *)
Record State : Type := {
  intervalId : option Z;
  stepIndex : nat
}.

Definition initial : State := {| intervalId := None; stepIndex := 0 |}.

(** [steps[stepIndex].duration] *)
Definition duration (i : nat) : Z := default 0%Z (snd <$> steps !! i).

(** The record [startCycle] pushes to the emotion log.  It has none of
    the fields of an analysis; its own [event] and [exercise] fields are
    read by no page. *)
Definition sessionRecord (now : Z) : EmotionRecord.t :=
  {| EmotionRecord.ts := now;
     EmotionRecord.url := JUndefined;
     EmotionRecord.title := JUndefined;
     EmotionRecord.emotion := JUndefined;
     EmotionRecord.score := JUndefined;
     EmotionRecord.intensity := JUndefined;
     EmotionRecord.keywords := JUndefined;
     EmotionRecord.suggestion := JUndefined;
     EmotionRecord.source := JUndefined |}.

Definition startCycle (now : Z) (page : State) (data : Storage)
    : State * Storage :=
  match intervalId page with
  | Some _ => (page, data)
  | None =>
      ({| intervalId := Some (duration (stepIndex page));
          stepIndex := stepIndex page |},
       {| emotionHistory := emotionHistory data ++ [sessionRecord now];
          exerciseHistory := exerciseHistory data |})
  end.

(** One firing of the timer. *)
Definition tick (page : State) : State :=
  match intervalId page with
  | Some _ =>
      {| intervalId := intervalId page;
         stepIndex := (stepIndex page + 1) mod length steps |}
  | None => page
  end.

Definition stopCycle (page : State) : State :=
  match intervalId page with
  | Some _ => {| intervalId := None; stepIndex := stepIndex page |}
  | None => page
  end.

End Breathing.

(** ** exercises/mindfulness.js *)

Module Mindfulness.
Section with_host.
Context `{Host}.

(** A value of the counts object: a count, or the text that adding 1 to
    an inherited member gives. *)
Inductive cell : Type :=
  | Count (n : nat)
  | Garbled.

(** [counts[key] = value] on an own property. *)
Definition update (key : jsstring) (c : cell)
    (counts : list (jsstring * cell)) : list (jsstring * cell) :=
  List.map (fun '(k, old) => if bool_decide (k = key) then (k, c) else (k, old))
           counts.

(** [counts[r.emotion] = (counts[r.emotion] || 0) + 1], the own
    properties kept in the order of their creation.  The name
    [__proto__] is an accessor, whose setter drops the text it is
    given. *)
Definition countStep (counts : list (jsstring * cell))
    (r : EmotionRecord.t) : list (jsstring * cell) :=
  let key := ToString (EmotionRecord.emotion r) in
  if bool_decide (key = js "__proto__") then counts
  else
    match assoc key counts with
    | Some (Count n) => update key (Count (S n)) counts
    | Some Garbled => counts
    | None =>
        counts ++ [(key, if bool_decide (key ∈ objectPrototypeMembers)
                         then Garbled else Count 1)]
    end.

(** The array index a property name stands for, if it is the canonical
    decimal numeral of an integer below 2^32 - 1. *)
Definition digitValue (c : code_unit) : option N :=
  if Str.between 48 57 c then Some (c - 48)%N else None.

Fixpoint decimalValue (acc : N) (s : jsstring) : option N :=
  match s with
  | [] => Some acc
  | c :: s' => d ← digitValue c; decimalValue (10 * acc + d)%N s'
  end.

Definition arrayIndex (key : jsstring) : option N :=
  match key with
  | [] => None
  | c :: rest =>
      if (c =? 48)%N && negb (bool_decide (rest = [])) then None
      else
        n ← decimalValue 0 key;
        if (n <? 4294967295)%N then Some n else None
  end.

(** [Object.entries(counts)]: the array indices in ascending order, then
    the other names in the order of their creation. *)
Definition indexOf (entry : jsstring * cell) : N :=
  default 0%N (arrayIndex entry.1).

Definition indexLe (a b : jsstring * cell) : Prop :=
  (indexOf a <= indexOf b)%N.

#[local] Instance indexLe_dec a b : Decision (indexLe a b) :=
  decide (indexOf a <= indexOf b)%N.

Definition entries (counts : list (jsstring * cell))
    : list (jsstring * cell) :=
  merge_sort indexLe
             (List.filter (fun entry => bool_decide (is_Some (arrayIndex entry.1)))
                          counts)
  ++ List.filter (fun entry => negb (bool_decide (is_Some (arrayIndex entry.1))))
                 counts.

(** The body of the loop over the entries; a text never exceeds the
    count. *)
Definition pick (acc : jsstring * nat) (entry : jsstring * cell)
    : jsstring * nat :=
  let '(maxEmotion, maxCount) := acc in
  match entry with
  | (emotion, Count count) =>
      if (maxCount <? count)%nat then (emotion, count)
      else (maxEmotion, maxCount)
  | (_, Garbled) => (maxEmotion, maxCount)
  end.

Definition getRecentEmotion (emotionHistory : list EmotionRecord.t)
    : jsstring :=
  let recent := Worker.lastN 5 emotionHistory in
  if (length recent =? 0)%nat then js "neutral"
  else
    let counts := fold_left countStep recent [] in
    fst (fold_left pick (entries counts) (js "neutral", 0%nat)).

(** The value the counts object holds under a name once the records
    of [data] are counted. *)
Definition tally (data : list EmotionRecord.t) (k : jsstring) : option cell :=
  if (Spec.recordsOf k data =? 0)%nat then None
  else if bool_decide (k = js "__proto__") then None
  else if bool_decide (k ∈ objectPrototypeMembers) then Some Garbled
  else Some (Count (Spec.recordsOf k data)).

(** What [generateTip] displays: the text of the service under the
    "Mindful Insight" heading with the AI badge, or a tip drawn from the
    curated table of the emotion. *)
Inductive shown : Type :=
  | Insight (tip : jsstring)
  | Curated (emotion : jsstring).

(** [serviceLoaded] tells whether [window.AIService] is there.  An
    inherited member has no [length] above 15; the emotion of the page
    is never the name of one, as shown below. *)
Definition generateTip (env : AIService.Env) (cache : AIService.Cache)
    (serviceLoaded : bool) (emotionHistory : list EmotionRecord.t) : shown :=
  let currentEmotion := getRecentEmotion emotionHistory in
  if serviceLoaded then
    match Generation.generateMindfulnessTip env cache currentEmotion with
    | Returned (Generation.Text tipContent) =>
        if negb (bool_decide (tipContent = []))
           && (15 <? length tipContent)%nat
        then Insight tipContent
        else Curated currentEmotion
    | Returned (Generation.Member _) => Curated currentEmotion
    | Threw _ => Curated currentEmotion
    end
  else Curated currentEmotion.

(** The message of [trackExercise(completed)], and the one sent when
    the page is closed after [tipsShown] tips. *)
Definition trackExercise (completed : bool) : value :=
  JObj [
    (js "type", JStr (js "TRACK_EXERCISE"));
    (js "exercise", JStr (js "mindfulness"));
    (js "completed", JBool completed);
    (js "duration", JNull)
  ].

Definition closeMessage (tipsShown : nat) : value :=
  trackExercise (2 <=? tipsShown)%nat.

End with_host.
End Mindfulness.

(** ** Further scenarios *)

Module Cases.

(** A session that answers every prompt with the same text, and one
    that does so only for prompts within the limit of the analysis
    prompt. *)
Definition steady : AIService.Session :=
  {| AIService.prompt := fun _ => Returned (JStr Scenario.joyResponse) |}.

Definition guarded : AIService.Session :=
  {| AIService.prompt := fun p =>
       if (length p <=? Language.promptLimit)%nat
       then Returned (JStr Scenario.joyResponse)
       else Threw TypeError |}.

Definition warm (session : AIService.Session) : AIService.Cache :=
  {| AIService.languageModelSession := Some session;
     AIService.translatorSession := None |}.

(** A browser whose language model reports that it is not available. *)
Definition refusing : AIService.Env :=
  {| AIService.ai_languageModel :=
       Some {| AIService.capabilities :=
                 Returned (JObj [(js "available", JStr (js "no"))]);
               AIService.create := Returned (Some steady) |};
     AIService.ai_translator := None |}.

(** The visible text of a page, 116 code units long. *)
Definition stressfulPage : jsstring :=
  js "I am so anxious and worried about the deadline, the stress and pressure at work make me nervous and afraid every day".



End Cases.

(** * Properties *)

(** ** The string primitives *)

Local Open Scope nat_scope.

Section primitives.
Context `{Host}.

(** A literal match consumes as many code units as the keyword has, equal
    to it up to case. *)
Lemma matchLiteral_spec kw s rest :
  Str.matchLiteral kw s = Some rest ->
  s = take (length kw) s ++ rest
  /\ length (take (length kw) s) = length kw
  /\ List.map canonicalize (take (length kw) s) = List.map canonicalize kw.
Proof.
  revert s. induction kw as [|k kw IH]; intros s; simpl.
  - by intros [= ->].
  - destruct s as [|c s]; [done|].
    destruct (N.eqb_spec (canonicalize k) (canonicalize c)) as [Hkc|]; [|done].
    intros Hrest. apply IH in Hrest as (Hs & Hlen & Hmap). simpl.
    rewrite <- Hs, Hlen, Hmap, Hkc. done.
Qed.

(** Every match the scan reports is an occurrence of the keyword. *)
Lemma scan_matches kw before skip s :
  Forall (fun m => length m = length kw
                   /\ List.map canonicalize m = List.map canonicalize kw)
         (Str.scan kw before skip s).
Proof.
  revert before skip. induction s as [|c s IH]; intros before skip; simpl.
  - constructor.
  - destruct skip as [|k]; [|apply IH].
    destruct (Str.matchHere kw before (c :: s)) as [m|] eqn:Hm; [|apply IH].
    constructor; [|apply IH].
    unfold Str.matchHere in Hm.
    destruct (Str.isBoundary before _); [|done].
    destruct (Str.matchLiteral kw (c :: s)) as [rest|] eqn:Hlit; [|done].
    destruct (Str.isBoundary _ _); [|done].
    injection Hm as <-. by apply matchLiteral_spec in Hlit as (_ & ? & ?).
Qed.

(** No token holds white space. *)
Lemma split_go_tokens s cur inRun :
  Forall (fun c => Str.isWhiteSpace c = false) cur ->
  Forall (Forall (fun c => Str.isWhiteSpace c = false))
         (Str.split_go s cur inRun).
Proof.
  revert cur inRun. induction s as [|c s IH]; intros cur inRun Hcur; simpl.
  - repeat constructor. by apply Forall_rev.
  - destruct (Str.isWhiteSpace c) eqn:Hc.
    + destruct inRun; [by apply IH|].
      constructor; [by apply Forall_rev|by apply IH].
    + apply IH. by constructor.
Qed.

Lemma split_ws_tokens s :
  Forall (Forall (fun c => Str.isWhiteSpace c = false)) (Str.split_ws s).
Proof. by apply split_go_tokens. Qed.

(** Every lexicon entry is a literal the pattern can take as it is. *)
Lemma lexicon_literals :
  forallb (fun entry => forallb Str.isLiteralKeyword entry.2)
          AIService.emotionKeywords = true.
Proof. vm_compute. reflexivity. Qed.
End primitives.

(** ** The heuristic classifier *)

Local Open Scope nat_scope.

Section heuristic.
Context `{Host}.
Import AIService Spec.

(** Splitting always yields a token, so the score divides by a positive
    count. *)
Lemma split_go_nonempty s cur inRun : 1 <= length (Str.split_go s cur inRun).
Proof.
  revert cur inRun. induction s as [|c s IH]; intros cur inRun; simpl.
  - lia.
  - destruct (Str.isWhiteSpace c); [destruct inRun|]; simpl; auto with lia.
Qed.

Lemma split_ws_nonempty s : 1 <= length (Str.split_ws s).
Proof. apply split_go_nonempty. Qed.

Lemma bump_zero e counts : bump e 0 counts = counts.
Proof.
  unfold bump. induction counts as [|[k c] l IH]; simpl; [done|].
  rewrite IH. case_bool_decide; by rewrite ?Nat.add_0_r.
Qed.

Lemma bump_bump e a b counts :
  bump e b (bump e a counts) = bump e (a + b) counts.
Proof.
  unfold bump. induction counts as [|[k c] l IH]; simpl; [done|].
  rewrite IH. case_bool_decide; simpl.
  - rewrite bool_decide_true by done. f_equal. f_equal. lia.
  - by rewrite bool_decide_false by done.
Qed.

Lemma countKeyword_bump t e counts kw :
  countKeyword t e counts kw = bump e (matchCount t kw) counts.
Proof.
  unfold countKeyword, Str.match_all, matchCount.
  destruct (Str.scan kw None 0 t); simpl; [by rewrite bump_zero|done].
Qed.

(** One category's pass over its keywords adds the category's matches. *)
Lemma fold_countKeyword t e kws counts :
  fold_left (countKeyword t e) kws counts
  = bump e (termMatches t kws) counts.
Proof.
  revert counts. induction kws as [|kw kws IH]; intros counts; simpl.
  - by rewrite bump_zero.
  - rewrite IH, countKeyword_bump, bump_bump. done.
Qed.

Lemma countMatches_table t kp kn kx kg :
  fold_left
    (fun counts '(emotion, keywords) =>
       fold_left (countKeyword t emotion) keywords counts)
    [(js "positive", kp); (js "negative", kn);
     (js "anxiety", kx); (js "anger", kg)]
    [(js "positive", 0); (js "negative", 0);
     (js "anxiety", 0); (js "anger", 0)]
  = [(js "positive", termMatches t kp); (js "negative", termMatches t kn);
     (js "anxiety", termMatches t kx); (js "anger", termMatches t kg)].
Proof.
  simpl fold_left. rewrite !fold_countKeyword. reflexivity.
Qed.

(** The counts object after both loops: each category with the sum of
    the matches of its terms. *)
Lemma countMatches_spec t :
  countMatches t
  = List.map (fun e => (e, categoryCount t e)) scanOrder.
Proof.
  unfold countMatches, emotionKeywords. rewrite countMatches_table.
  reflexivity.
Qed.

(** The selection loop keeps its start value when no entry exceeds it,
    and otherwise stops at the first entry that no other entry exceeds. *)
Lemma dominant_fold entries d m e n :
  fold_left dominantStep entries (d, m) = (e, n) ->
  (e = d /\ n = m /\ Forall (fun p => p.2 <= m) entries)
  \/ (exists l1 l2,
        entries = l1 ++ (e, n) :: l2 /\ m < n
        /\ Forall (fun p => p.2 < n) l1 /\ Forall (fun p => p.2 <= n) l2).
Proof.
  revert d m. induction entries as [|[e1 c1] rest IH]; intros d m Hfold.
  - simpl in Hfold. inversion Hfold; subst. left. auto.
  - simpl in Hfold. destruct (Nat.ltb_spec m c1) as [Hlt|Hge].
    + apply IH in Hfold as [(-> & -> & Hall)|(l1 & l2 & -> & Hn & H1 & H2)].
      * right. exists [], rest. simpl. auto.
      * right. exists ((e1, c1) :: l1), l2. simpl.
        repeat split; try done; [lia|]. constructor; [simpl; lia|done].
    + apply IH in Hfold as [(-> & -> & Hall)|(l1 & l2 & -> & Hn & H1 & H2)].
      * left. repeat split; try done. constructor; [simpl; lia|done].
      * right. exists ((e1, c1) :: l1), l2. simpl.
        repeat split; try done. constructor; [simpl; lia|done].
Qed.

Lemma assoc_key {A} k (table : list (list N * A)) v :
  assoc k table = Some v -> k ∈ List.map fst table.
Proof.
  induction table as [|[k' v'] table IH]; simpl; [done|].
  case_bool_decide; subst; [left|right]; auto.
Qed.

Lemma keywordsOf_category category keyword :
  keyword ∈ keywordsOf category -> category ∈ scanOrder.
Proof.
  unfold keywordsOf. destruct (assoc category emotionKeywords) eqn:Hk.
  - intros _. apply assoc_key in Hk. exact Hk.
  - simpl. by intros ?%elem_of_nil.
Qed.

Lemma matchCount_le_termMatches t kw kws :
  kw ∈ kws -> matchCount t kw <= termMatches t kws.
Proof.
  unfold termMatches. induction 1; simpl; lia.
Qed.

Lemma totalMatches_sum t :
  totalMatches (countMatches t)
  = categoryCount t (js "positive") + categoryCount t (js "negative")
    + categoryCount t (js "anxiety") + categoryCount t (js "anger").
Proof. unfold totalMatches. rewrite countMatches_spec. reflexivity. Qed.

Lemma categoryCount_le_total t category :
  category ∈ scanOrder ->
  categoryCount t category <= totalMatches (countMatches t).
Proof.
  rewrite totalMatches_sum. unfold scanOrder.
  rewrite !elem_of_cons, elem_of_nil. intros [->|[->|[->|[->|[]]]]]; lia.
Qed.

Lemma gtb_Finite q t : Num.gtb (Finite q) (Finite t) = true <-> (t < q)%Q.
Proof.
  unfold Num.gtb, Num.ltb. rewrite negb_true_iff.
  rewrite <- not_true_iff_false, Qle_bool_iff. split.
  - apply Qnot_le_lt.
  - apply Qlt_not_le.
Qed.

Lemma intensity_label q :
  (if Num.gtb (Finite q) (Finite (2 # 100)) then js "high"
   else if Num.gtb (Finite q) (Finite (1 # 100)) then js "medium"
   else js "low") = intensityOf q.
Proof.
  unfold intensityOf.
  destruct (Qlt_le_dec (2 # 100) q) as [Hhi|Hhi].
  - apply gtb_Finite in Hhi. by rewrite Hhi.
  - destruct (Num.gtb (Finite q) (Finite (2 # 100))) eqn:E.
    { apply gtb_Finite in E. by apply Qlt_not_le in E. }
    destruct (Qlt_le_dec (1 # 100) q) as [Hmid|Hmid].
    + apply gtb_Finite in Hmid. by rewrite Hmid.
    + destruct (Num.gtb (Finite q) (Finite (1 # 100))) eqn:E'; [|done].
      apply gtb_Finite in E'. by apply Qlt_not_le in E'.
Qed.

Lemma div_nat_quotient a b :
  1 <= b ->
  (Z.of_nat a # Pos.of_nat b == inject_Z (Z.of_nat a) / inject_Z (Z.of_nat b))%Q.
Proof.
  intros Hb. rewrite (Qmake_Qdiv (Z.of_nat a) (Pos.of_nat b)).
  rewrite <- positive_nat_Z, Nat2Pos.id by lia. reflexivity.
Qed.

(** C2.  When some lexicon term matches, the heuristic classifier returns
    the category whose match count is highest, the first such category in
    the order positive, negative, anxiety, anger: every category before it
    has a strictly smaller count and every one after it no greater count.
    The score is that count divided by the number of white-space separated
    tokens, and the intensity is high above 0.02, medium above 0.01 and low
    otherwise. *)
Theorem heuristic_dominant (text : list N) :
  let lowerText := toLowerCase text in
  let result := fallbackEmotionAnalysis text in
  (exists category keyword,
      keyword ∈ keywordsOf category /\ 0 < matchCount lowerText keyword) ->
  exists before e after q,
    scanOrder = before ++ e :: after
    /\ Forall (fun e' => categoryCount lowerText e' < categoryCount lowerText e)
              before
    /\ Forall (fun e' => categoryCount lowerText e' <= categoryCount lowerText e)
              after
    /\ emotion result = JStr e
    /\ score result = Finite q
    /\ (q == inject_Z (Z.of_nat (categoryCount lowerText e))
             / inject_Z (Z.of_nat (length (Str.split_ws lowerText))))%Q
    /\ intensity result = JStr (intensityOf q).
Proof.
  intros lowerText result (category & keyword & Hin & Hpos).
  assert (0 < totalMatches (countMatches lowerText)) as Htotal.
  { pose proof (keywordsOf_category _ _ Hin) as Hcat.
    pose proof (categoryCount_le_total lowerText _ Hcat).
    pose proof (matchCount_le_termMatches lowerText _ _ Hin).
    unfold categoryCount in *. lia. }
  subst result. unfold fallbackEmotionAnalysis. fold lowerText.
  destruct (Nat.eqb_spec (totalMatches (countMatches lowerText)) 0)
    as [Hz|_]; [lia|].
  destruct (fold_left dominantStep (countMatches lowerText) (js "neutral", 0))
    as [dominant maxCount] eqn:Hfold.
  apply dominant_fold in Hfold
    as [(_ & -> & Hall)|(l1 & l2 & Hsplit & _ & H1 & H2)].
  { exfalso. rewrite countMatches_spec in Hall.
    rewrite totalMatches_sum in Htotal. unfold scanOrder in Hall. simpl in Hall.
    repeat match goal with
           | Hf : Forall _ (_ :: _) |- _ => inversion_clear Hf
           end.
    simpl in *. lia. }
  rewrite countMatches_spec in Hsplit.
  apply map_eq_app in Hsplit as (before & rest & Horder & <- & Hrest).
  apply map_eq_cons in Hrest as (e & after & -> & Hhead & <-).
  inversion Hhead; subst dominant maxCount.
  exists before, e, after, (Z.of_nat (categoryCount lowerText e)
                             # Pos.of_nat (length (Str.split_ws lowerText))).
  rewrite Forall_map in H1, H2. simpl in H1, H2.
  repeat split; try done.
  - apply div_nat_quotient, split_ws_nonempty.
  - cbn [intensity]. f_equal. apply intensity_label.
Qed.

(** Without a match the neutral result is returned. *)
Lemma fallback_without_matches (text : list N) :
  (forall category keyword,
      keyword ∈ keywordsOf category ->
      matchCount (toLowerCase text) keyword = 0) ->
  fallbackEmotionAnalysis text = neutralResult.
Proof.
  intros Hnone.
  assert (forall category, categoryCount (toLowerCase text) category = 0)
    as Hzero.
  { intros category. unfold categoryCount, termMatches.
    specialize (Hnone category).
    induction (keywordsOf category) as [|kw kws IH]; simpl; [done|].
    rewrite Hnone by left. simpl. apply IH. intros k Hk. apply Hnone.
    by right. }
  unfold fallbackEmotionAnalysis. rewrite totalMatches_sum, !Hzero.
  reflexivity.
Qed.

(** C3.  A text in which no lexicon term of any category matches, the
    empty text among them, is classified neutral with score 0. *)
Theorem heuristic_neutral (text : list N) :
  (forall category keyword,
      keyword ∈ keywordsOf category ->
      matchCount (toLowerCase text) keyword = 0) ->
  emotion (fallbackEmotionAnalysis text) = JStr (js "neutral")
  /\ score (fallbackEmotionAnalysis text) = Finite 0
  /\ fallbackEmotionAnalysis text = neutralResult.
Proof.
  intros Hnone. rewrite fallback_without_matches by done. done.
Qed.

End heuristic.

(** ** The classification facade *)

Section facade.
Context `{Host}.
Import AIService Spec.

(** The clamp lands in [0,1]. *)
Lemma clamp01_unit x : inUnitInterval (clamp01 x).
Proof.
  unfold inUnitInterval, clamp01, Num.le, Num.leb, Num.min, Num.max, Num.zero,
    Num.one.
  destruct x as [q| |]; simpl; [|done..].
  destruct (Qle_bool 0 q) eqn:H0; simpl.
  - destruct (Qle_bool q 1) eqn:H1; simpl; [by rewrite H0, H1|done].
  - done.
Qed.

Lemma parseResponse_valid response r :
  parseResponse response = Returned (Some r) ->
  source r = JStr (js "chrome-ai")
  /\ inUnitInterval (score r)
  /\ truthy (emotion r) = true.
Proof.
  unfold parseResponse. destruct (response_match response) as [[m|]|]; simpl;
    [|done..].
  destruct (JSON_parse m) as [result|]; simpl; [|done].
  destruct (getProp result (js "emotion")) as [resultEmotion|]; simpl; [|done].
  destruct (truthy resultEmotion) eqn:Ht; [|done].
  destruct (prop result (js "score")); try done.
  intros [= <-]. simpl. auto using clamp01_unit.
Qed.

Lemma fallback_category text :
  isCategory (emotion (fallbackEmotionAnalysis text)).
Proof.
  unfold fallbackEmotionAnalysis.
  destruct (totalMatches _ =? 0).
  { exists (js "neutral"). split; [|done]. unfold emotionCategories.
    rewrite !elem_of_cons. auto 6. }
  destruct (fold_left dominantStep _ _) as [dominant maxCount] eqn:Hfold.
  cbn [emotion]. exists dominant. split; [|done].
  apply dominant_fold in Hfold as [(-> & _)|(l1 & l2 & Hsplit & _)].
  - unfold emotionCategories. rewrite !elem_of_cons. auto 6.
  - rewrite countMatches_spec in Hsplit.
    assert (dominant ∈ scanOrder) as Hin.
    { apply map_eq_app in Hsplit as (before & rest & -> & _ & Hrest).
      apply map_eq_cons in Hrest as (e & after & -> & [= -> _] & _).
      apply elem_of_app. right. left. }
    revert Hin. unfold scanOrder, emotionCategories.
    rewrite !elem_of_cons, !elem_of_nil. tauto.
Qed.

Lemma fallback_score_nonneg text :
  Num.le Num.zero (score (fallbackEmotionAnalysis text)).
Proof.
  unfold fallbackEmotionAnalysis.
  destruct (totalMatches _ =? 0); [done|].
  destruct (fold_left dominantStep _ _) as [dominant maxCount].
  cbn [score]. unfold Num.le, Num.leb, Num.ltb, Num.zero, Num.div_nat.
  rewrite negb_involutive. apply Qle_bool_iff.
  unfold Qle. simpl. lia.
Qed.

(** The facade returns the heuristic result or a validated model result. *)
Lemma analyzeEmotion_cases env cache text :
  analyzeEmotion env cache text = Returned (fallbackEmotionAnalysis text)
  \/ exists response r,
       parseResponse response = Returned (Some r)
       /\ analyzeEmotion env cache text = Returned r.
Proof.
  unfold analyzeEmotion.
  destruct (ensureSession env cache) as [s|]; simpl; [|by left].
  destruct (translateForAnalysis env (Some s) cache text)
    as [textForAnalysis|]; simpl; [|by left].
  destruct (slice0 5000 textForAnalysis) as [truncatedText|]; simpl;
    [|by left].
  destruct (prompt s (promptFor truncatedText)) as [response|]; simpl;
    [|by left].
  destruct (parseResponse response) as [[r|]|] eqn:Hparse; simpl;
    [|by left..].
  right. by exists response, r.
Qed.

(** C1, as amended.  For every input string the facade returns a result.
    When the model path produced it, its score lies in [0,1] and its emotion
    is the truthy value the response carried, whatever that is.  When the
    heuristic fallback produced it, its emotion is one of the five
    categories and its score is not negative. *)
Theorem facade_result_shape env cache text :
  exists r,
    analyzeEmotion env cache text = Returned r
    /\ ((source r = JStr (js "chrome-ai")
         /\ inUnitInterval (score r)
         /\ truthy (emotion r) = true)
        \/ (r = fallbackEmotionAnalysis text
            /\ isCategory (emotion r)
            /\ Num.le Num.zero (score r))).
Proof.
  destruct (analyzeEmotion_cases env cache text)
    as [Hfb|(response & r & Hparse & Hr)].
  - exists (fallbackEmotionAnalysis text). split; [done|]. right.
    auto using fallback_category, fallback_score_nonneg.
  - exists r. split; [done|]. left. by apply parseResponse_valid in Hparse.
Qed.

(** A response is rejected when it is no string, holds no braces, does not
    parse, or parses to something without a truthy emotion or without a
    numeric score. *)
Lemma parseResponse_rejects response :
  (forall s, response <> JStr s)
  \/ (exists s, response = JStr s /\ Str.match_braces s = None)
  \/ (exists s m e, response = JStr s /\ Str.match_braces s = Some m
                    /\ JSON_parse m = Threw e)
  \/ (exists s m result,
        response = JStr s /\ Str.match_braces s = Some m
        /\ JSON_parse m = Returned result
        /\ (truthy (prop result (js "emotion")) = false
            \/ forall n, prop result (js "score") <> JNum n)) ->
  forall r, parseResponse response <> Returned (Some r).
Proof.
  intros Hcase r. unfold parseResponse, response_match.
  destruct Hcase as [Hns|[(s & -> & Hm)|[(s & m & e & -> & Hm & Hp)
                   |(s & m & result & -> & Hm & Hp & Hbad)]]].
  - destruct response; try done. by destruct (Hns s).
  - by rewrite Hm.
  - rewrite Hm. simpl. by rewrite Hp.
  - rewrite Hm. simpl. rewrite Hp. simpl.
    destruct (getProp result (js "emotion")) as [resultEmotion|] eqn:He;
      simpl; [|done].
    assert (resultEmotion = prop result (js "emotion")) as ->
      by (unfold getProp in He; destruct result; by inversion He).
    destruct Hbad as [->|Hscore]; [done|].
    destruct (truthy _); [|done].
    destruct (prop result (js "score")) eqn:Hs; try done.
    by destruct (Hscore n).
Qed.

(** C6.  For every input string the facade returns a classification
    result and never raises.  When the capability is absent, when the model
    call raises, and when the response cannot be parsed into an object with
    an emotion and a numeric score, the result is that of the heuristic
    fallback. *)
Theorem analyzeEmotion_never_raises env cache text :
  (exists r, analyzeEmotion env cache text = Returned r)
  /\ (ensureSession env cache = None ->
      analyzeEmotion env cache text
      = Returned (fallbackEmotionAnalysis text))
  /\ (languageModelSession cache = None -> ai_languageModel env = None ->
      analyzeEmotion env cache text
      = Returned (fallbackEmotionAnalysis text))
  /\ (forall s e,
        ensureSession env cache = Some s ->
        (forall p, prompt s p = Threw e) ->
        analyzeEmotion env cache text
        = Returned (fallbackEmotionAnalysis text))
  /\ (forall s response,
        ensureSession env cache = Some s ->
        (forall p, prompt s p = Returned response) ->
        (forall r, parseResponse response <> Returned (Some r)) ->
        analyzeEmotion env cache text
        = Returned (fallbackEmotionAnalysis text)).
Proof.
  split; [|split; [|split; [|split]]].
  - destruct (analyzeEmotion_cases env cache text)
      as [Hfb|(response & r & _ & Hr)]; eauto.
  - intros Hnone. unfold analyzeEmotion. by rewrite Hnone.
  - intros Hcache Habsent.
    unfold analyzeEmotion, ensureSession, initLanguageModel.
    by rewrite Hcache, Habsent.
  - intros s e Hs Hprompt. unfold analyzeEmotion. rewrite Hs.
    destruct (translateForAnalysis env (Some s) cache text) as [v|]; simpl;
      [|done].
    destruct (slice0 5000 v) as [t|]; simpl; [|done].
    by rewrite Hprompt.
  - intros s response Hs Hprompt Hinvalid. unfold analyzeEmotion. rewrite Hs.
    destruct (translateForAnalysis env (Some s) cache text) as [v|]; simpl;
      [|done].
    destruct (slice0 5000 v) as [t|]; simpl; [|done].
    rewrite Hprompt. simpl.
    destruct (parseResponse response) as [[r|]|] eqn:Hparse; simpl; try done.
    by destruct (Hinvalid r).
Qed.

End facade.

(** ** The recommendation engines *)

Section recommend.
Import Spec.

Lemma decide_false_entry v : v = JBool false \/ v <> JBool false.
Proof. destruct v as [| |[]| | | |]; auto. Qed.

Lemma getProp_defined v k :
  v <> JNull -> v <> JUndefined -> getProp v k = Returned (prop v k).
Proof. by destruct v. Qed.

Lemma is_false_spec v : is_false v = true <-> v = JBool false.
Proof. destruct v as [| |[]| | | |]; simpl; split; (done || congruence). Qed.

Lemma filterM_pure {A} (p : A -> bool) l :
  filterM (fun x => Returned (p x)) l = Returned (List.filter p l).
Proof.
  induction l as [|x l IH]; simpl; [done|]. rewrite IH. simpl.
  by destruct (p x).
Qed.

Lemma filter_first {A} (p : A -> bool) l :
  (List.filter p l = [] /\ Forall (fun y => p y = false) l)
  \/ (exists before x after rest,
        l = before ++ x :: after
        /\ Forall (fun y => p y = false) before
        /\ p x = true /\ List.filter p l = x :: rest).
Proof.
  induction l as [|y l IH]; simpl.
  - left. auto.
  - destruct (p y) eqn:Hy.
    + right. exists [], y, l, (List.filter p l). auto.
    + destruct IH as [[Hnil Hall]|(before & x & after & rest & -> & Hb & Hx & Hf)].
      * left. auto.
      * right. exists (y :: before), x, after, rest. auto.
Qed.

Lemma firstIncluded_first exercises suggested :
  let p := fun ex => bool_decide (ex ∈ exercises) in
  (Background.firstIncluded exercises suggested = None
   /\ Forall (fun y => p y = false) suggested)
  \/ (exists before x after,
        suggested = before ++ x :: after
        /\ Forall (fun y => p y = false) before
        /\ p x = true
        /\ Background.firstIncluded exercises suggested = Some x).
Proof.
  intros p. induction suggested as [|y l IH]; simpl.
  - left. auto.
  - fold (p y). destruct (p y) eqn:Hy.
    + right. exists [], y, l. auto.
    + destruct IH as [[Hnone Hall]|(before & x & after & -> & Hb & Hx & Hf)].
      * left. auto.
      * right. exists (y :: before), x, after. auto.
Qed.

Lemma recommendations_ids emotion cands :
  assoc emotion AIService.recommendations = Some cands ->
  Forall (fun c => c <> [] /\ c ∈ exerciseIds) cands.
Proof.
  unfold AIService.recommendations. simpl.
  repeat case_bool_decide; intros [= <-];
    repeat constructor; (done || (unfold exerciseIds; rewrite !elem_of_cons; auto)).
Qed.

Lemma available_dec mapping ex :
  negb (truthy mapping) || negb (is_false (prop mapping ex)) = true
  <-> availableIn mapping ex.
Proof.
  unfold availableIn, disabledIn. rewrite orb_true_iff, !negb_true_iff.
  rewrite <- (is_false_spec (prop mapping ex)).
  destruct (truthy mapping), (is_false (prop mapping ex)); intuition congruence.
Qed.

Lemma available_dec_false mapping ex :
  negb (truthy mapping) || negb (is_false (prop mapping ex)) = false
  <-> ~ availableIn mapping ex.
Proof. rewrite <- available_dec. by destruct (_ || _). Qed.

Lemma filterM_ext {A} (f g : A -> outcome bool) l :
  (forall x, f x = g x) -> filterM f l = filterM g l.
Proof. intros Hfg. induction l as [|x l IH]; simpl; [done|]. by rewrite Hfg, IH. Qed.

(** The service's rule on a candidate list of the table. *)
Lemma service_recommendation emotion cands preferences :
  assoc emotion AIService.recommendations = Some cands ->
  preferences <> JNull ->
  let mapping := prop preferences (js "preferredExercises") in
  exists ex,
    AIService.getRecommendedExercise emotion preferences = Returned ex
    /\ (firstSuch (availableIn mapping) cands ex
        \/ (Forall (fun c => ~ availableIn mapping c) cands
            /\ ex = js "breathing")).
Proof.
  intros Hcands Hnull mapping.
  pose proof (recommendations_ids _ _ Hcands) as Hids.
  unfold AIService.getRecommendedExercise, AIService.suggestedFor, tableLookup.
  rewrite Hcands.
  set (available := fun ex => negb (truthy mapping)
                              || negb (is_false (prop mapping ex))).
  rewrite (filterM_ext _ (fun ex => Returned (available ex))).
  2:{ intros ex. unfold AIService.isAvailable, mapping, available.
      by destruct preferences. }
  rewrite filterM_pure. simpl.
  destruct (filter_first available cands)
    as [[-> Hall]|(before & x & after & rest & -> & Hb & Hx & ->)].
  - exists (js "breathing"). split; [done|]. right. split; [|done].
    eapply Forall_impl; [exact Hall|]. intros c Hc.
    by apply available_dec_false.
  - exists x. split.
    + simpl. apply Forall_app in Hids as [_ Hids].
      inversion_clear Hids as [|? ? [Hne _] _]. by rewrite bool_decide_false.
    + left. exists before, after. split; [done|]. split.
      * eapply Forall_impl; [exact Hb|]. intros c Hc.
        by apply available_dec_false.
      * by apply available_dec.
Qed.

(** The worker's list of exercises is the enabled ones, in order. *)
Lemma preferredList_filter mapping :
  Background.preferredList mapping
  = List.filter
      (fun ex => preferredIn mapping ex
                 || forallb (fun x => negb (preferredIn mapping x)) exerciseIds)
      exerciseIds.
Proof.
  unfold Background.preferredList, Background.isPreferred, preferredIn.
  unfold exerciseIds. cbn [List.filter forallb].
  destruct (truthy mapping && truthy (prop mapping (js "breathing"))),
    (truthy mapping && truthy (prop mapping (js "affirmation"))),
    (truthy mapping && truthy (prop mapping (js "mindfulness")));
    reflexivity.
Qed.

Lemma enabled_dec mapping ex :
  ex ∈ exerciseIds ->
  preferredIn mapping ex
  || forallb (fun x => negb (preferredIn mapping x)) exerciseIds = true
  <-> enabledIn mapping ex.
Proof.
  intros Hex. unfold enabledIn. rewrite orb_true_iff, forallb_forall, Forall_forall.
  split.
  - intros [Hp|Hnone]; (split; [done|]); [by left|right].
    intros x Hx. apply negb_true_iff, Hnone. by apply list_elem_of_In.
  - intros [_ [Hp|Hnone]]; [by left|right].
    intros x Hx. apply negb_true_iff, Hnone. by apply list_elem_of_In.
Qed.

Lemma elem_of_preferredList mapping ex :
  ex ∈ Background.preferredList mapping <-> enabledIn mapping ex.
Proof.
  rewrite preferredList_filter, list_elem_of_In, filter_In, <- list_elem_of_In.
  split.
  - intros [Hex Hp]. by apply enabled_dec.
  - intros Hen. split; [apply Hen|]. apply enabled_dec; [apply Hen|done].
Qed.

(** The worker's rule on a candidate list of the table. *)
Lemma worker_recommendation emotion cands cfg :
  assoc emotion Background.recommendations = Some cands ->
  cfg <> JNull -> cfg <> JUndefined ->
  let mapping := prop cfg (js "preferredExercises") in
  exists ex,
    Background.getRecommendedExercise emotion cfg = Returned ex
    /\ (firstSuch (enabledIn mapping) cands ex
        \/ (Forall (fun c => ~ enabledIn mapping c) cands
            /\ firstSuch (enabledIn mapping) exerciseIds ex)).
Proof.
  intros Hcands Hnull Hundef mapping.
  unfold Background.getRecommendedExercise.
  rewrite getProp_defined by done. simpl. fold mapping.
  unfold tableLookup. rewrite Hcands.
  destruct (firstIncluded_first (Background.preferredList mapping) cands)
    as [[-> Hall]|(before & x & after & -> & Hb & Hx & ->)].
  - assert (Forall (fun c => ~ enabledIn mapping c) cands) as Hnone.
    { eapply Forall_impl; [exact Hall|]. intros c Hc.
      rewrite <- elem_of_preferredList. by apply bool_decide_eq_false in Hc. }
    rewrite preferredList_filter.
    destruct (filter_first
                (fun ex => preferredIn mapping ex
                           || forallb (fun x => negb (preferredIn mapping x))
                                      exerciseIds) exerciseIds)
      as [[Hnil Hall']|(before & x & after & rest & Hids & Hb & Hx & ->)].
    + exfalso. unfold exerciseIds in Hall'.
      inversion_clear Hall' as [|? ? Hb' Hrest].
      inversion_clear Hrest as [|? ? Ha' Hrest'].
      inversion_clear Hrest' as [|? ? Hm' _].
      apply orb_false_iff in Hb' as [Hb' Hf], Ha' as [Ha' _], Hm' as [Hm' _].
      cbn [forallb] in Hf. by rewrite Hb', Ha', Hm' in Hf.
    + assert (x ∈ exerciseIds) as Hxin.
      { rewrite Hids. apply elem_of_app. right. left. }
      exists x. split.
      * simpl. rewrite bool_decide_false; [done|].
        revert Hxin. unfold exerciseIds. rewrite !elem_of_cons, elem_of_nil.
        by intros [->|[->|[->|[]]]].
      * right. split; [done|]. exists before, after. split; [done|]. split.
        -- apply Forall_forall. intros c Hc.
           rewrite <- enabled_dec.
           ++ rewrite Forall_forall in Hb. rewrite (Hb c Hc). done.
           ++ rewrite Hids. apply elem_of_app. by left.
        -- by apply enabled_dec.
  - exists x. split; [done|]. left. exists before, after. split; [done|]. split.
    + eapply Forall_impl; [exact Hb|]. intros c Hc.
      rewrite <- elem_of_preferredList. by apply bool_decide_eq_false in Hc.
    + apply elem_of_preferredList. by apply bool_decide_eq_true in Hx.
Qed.


Lemma category_candidates emotion :
  emotion ∈ emotionCategories ->
  assoc emotion AIService.recommendations = Some (candidatesOf emotion).
Proof.
  unfold emotionCategories. rewrite !elem_of_cons, elem_of_nil.
  intros [->|[->|[->|[->|[->|[]]]]]]; reflexivity.
Qed.

(** C4, as amended.  For each of the five emotion categories the service's
    engine returns the first candidate of the emotion's fixed list that the
    [preferredExercises] mapping does not set to [false], a missing key or a
    missing mapping counting as enabled, and "breathing" when every
    candidate is disabled; for "positive" with [{affirmation: false}] that
    is "breathing".  The worker's engine counts an exercise as enabled when
    its entry is truthy, or when no entry is; it returns the first enabled
    candidate, and otherwise the first enabled exercise in the order
    breathing, affirmation, mindfulness. *)
Theorem recommendation_rule :
  (forall emotion preferences,
      emotion ∈ emotionCategories ->
      preferences <> JNull ->
      let mapping := prop preferences (js "preferredExercises") in
      exists ex,
        AIService.getRecommendedExercise emotion preferences = Returned ex
        /\ (firstSuch (availableIn mapping) (candidatesOf emotion) ex
            \/ (Forall (disabledIn mapping) (candidatesOf emotion)
                /\ ex = js "breathing")))
  /\ (forall emotion cfg,
        emotion ∈ emotionCategories ->
        cfg <> JNull -> cfg <> JUndefined ->
        let mapping := prop cfg (js "preferredExercises") in
        exists ex,
          Background.getRecommendedExercise emotion cfg = Returned ex
          /\ (firstSuch (enabledIn mapping) (candidatesOf emotion) ex
              \/ (Forall (fun c => ~ enabledIn mapping c) (candidatesOf emotion)
                  /\ firstSuch (enabledIn mapping) exerciseIds ex)))
  /\ AIService.getRecommendedExercise (js "positive") (JObj [])
     = Returned (js "affirmation")
  /\ AIService.getRecommendedExercise (js "positive") Scenario.affirmationOff
     = Returned (js "breathing").
Proof.
  split; [|split; [|split]]; [| |reflexivity..].
  - intros emotion preferences Hcat Hnull mapping.
    destruct (service_recommendation emotion _ preferences
                (category_candidates _ Hcat) Hnull)
      as (ex & Hex & [Hfirst|[Hall ->]]).
    + exists ex. auto.
    + exists (js "breathing"). split; [done|]. right. split; [|done].
      eapply Forall_impl; [exact Hall|]. intros c Hc.
      fold mapping in Hc. unfold availableIn, disabledIn in *.
      destruct (truthy mapping).
      * destruct (decide_false_entry (prop mapping c)) as [?|Hne]; [done|].
        exfalso. apply Hc. by intros [_ ?].
      * exfalso. apply Hc. by intros [? _].
  - intros emotion cfg Hcat Hnull Hundef.
    apply worker_recommendation; try done.
    by apply category_candidates.
Qed.

Lemma regular_available mapping ex :
  truthy mapping = true ->
  prop mapping ex = JBool false \/ truthy (prop mapping ex) = true ->
  negb (truthy mapping) || negb (is_false (prop mapping ex))
  = Background.isPreferred mapping ex.
Proof.
  intros Hm Hv. unfold Background.isPreferred. rewrite Hm. simpl.
  destruct Hv as [->|Hv]; [done|]. rewrite Hv.
  by destruct (prop mapping ex) as [| |[]| | | |].
Qed.

Lemma candidatesOf_lists emotion :
  tableLookup AIService.recommendations emotion (js "neutral") = Inherited
  \/ candidatesOf emotion ∈ candidateLists.
Proof.
  unfold candidatesOf, tableLookup, AIService.recommendations, candidateLists.
  simpl. rewrite !elem_of_cons.
  repeat case_bool_decide; simpl; auto 6.
Qed.

Lemma choices_agree_without_mapping mapping suggested :
  suggested ∈ candidateLists ->
  truthy mapping = false ->
  serviceChoice mapping suggested = workerChoice mapping suggested.
Proof.
  intros Hlist Hm.
  unfold serviceChoice, workerChoice, Background.preferredList,
    Background.isPreferred.
  rewrite Hm. simpl negb. simpl andb. cbn [orb].
  revert Hlist. unfold candidateLists. rewrite !elem_of_cons, elem_of_nil.
  intros [->|[->|[->|[->|[]]]]]; reflexivity.
Qed.

Lemma choices_agree_regular mapping suggested :
  suggested ∈ candidateLists ->
  truthy mapping = true ->
  regularIn mapping ->
  truthy (prop mapping (js "breathing")) = true
  \/ Exists (fun ex => truthy (prop mapping ex) = true) suggested ->
  serviceChoice mapping suggested = workerChoice mapping suggested.
Proof.
  intros Hlist Hm Hreg Hsome.
  unfold regularIn, exerciseIds in Hreg.
  inversion_clear Hreg as [|? ? Hb Hrest].
  inversion_clear Hrest as [|? ? Ha Hrest'].
  inversion_clear Hrest' as [|? ? Hmi _].
  pose proof (regular_available mapping _ Hm Hb) as Eb.
  pose proof (regular_available mapping _ Hm Ha) as Ea.
  pose proof (regular_available mapping _ Hm Hmi) as Emi.
  assert (Background.isPreferred mapping (js "breathing") = true
          \/ Exists (fun ex => Background.isPreferred mapping ex = true)
                    suggested) as Hsome'.
  { unfold Background.isPreferred. rewrite Hm. exact Hsome. }
  clear Hsome Hb Ha Hmi.
  unfold serviceChoice, workerChoice, Background.preferredList.
  revert Hlist Hsome'. unfold candidateLists.
  rewrite !elem_of_cons, elem_of_nil.
  intros [->|[->|[->|[->|[]]]]] Hsome'; cbn [List.filter];
    rewrite ?Eb, ?Ea, ?Emi;
    rewrite !Exists_cons, Exists_nil in Hsome';
    destruct (Background.isPreferred mapping (js "breathing")),
      (Background.isPreferred mapping (js "affirmation")),
      (Background.isPreferred mapping (js "mindfulness"));
    try reflexivity; exfalso; intuition discriminate.
Qed.

(** C5, as amended.  The two implementations return the same exercise id,
    or both raise, for every emotion string and every configuration other
    than [undefined] in which either [preferredExercises] is missing or
    falsy, or each of its three entries is [false] or truthy and breathing
    or some candidate of the emotion is truthy. *)
Theorem engines_agree emotion cfg :
  cfg <> JUndefined ->
  let mapping := prop cfg (js "preferredExercises") in
  truthy mapping = false
  \/ (regularIn mapping
      /\ (truthy (prop mapping (js "breathing")) = true
          \/ Exists (fun ex => truthy (prop mapping ex) = true)
                    (candidatesOf emotion))) ->
  AIService.getRecommendedExercise emotion cfg
  = Background.getRecommendedExercise emotion cfg.
Proof.
  intros Hundef mapping Hcond.
  unfold AIService.getRecommendedExercise, Background.getRecommendedExercise,
    AIService.suggestedFor.
  change Background.recommendations with AIService.recommendations.
  destruct (candidatesOf_lists emotion) as [Hinh|Hlist].
  { rewrite Hinh. by destruct cfg. }
  assert (forall suggested,
            candidatesOf emotion = suggested ->
            (availableExercises ←
               filterM (AIService.isAvailable
                          match cfg with JUndefined => JObj [] | _ => cfg end)
                       suggested;
             Returned (AIService.firstOr (js "breathing") availableExercises))
            = (preferredExercises ← getProp cfg (js "preferredExercises");
               match Background.firstIncluded
                       (Background.preferredList preferredExercises) suggested
               with
               | Some ex => Returned ex
               | None => Returned (AIService.firstOr (js "breathing")
                           (Background.preferredList preferredExercises))
               end)) as Hcore.
  { intros suggested Hs. rewrite Hs in Hlist, Hcond.
    assert (cfg = JNull \/ cfg <> JNull) as [->|Hnull]
      by (destruct cfg; auto; right; discriminate).
    { revert Hlist. unfold candidateLists. rewrite !elem_of_cons, elem_of_nil.
      intros [->|[->|[->|[->|[]]]]]; reflexivity. }
    rewrite getProp_defined by done. simpl. fold mapping.
    rewrite (filterM_ext _
               (fun ex => Returned (negb (truthy mapping)
                                    || negb (is_false (prop mapping ex)))))
      by (intros ex; unfold AIService.isAvailable, mapping; by destruct cfg).
    rewrite filterM_pure. simpl.
    fold (serviceChoice mapping suggested).
    transitivity (Returned (workerChoice mapping suggested)).
    - f_equal. destruct Hcond as [Hm|[Hreg Hsome]].
      + by apply choices_agree_without_mapping.
      + destruct (truthy mapping) eqn:Hm.
        * by apply choices_agree_regular.
        * by apply choices_agree_without_mapping.
    - unfold workerChoice. by destruct (Background.firstIncluded _ _). }
  unfold candidatesOf in Hcore.
  destruct (tableLookup AIService.recommendations emotion (js "neutral"))
    as [suggested| |suggested]; [|by destruct cfg|]; by apply Hcore.
Qed.
End recommend.

(** ** The history store *)

Section history.
Context `{Host}.
Import Spec.
Local Open Scope Z_scope.

(** C7.  Eviction is idempotent: for every log, retention window and fixed
    value of the clock, filtering twice keeps what filtering once keeps. *)
Theorem evict_idempotent retention now (arr : list EmotionRecord.t) :
  Background.evict retention now (Background.evict retention now arr)
  = Background.evict retention now arr.
Proof.
  unfold Background.evict. induction arr as [|r arr IH]; [done|].
  rewrite filter_cons. case_decide as Hr.
  - rewrite filter_cons. rewrite decide_True by done. by rewrite IH.
  - done.
Qed.

(** The TRACK_EMOTION branch appends the record and filters. *)
Lemma onMessage_track stamp now msg sender st :
  isTrackEmotion msg ->
  emotionHistory (Background.onMessage stamp now msg sender st)
  = Background.evict Background.sevenDays now
      (emotionHistory st ++ [Background.emotionRecord stamp msg sender]).
Proof.
  intros [Hm Ht]. unfold Background.onMessage. rewrite Hm, Ht. reflexivity.
Qed.

(** C8.  Appending a record through the TRACK_EMOTION handler and then
    querying the window from 0 returns the surviving older records in their
    stored order followed by the new record: it sits at the last position,
    once, and nowhere else unless the log already held an identical record.
    The two clock readings of the handler are taken to be consistent: the
    stamp is not negative and not older than the retention window when the
    filter runs. *)
Theorem append_then_query stamp now msg sender st :
  isTrackEmotion msg ->
  0 <= stamp ->
  now - Background.sevenDays <= stamp ->
  let record := Background.emotionRecord stamp msg sender in
  let survivors :=
    Dashboard.queryWindow 0
      (Background.evict Background.sevenDays now (emotionHistory st)) in
  let result :=
    Dashboard.queryWindow 0
      (emotionHistory (Background.onMessage stamp now msg sender st)) in
  result = survivors ++ [record]
  /\ survivors `sublist_of` emotionHistory st
  /\ result !! length survivors = Some record
  /\ (record ∉ emotionHistory st ->
      forall i, result !! i = Some record -> i = length survivors).
Proof.
  intros Htrack Hstamp Hfresh record survivors result.
  assert (result = survivors ++ [record]) as Hresult.
  { subst result survivors. rewrite onMessage_track by done.
    unfold Background.evict, Dashboard.queryWindow.
    rewrite !filter_app. f_equal.
    rewrite !filter_cons, !filter_nil.
    rewrite decide_True by (subst record; simpl; lia).
    rewrite filter_cons, decide_True by (subst record; simpl; lia). done. }
  assert (survivors `sublist_of` emotionHistory st) as Hsub.
  { subst survivors. unfold Background.evict, Dashboard.queryWindow.
    etrans; apply sublist_filter. }
  split; [done|]. split; [done|]. split.
  - rewrite Hresult. by rewrite lookup_app_r, Nat.sub_diag.
  - intros Hnew i Hi. rewrite Hresult in Hi.
    destruct (decide (i < length survivors)%nat) as [Hlt|Hge].
    + rewrite lookup_app_l in Hi by done.
      exfalso. apply Hnew. eapply elem_of_sublist; [|exact Hsub].
      by eapply list_elem_of_lookup_2.
    + apply lookup_lt_Some in Hi. rewrite length_app in Hi. simpl in Hi. lia.
Qed.

(** C10.  The record the TRACK_EMOTION handler persists carries the
    message's score when that value is truthy and [null] otherwise; so the
    score 0 of a neutral result without matches is stored as [null]. *)
Theorem persisted_score stamp now msg sender st text :
  let record := Background.emotionRecord stamp msg sender in
  let s := prop msg (js "score") in
  (isTrackEmotion msg ->
   emotionHistory (Background.onMessage stamp now msg sender st)
   = Background.evict Background.sevenDays now (emotionHistory st ++ [record]))
  /\ (truthy s = true -> EmotionRecord.score record = s)
  /\ (truthy s = false -> EmotionRecord.score record = JNull)
  /\ (forall n, s = JNum n -> Num.is_zero n = true ->
                EmotionRecord.score record = JNull)
  /\ ((forall category keyword,
          keyword ∈ keywordsOf category ->
          matchCount (toLowerCase text) keyword = 0%nat) ->
      EmotionRecord.score
        (Background.emotionRecord stamp
           (Content.trackEmotionMessage
              (AIService.fallbackEmotionAnalysis text)) sender)
      = JNull).
Proof.
  intros record s. split; [apply onMessage_track|].
  subst record. cbn [Background.emotionRecord EmotionRecord.score].
  fold s. unfold or_else. split; [|split; [|split]].
  - by intros ->.
  - by intros ->.
  - intros n -> Hz. simpl. by rewrite Hz.
  - intros Hnone. rewrite fallback_without_matches by done. reflexivity.
Qed.

End history.

(** ** The insight generator *)

Section insights.
Local Open Scope nat_scope.
Context `{Host}.
Import Spec Dashboard.

Lemma recordsOf_cons k r data :
  recordsOf k (r :: data)
  = (if bool_decide (ToString (EmotionRecord.emotion r) = k) then 1 else 0)
    + recordsOf k data.
Proof. unfold recordsOf. simpl. by case_bool_decide. Qed.

Lemma countEmotions_fold data acc k :
  default 0 (fold_left countStep data acc !! k)
  = default 0 (acc !! k) + recordsOf k data.
Proof.
  revert acc. induction data as [|r data IH]; intros acc.
  - unfold recordsOf. simpl. lia.
  - simpl. rewrite IH, recordsOf_cons. unfold countStep.
    case_bool_decide as Hk.
    + rewrite Hk, lookup_insert_eq. simpl. lia.
    + rewrite lookup_insert_ne by done. lia.
Qed.

(** The count read for a key is the number of records with that key. *)
Lemma countOf_countEmotions data k :
  countOf (countEmotions data) k = recordsOf k data.
Proof.
  unfold countOf, countEmotions. rewrite countEmotions_fold.
  by rewrite lookup_empty.
Qed.

(** [n > total * 0.5] on counts. *)
Lemma exceeds_half n total : exceeds n total (5 # 10) = (total <? 2 * n).
Proof.
  unfold exceeds, Num.gtb, Num.ltb, Num.of_nat.
  destruct (Nat.ltb_spec total (2 * n)) as [Hlt|Hge].
  - apply negb_true_iff, not_true_iff_false. rewrite Qle_bool_iff.
    unfold Qle. simpl. lia.
  - apply negb_false_iff. rewrite Qle_bool_iff. unfold Qle. simpl. lia.
Qed.

(** C9.  For a slice of at least five records the first insight is the
    overall-mood message: the positive one when the positive records are
    more than half of the slice, else the negative one when the negative,
    anxiety and anger records together are more than half, else the
    balanced one.  Six positive records of ten give the positive message;
    a slice that is exactly half positive does not. *)
Theorem mood_insight emotionData exerciseData :
  5 <= length emotionData ->
  let total := length emotionData in
  let positiveCount := recordsOf (js "positive") emotionData in
  let negativeCount :=
    recordsOf (js "negative") emotionData
    + recordsOf (js "anxiety") emotionData
    + recordsOf (js "anger") emotionData in
  exists mood rest,
    generateInsights emotionData exerciseData = Insights (mood :: rest)
    /\ (total < 2 * positiveCount -> mood = msgPositive)
    /\ (2 * positiveCount <= total -> total < 2 * negativeCount ->
        mood = msgNegative)
    /\ (2 * positiveCount <= total -> 2 * negativeCount <= total ->
        mood = msgBalanced)
    /\ (total = 10 -> positiveCount = 6 -> mood = msgPositive)
    /\ (2 * positiveCount = total -> mood <> msgPositive).
Proof.
  intros Hlen total positiveCount negativeCount.
  unfold generateInsights.
  destruct (Nat.ltb_spec (length emotionData) 5) as [?|_]; [lia|].
  rewrite !exceeds_half, !countOf_countEmotions.
  fold total positiveCount negativeCount.
  assert (msgNegative <> msgPositive) as Hneg
    by (apply (bool_decide_unpack _); vm_compute; exact I).
  assert (msgBalanced <> msgPositive) as Hbal
    by (apply (bool_decide_unpack _); vm_compute; exact I).
  destruct (Nat.ltb_spec total (2 * positiveCount)) as [Hp|Hp].
  - eexists _, _. split; [reflexivity|]. split; [|split; [|split; [|split]]]; intros; first [lia|reflexivity|assumption].
  - destruct (Nat.ltb_spec total (2 * negativeCount)) as [Hn|Hn].
    + eexists _, _. split; [reflexivity|].
      split; [|split; [|split; [|split]]]; intros; first [lia|reflexivity|assumption].
    + eexists _, _. split; [reflexivity|].
      split; [|split; [|split; [|split]]]; intros; first [lia|reflexivity|assumption].
Qed.
End insights.

(** ** Scenarios, run on the reference host *)

Section scenarios.
Local Existing Instance ReferenceHost.host.
Import Spec Scenario.

Lemma heuristic_dominant_witness :
  exists q,
    AIService.emotion (AIService.fallbackEmotionAnalysis happyText)
    = JStr (js "positive")
    /\ AIService.score (AIService.fallbackEmotionAnalysis happyText) = Finite q
    /\ (q == 3 # 13)%Q
    /\ AIService.intensity (AIService.fallbackEmotionAnalysis happyText)
       = JStr (js "high").
Proof.
  destruct (heuristic_dominant happyText)
    as (before & e & after & q & Horder & _ & _ & He & Hq & Hquot & Hint).
  { exists (js "positive"), (js "happy"). split.
    - apply (bool_decide_unpack _). vm_compute. exact I.
    - vm_compute. lia. }
  exists q. rewrite He, Hint. split; [|split; [done|split]].
  - vm_compute in He. exact (eq_sym He).
  - rewrite Hquot. vm_compute in He. injection He as <-. vm_compute. done.
  - f_equal. vm_compute in Hq. injection Hq as <-. reflexivity.
Defined.

Lemma heuristic_neutral_witness :
  AIService.emotion (AIService.fallbackEmotionAnalysis []) = JStr (js "neutral")
  /\ AIService.score (AIService.fallbackEmotionAnalysis []) = Finite 0
  /\ AIService.fallbackEmotionAnalysis [] = AIService.neutralResult.
Proof.
  apply (heuristic_neutral []). intros category keyword _. reflexivity.
Defined.

(** The heuristic score of "stress" is 3: the term is listed three times
    and the text is one token.  A model response naming the emotion "joy"
    is passed on as it is. *)
Lemma facade_out_of_range :
  (exists r,
      AIService.analyzeEmotion noModel cold (js "stress") = Returned r
      /\ AIService.score r = Finite 3
      /\ ~ inUnitInterval (AIService.score r))
  /\ (exists r,
        AIService.analyzeEmotion (answering (Returned (JStr joyResponse)))
                                 cold happyText
        = Returned r
        /\ AIService.emotion r = JStr (js "joy")
        /\ ~ isCategory (AIService.emotion r)).
Proof.
  split.
  - eexists. split; [vm_compute; reflexivity|]. split; [reflexivity|].
    intros [_ Hle]. vm_compute in Hle. discriminate.
  - eexists. split; [vm_compute; reflexivity|]. split; [reflexivity|].
    intros (e & He & Heq). cbn [AIService.emotion] in Heq.
    injection Heq as <-. revert He. unfold emotionCategories.
    rewrite !elem_of_cons, elem_of_nil. vm_compute. intuition discriminate.
Qed.

Lemma analyzeEmotion_never_raises_witness :
  AIService.analyzeEmotion noModel cold happyText
  = Returned (AIService.fallbackEmotionAnalysis happyText)
  /\ AIService.analyzeEmotion
       (answering (Threw (Thrown (JStr (js "model crashed"))))) cold happyText
     = Returned (AIService.fallbackEmotionAnalysis happyText)
  /\ AIService.analyzeEmotion
       (answering (Returned (JStr (js "I cannot answer that.")))) cold
       happyText
     = Returned (AIService.fallbackEmotionAnalysis happyText).
Proof.
  split; [|split].
  - destruct (analyzeEmotion_never_raises noModel cold happyText)
      as (_ & _ & Habsent & _).
    apply Habsent; reflexivity.
  - destruct (analyzeEmotion_never_raises
                (answering (Threw (Thrown (JStr (js "model crashed")))))
                cold happyText) as (_ & _ & _ & Hraised & _).
    eapply Hraised; [reflexivity|]. intros p. reflexivity.
  - destruct (analyzeEmotion_never_raises
                (answering (Returned (JStr (js "I cannot answer that."))))
                cold happyText) as (_ & _ & _ & _ & Hinvalid).
    eapply Hinvalid; [reflexivity| |].
    + intros p. reflexivity.
    + apply parseResponse_rejects. right. left. eexists. split; reflexivity.
Defined.

Lemma recommendation_rule_witness :
  exists ex,
    AIService.getRecommendedExercise (js "positive") affirmationOff
    = Returned ex
    /\ Forall (disabledIn (prop affirmationOff (js "preferredExercises")))
              (candidatesOf (js "positive"))
    /\ ex = js "breathing".
Proof.
  destruct (proj1 recommendation_rule (js "positive") affirmationOff)
    as (ex & Hex & Hrule).
  - unfold emotionCategories. rewrite !elem_of_cons. auto.
  - discriminate.
  - exists ex. split; [exact Hex|]. vm_compute in Hex. injection Hex as <-.
    split; [|reflexivity]. repeat constructor.
Defined.

(** The worker answers "affirmation" for "positive" under
    [{affirmation: false}], and "mindfulness" when both candidates of an
    emotion are switched off and mindfulness is on. *)
Lemma worker_ignores_rule :
  Background.getRecommendedExercise (js "positive") affirmationOff
  = Returned (js "affirmation")
  /\ Forall (disabledIn (prop affirmationOff (js "preferredExercises")))
            (candidatesOf (js "positive"))
  /\ Background.getRecommendedExercise (js "positive") onlyMindfulness
     = Returned (js "mindfulness")
  /\ Forall (disabledIn (prop onlyMindfulness (js "preferredExercises")))
            (candidatesOf (js "positive")).
Proof.
  split; [reflexivity|]. split; [repeat constructor|].
  split; [reflexivity|]. repeat constructor.
Qed.

Lemma engines_agree_witness :
  AIService.getRecommendedExercise (js "anxiety") Background.DEFAULT_CONFIG
  = Background.getRecommendedExercise (js "anxiety") Background.DEFAULT_CONFIG.
Proof.
  apply (engines_agree (js "anxiety") Background.DEFAULT_CONFIG).
  - discriminate.
  - right. split.
    + repeat constructor; right; reflexivity.
    + left. reflexivity.
Defined.

Lemma engines_differ :
  AIService.getRecommendedExercise (js "positive") onlyMindfulness
  = Returned (js "breathing")
  /\ Background.getRecommendedExercise (js "positive") onlyMindfulness
     = Returned (js "mindfulness")
  /\ AIService.getRecommendedExercise (js "positive") onlyMindfulness
     <> Background.getRecommendedExercise (js "positive") onlyMindfulness.
Proof.
  split; [reflexivity|]. split; [reflexivity|]. vm_compute. discriminate.
Qed.


Lemma append_then_query_witness :
  Dashboard.queryWindow 0
    (emotionHistory
       (Background.onMessage (clock - 5) clock happyMessage sender log))
  = [stored (clock - day) "positive";
     Background.emotionRecord (clock - 5) happyMessage sender].
Proof.
  destruct (append_then_query (clock - 5) clock happyMessage sender log)
    as (Hresult & _).
  - split; reflexivity.
  - vm_compute. discriminate.
  - vm_compute. discriminate.
  - rewrite Hresult. reflexivity.
Defined.

Lemma mood_insight_witness :
  (exists rest,
      Dashboard.generateInsights sixOfTen []
      = Dashboard.Insights (Dashboard.msgPositive :: rest))
  /\ (exists rest,
        Dashboard.generateInsights fourOfEight []
        = Dashboard.Insights (Dashboard.msgBalanced :: rest)).
Proof.
  split.
  - destruct (mood_insight sixOfTen []) as (mood & rest & Hgen & Hpos & _).
    + vm_compute. lia.
    + exists rest. rewrite Hgen, Hpos; [reflexivity|]. vm_compute. lia.
  - destruct (mood_insight fourOfEight [])
      as (mood & rest & Hgen & _ & _ & Hbal & _).
    + vm_compute. lia.
    + exists rest. rewrite Hgen, Hbal; [reflexivity| |]; vm_compute; lia.
Defined.

Lemma persisted_score_witness :
  AIService.score (AIService.fallbackEmotionAnalysis []) = Finite 0
  /\ EmotionRecord.score (Background.emotionRecord clock silentMessage sender)
     = JNull
  /\ EmotionRecord.score (Background.emotionRecord clock happyMessage sender)
     = JNum (Finite (3 # 13)).
Proof.
  destruct (persisted_score clock clock silentMessage sender log [])
    as (_ & _ & _ & _ & Hsilent).
  destruct (persisted_score clock clock happyMessage sender log [])
    as (_ & Htruthy & _).
  split; [reflexivity|]. split.
  - apply Hsilent. intros category keyword _. reflexivity.
  - rewrite Htruthy; reflexivity.
Defined.

End scenarios.

(** * Further properties *)

(** ** The heuristic classifier, continued *)

Section heuristic_more.
Context `{Host}.
Import AIService Spec.

(** With a match, the classifier's result is built from a category of
    maximal, positive count. *)
Lemma fallback_with_matches (text : list N) :
  let lowerText := toLowerCase text in
  0 < totalMatches (countMatches lowerText) ->
  exists e,
    e ∈ scanOrder
    /\ 0 < categoryCount lowerText e
    /\ Forall (fun e' => categoryCount lowerText e' <= categoryCount lowerText e)
              scanOrder
    /\ emotion (fallbackEmotionAnalysis text) = JStr e
    /\ score (fallbackEmotionAnalysis text)
       = Num.div_nat (categoryCount lowerText e)
                     (length (Str.split_ws lowerText))
    /\ intensity (fallbackEmotionAnalysis text)
       = JStr (intensityOf (Z.of_nat (categoryCount lowerText e)
                            # Pos.of_nat (length (Str.split_ws lowerText)))).
Proof.
  intros lowerText Htotal. unfold fallbackEmotionAnalysis. fold lowerText.
  destruct (Nat.eqb_spec (totalMatches (countMatches lowerText)) 0)
    as [Hz|_]; [lia|].
  destruct (fold_left dominantStep (countMatches lowerText) (js "neutral", 0))
    as [dominant maxCount] eqn:Hfold.
  apply dominant_fold in Hfold
    as [(_ & -> & Hall)|(l1 & l2 & Hsplit & Hpos & H1 & H2)].
  { exfalso. rewrite countMatches_spec in Hall.
    rewrite totalMatches_sum in Htotal. unfold scanOrder in Hall.
    simpl in Hall.
    repeat match goal with
           | Hf : Forall _ (_ :: _) |- _ => inversion_clear Hf
           end.
    simpl in *. lia. }
  rewrite countMatches_spec in Hsplit.
  apply map_eq_app in Hsplit as (before & rest & Horder & <- & Hrest).
  apply map_eq_cons in Hrest as (e & after & -> & Hhead & <-).
  inversion Hhead; subst dominant maxCount.
  rewrite Forall_map in H1, H2. simpl in H1, H2.
  exists e. split; [|split; [|split; [|split; [|split]]]].
  - rewrite Horder. apply elem_of_app. right. left.
  - lia.
  - rewrite Horder. apply Forall_app. split.
    + eapply Forall_impl; [exact H1|]. simpl. lia.
    + constructor; [lia|done].
  - reflexivity.
  - reflexivity.
  - cbn [intensity]. f_equal. apply intensity_label.
Qed.

Lemma some_match_total (text : list N) :
  (exists category keyword,
      keyword ∈ keywordsOf category
      /\ 0 < matchCount (toLowerCase text) keyword) ->
  0 < totalMatches (countMatches (toLowerCase text)).
Proof.
  intros (category & keyword & Hin & Hpos).
  pose proof (keywordsOf_category _ _ Hin) as Hcat.
  pose proof (categoryCount_le_total (toLowerCase text) _ Hcat).
  pose proof (matchCount_le_termMatches (toLowerCase text) _ _ Hin).
  unfold categoryCount in *. lia.
Qed.

Lemma neutral_not_scanned : js "neutral" ∉ scanOrder.
Proof.
  unfold scanOrder. rewrite !elem_of_cons, elem_of_nil.
  intros [?|[?|[?|[?|[]]]]]; discriminate.
Qed.

(** X1.  The heuristic classifier returns the neutral emotion exactly when
    no term of the lexicon matches the lower-cased text; whenever it returns
    another emotion the score is positive. *)
Theorem heuristic_neutral_iff (text : list N) :
  (emotion (fallbackEmotionAnalysis text) = JStr (js "neutral")
   <-> forall category keyword,
         keyword ∈ keywordsOf category ->
         matchCount (toLowerCase text) keyword = 0)
  /\ (emotion (fallbackEmotionAnalysis text) <> JStr (js "neutral") ->
      exists q, score (fallbackEmotionAnalysis text) = Finite q /\ (0 < q)%Q).
Proof.
  assert (0 < totalMatches (countMatches (toLowerCase text)) ->
          emotion (fallbackEmotionAnalysis text) <> JStr (js "neutral")
          /\ exists q, score (fallbackEmotionAnalysis text) = Finite q
                       /\ (0 < q)%Q) as Hmatch.
  { intros Htotal.
    destruct (fallback_with_matches text Htotal)
      as (e & He & Hpos & _ & -> & -> & _).
    split.
    - intros [= ->]. by apply neutral_not_scanned.
    - eexists. split; [reflexivity|]. unfold Qlt. simpl. lia. }
  assert ((forall category keyword,
              keyword ∈ keywordsOf category ->
              matchCount (toLowerCase text) keyword = 0)
          \/ 0 < totalMatches (countMatches (toLowerCase text))) as [Hnone|Hsome].
  { destruct (Nat.eq_dec (totalMatches (countMatches (toLowerCase text))) 0)
      as [Hz|Hnz]; [left|right; lia].
    intros category keyword Hin.
    pose proof (keywordsOf_category _ _ Hin) as Hcat.
    pose proof (categoryCount_le_total (toLowerCase text) _ Hcat).
    pose proof (matchCount_le_termMatches (toLowerCase text) _ _ Hin).
    unfold categoryCount in *. lia. }
  - split.
    + split; [done|]. intros _.
      by rewrite fallback_without_matches.
    + intros Hne. exfalso. apply Hne.
      by rewrite fallback_without_matches.
  - destruct (Hmatch Hsome) as [Hne Hq]. split.
    + split; [done|]. intros Hnone. exfalso.
      rewrite totalMatches_sum in Hsome.
      assert (forall category, categoryCount (toLowerCase text) category = 0)
        as Hzero.
      { intros category. unfold categoryCount, termMatches.
        specialize (Hnone category).
        induction (keywordsOf category) as [|kw kws IH]; simpl; [done|].
        rewrite Hnone by left. simpl. apply IH. intros k Hk. apply Hnone.
        by right. }
      rewrite !Hzero in Hsome. lia.
    + done.
Qed.

Lemma intensityOf_cases n len :
  0 < len ->
  let q := (Z.of_nat n # Pos.of_nat len) in
  (len < 50 * n -> intensityOf q = js "high")
  /\ (50 * n <= len -> len < 100 * n -> intensityOf q = js "medium")
  /\ (100 * n <= len -> intensityOf q = js "low").
Proof.
  intros Hlen q. unfold intensityOf.
  assert (Z.pos (Pos.of_nat len) = Z.of_nat len) as Hp
    by (rewrite <- positive_nat_Z, Nat2Pos.id by lia; done).
  destruct (Qlt_le_dec (2 # 100) q) as [Hhi|Hhi];
    [|destruct (Qlt_le_dec (1 # 100) q) as [Hmid|Hmid]];
    unfold Qlt, Qle in *; simpl in *; rewrite Hp in *;
    (split; [|split]); intros; first [reflexivity | lia].
Qed.

(** X2.  When some term matches, the intensity follows from the number of
    tokens and the match count [n] of the dominant category: high below
    50 n tokens, medium from 50 n tokens and below 100 n, low from 100 n
    tokens on.  A text of fewer than 50 tokens with a match is of high
    intensity. *)
Theorem heuristic_intensity_by_length (text : list N) :
  let lowerText := toLowerCase text in
  let tokens := length (Str.split_ws lowerText) in
  (exists category keyword,
      keyword ∈ keywordsOf category /\ 0 < matchCount lowerText keyword) ->
  exists e,
    emotion (fallbackEmotionAnalysis text) = JStr e
    /\ let n := categoryCount lowerText e in
       0 < n
       /\ (tokens < 50 * n ->
           intensity (fallbackEmotionAnalysis text) = JStr (js "high"))
       /\ (50 * n <= tokens -> tokens < 100 * n ->
           intensity (fallbackEmotionAnalysis text) = JStr (js "medium"))
       /\ (100 * n <= tokens ->
           intensity (fallbackEmotionAnalysis text) = JStr (js "low"))
       /\ (tokens < 50 ->
           intensity (fallbackEmotionAnalysis text) = JStr (js "high")).
Proof.
  intros lowerText tokens Hsome.
  destruct (fallback_with_matches text (some_match_total text Hsome))
    as (e & _ & Hpos & _ & He & _ & Hint).
  exists e. split; [done|]. fold lowerText in Hint, Hpos.
  intros n. rewrite Hint.
  destruct (intensityOf_cases n tokens) as (Hhi & Hmid & Hlo).
  { apply split_ws_nonempty. }
  split; [done|]. split; [|split; [|split]].
  - intros. f_equal. by apply Hhi.
  - intros. f_equal. by apply Hmid.
  - intros. f_equal. by apply Hlo.
  - intros. f_equal. apply Hhi. subst n. lia.
Qed.

End heuristic_more.

(** ** Terms that begin with a letter outside ASCII *)

Section accents.
Context `{Host}.
Import Spec Lexicon.

Lemma scan_without_boundary k kw' :
  wordPreserving ->
  Str.isWordChar k = false ->
  forall s before skip,
    followsNoWord k before s = true ->
    Str.scan (k :: kw') before skip s = [].
Proof.
  intros Hcase Hk. induction s as [|c s IH]; intros before skip Hs; [done|].
  simpl in Hs. apply andb_true_iff in Hs as [Hc Hs].
  simpl. destruct skip as [|skip]; [|by apply IH].
  assert (Str.matchHere (k :: kw') before (c :: s) = None) as ->;
    [|by apply IH].
  unfold Str.matchHere. simpl.
  destruct (N.eqb_spec (canonicalize k) (canonicalize c)) as [Heq|Hne].
  - assert (Str.isWordChar c = false) as Hword
      by (rewrite <- (Hcase _ _ Heq); exact Hk).
    rewrite Heq, N.eqb_refl in Hc. simpl in Hc.
    apply negb_true_iff in Hc.
    unfold Str.isBoundary. simpl. by rewrite Hc, Hword.
  - by destruct (Str.isBoundary before (Some c)).
Qed.

(** X3.  A term whose first code unit is no ASCII word character, such as
    an accented letter, is not matched in a text in which no code unit that
    the pattern takes for it stands directly after a word character: as a
    word of its own, at the start of the text or after white space or
    punctuation, the term is not counted.  Case folding is taken to keep the
    class of a code unit. *)
Theorem accented_initial_unmatched (k : N) (rest text : list N) :
  wordPreserving ->
  Str.isWordChar k = false ->
  followsNoWord k None text = true ->
  matchCount text (k :: rest) = 0.
Proof.
  intros Hcase Hk Htext. unfold matchCount.
  by rewrite (scan_without_boundary k rest Hcase Hk text None 0 Htext).
Qed.

End accents.

Section reference_case.
Import Lexicon.

Lemma upperUnit_class (a : N) :
  Str.isWordChar (ReferenceHost.upperUnit a) = Str.isWordChar a.
Proof.
  unfold ReferenceHost.upperUnit, Str.isWordChar, Str.between.
  repeat match goal with
         | |- context [N.leb ?x a] =>
             destruct (N.leb_spec x a); try (exfalso; lia);
             cbn [andb orb negb]
         | |- context [N.leb a ?y] =>
             destruct (N.leb_spec a y); try (exfalso; lia);
             cbn [andb orb negb]
         | |- context [N.eqb a ?y] =>
             destruct (N.eqb_spec a y); try (exfalso; lia);
             cbn [andb orb negb]
         end;
  repeat match goal with
         | |- context [N.leb ?x ?y] =>
             destruct (N.leb_spec x y); try (exfalso; lia);
             cbn [andb orb negb]
         | |- context [N.eqb ?x ?y] =>
             destruct (N.eqb_spec x y); try (exfalso; lia);
             cbn [andb orb negb]
         end; reflexivity.
Qed.

Lemma reference_wordPreserving :
  @wordPreserving ReferenceHost.host.
Proof.
  intros a b. simpl. intros Heq.
  by rewrite <- (upperUnit_class a), <- (upperUnit_class b), Heq.
Qed.

End reference_case.

(** ** Language detection and translation *)

Section language.
Context `{Host}.
Import AIService Language.

Lemma ratioAbove_share text (a b : nat) :
  0 < b ->
  ratioAbove (asciiRatio text) (Z.of_nat a # Pos.of_nat b) = true
  <-> a * length text < b * asciiUnits text.
Proof.
  intros Hb. unfold ratioAbove, asciiRatio. fold (asciiUnits text).
  assert (Z.pos (Pos.of_nat b) = Z.of_nat b) as Hpb
    by (rewrite <- positive_nat_Z, Nat2Pos.id by lia; done).
  destruct (Nat.eqb_spec (length text) 0) as [Hz|Hnz].
  - split; [done|]. unfold asciiUnits.
    pose proof (List.filter_length_le (fun c => c <? 128)%N text). lia.
  - unfold Num.div_nat. rewrite gtb_Finite. unfold Qlt. simpl.
    assert (Z.pos (Pos.of_nat (length text)) = Z.of_nat (length text)) as ->
      by (rewrite <- positive_nat_Z, Nat2Pos.id by lia; done).
    rewrite Hpb. nia.
Qed.

Lemma ratioAbove_nine text :
  ratioAbove (asciiRatio text) (9 # 10) = true
  <-> 9 * length text < 10 * asciiUnits text.
Proof. apply (ratioAbove_share text 9 10). lia. Qed.

Lemma ratioAbove_eight text :
  ratioAbove (asciiRatio text) (8 # 10) = true
  <-> 8 * length text < 10 * asciiUnits text.
Proof. apply (ratioAbove_share text 8 10). lia. Qed.

(** X4.  A text more than nine tenths of whose code units are below 128
    counts as English whatever session there is, and [translateForAnalysis]
    returns it unchanged: neither the model nor the translator is
    consulted. *)
Theorem mostly_ascii_untranslated env session cache (text : list N) :
  9 * length text < 10 * asciiUnits text ->
  isEnglishText session text = true
  /\ translateForAnalysis env session cache text = Returned (JStr text).
Proof.
  intros Hshare. apply ratioAbove_nine in Hshare.
  assert (isEnglishText session text = true) as Henglish
    by (unfold isEnglishText; by rewrite Hshare).
  split; [done|]. unfold translateForAnalysis. by rewrite Henglish.
Qed.

(** X5.  Without a language-model session a text counts as English exactly
    when more than eight tenths of its code units are below 128; the empty
    text does not. *)
Theorem detection_without_session (text : list N) :
  isEnglishText None text = true
  <-> 8 * length text < 10 * asciiUnits text.
Proof.
  unfold isEnglishText. rewrite <- ratioAbove_eight.
  destruct (ratioAbove (asciiRatio text) (9 # 10)) eqn:Hnine; [|done].
  split; [|done]. intros _.
  apply ratioAbove_nine in Hnine. apply ratioAbove_eight. lia.
Qed.

(** What [translateForAnalysis] comes to. *)
Lemma translateForAnalysis_shape env session cache (text : list N) :
  match translateForAnalysis env session cache text with
  | Returned v =>
      v = JStr text
      \/ (truthy v = true /\ v <> JStr text
          /\ isEnglishText session text = false
          /\ exists t, translatorOf env cache = Some t
                       /\ translate t text = Returned v)
  | Threw e =>
      e = TypeError
      /\ isEnglishText session text = false
      /\ exists t, translatorOf env cache = Some t
                   /\ (translate t text = Threw (Thrown JUndefined)
                       \/ translate t text = Threw (Thrown JNull))
  end.
Proof.
  unfold translateForAnalysis. fold (translatorOf env cache).
  destruct (isEnglishText session text) eqn:Henglish; [by left|].
  destruct (translatorOf env cache) as [t|]; [|by left].
  destruct (translate t text) as [v|e] eqn:Ht; simpl.
  - destruct (truthy v) eqn:Hv; simpl; [|by left].
    destruct (is_str text v) eqn:Hs; simpl; [by left|].
    right. split; [done|]. split.
    + intros ->. simpl in Hs. by rewrite bool_decide_eq_true_2 in Hs.
    + split; [done|]. by exists t.
  - destruct e as [| |v]; simpl; try by left.
    destruct v; simpl; try (by left);
      (split; [done|]; split; [done|]; exists t; split; [done|]; auto).
Qed.

(** X6.  Without a translator [translateForAnalysis] returns the text it
    was given.  In general it returns that text, or a truthy translation
    other than the text which the translator returned for a text not
    detected as English; it raises only when the translator raised
    [undefined] or [null], whose message the handler cannot read. *)
Theorem translateForAnalysis_outcome env session cache (text : list N) :
  (translatorOf env cache = None ->
   translateForAnalysis env session cache text = Returned (JStr text))
  /\ match translateForAnalysis env session cache text with
     | Returned v =>
         v = JStr text
         \/ (truthy v = true /\ v <> JStr text
             /\ isEnglishText session text = false
             /\ exists t, translatorOf env cache = Some t
                          /\ translate t text = Returned v)
     | Threw e =>
         e = TypeError
         /\ isEnglishText session text = false
         /\ exists t, translatorOf env cache = Some t
                      /\ (translate t text = Threw (Thrown JUndefined)
                          \/ translate t text = Threw (Thrown JNull))
     end.
Proof.
  split; [|apply translateForAnalysis_shape].
  intros Hnone.
  pose proof (translateForAnalysis_shape env session cache text) as Hshape.
  destruct (translateForAnalysis env session cache text) as [v|e].
  - destruct Hshape as [->|(_ & _ & _ & t & Ht & _)]; [done|].
    rewrite Hnone in Ht. discriminate.
  - destruct Hshape as (_ & _ & t & Ht & _).
    rewrite Hnone in Ht. discriminate.
Qed.

Ltac literal_lengths :=
  repeat match goal with
         | |- context [length (Utf16.js ?s)] =>
             let n := eval vm_compute in (length (Utf16.js s)) in
             replace (length (Utf16.js s)) with n by (vm_compute; reflexivity)
         end.

Lemma detectionPrompt_length (text : list N) :
  length (detectionPrompt text) <= detectionLimit.
Proof.
  unfold detectionPrompt, detectionLimit. rewrite !length_app.
  literal_lengths. rewrite length_take. cbn [length]. lia.
Qed.

Lemma detection_agrees n s1 s2 (text : list N) :
  detectionLimit <= n ->
  agreeUpTo n s1 s2 ->
  isEnglishText (Some s1) text = isEnglishText (Some s2) text.
Proof.
  intros Hn Hagree. unfold isEnglishText.
  destruct (ratioAbove (asciiRatio text) (9 # 10)); [done|].
  rewrite (Hagree (detectionPrompt text)); [done|].
  pose proof (detectionPrompt_length text). lia.
Qed.

Lemma promptFor_length (s : list N) :
  length (promptFor (JStr (take 5000 s))) <= promptLimit.
Proof.
  unfold promptFor, promptLimit. rewrite !length_app.
  literal_lengths. cbn [ToString length]. rewrite length_take. lia.
Qed.

(** X7.  With a translator whose translations are strings, the analysis
    depends on the language model only through prompts of at most 5071
    code units, the instruction and quotes around 5000 code units of text:
    two sessions that answer all such prompts alike give the same result. *)
Theorem model_sees_bounded_text env translator s1 s2 (text : list N) :
  let cache1 := {| languageModelSession := Some s1;
                   translatorSession := translator |} in
  let cache2 := {| languageModelSession := Some s2;
                   translatorSession := translator |} in
  (forall t, translatorOf env cache1 = Some t -> stringTranslator t) ->
  agreeUpTo promptLimit s1 s2 ->
  analyzeEmotion env cache1 text = analyzeEmotion env cache2 text.
Proof.
  intros cache1 cache2 Hstring Hagree.
  unfold analyzeEmotion, ensureSession. simpl.
  assert (translateForAnalysis env (Some s2) cache2 text
          = translateForAnalysis env (Some s1) cache1 text) as ->.
  { unfold translateForAnalysis. simpl.
    rewrite (detection_agrees promptLimit s1 s2 text); [done| |done].
    vm_compute. lia. }
  pose proof (translateForAnalysis_shape env (Some s1) cache1 text)
    as Hshape.
  destruct (translateForAnalysis env (Some s1) cache1 text) as [v|e];
    [|done].
  assert (exists s, v = JStr s) as [s ->].
  { destruct Hshape as [->|(_ & _ & _ & t & Ht & Hv)]; [by eexists|].
    exact (Hstring t Ht _ _ Hv). }
  simpl. rewrite (Hagree _ (promptFor_length s)). done.
Qed.

End language.

(** ** Summaries and generated texts *)

Section generation.
Context `{Host}.
Import Generation.

Lemma excerpt_length (text : list N) :
  length (excerpt text) = Nat.min 500 (length text) + 3.
Proof.
  unfold excerpt. rewrite length_app, length_take. reflexivity.
Qed.

(** X8.  [summarizeContent] never raises and its result is truthy: the
    notice that the summarizer is not enabled when no session can be had;
    with a session, its summary when that is truthy, and otherwise, for a
    falsy summary or a session that raises, the first 500 code units of the
    text followed by three dots, at most 503 code units. *)
Theorem summarizeContent_result ai_summarizer session (text : list N) :
  let effective :=
    match session with
    | Some s => Some s
    | None => initSummarizer ai_summarizer
    end in
  exists v,
    summarizeContent ai_summarizer session text = Returned v
    /\ truthy v = true
    /\ match effective with
       | None => v = JStr summaryUnavailable
       | Some s =>
           (truthy v = true /\ summarize s text = Returned v)
           \/ (v = JStr (excerpt text)
               /\ length (excerpt text) <= 503
               /\ forall summary, summarize s text = Returned summary ->
                                  truthy summary = false)
       end.
Proof.
  intros effective. unfold summarizeContent. fold effective.
  assert (truthy (JStr (excerpt text)) = true) as Hexcerpt.
  { unfold excerpt. simpl. apply negb_true_iff, bool_decide_eq_false_2.
    intros Hnil. apply (f_equal length) in Hnil.
    rewrite length_app in Hnil. simpl in Hnil. lia. }
  assert (length (excerpt text) <= 503) as Hlen
    by (rewrite excerpt_length; lia).
  destruct effective as [s|].
  - destruct (summarize s text) as [summary|e] eqn:Hs; simpl.
    + unfold or_else. destruct (truthy summary) eqn:Ht.
      * exists summary. split; [done|]. split; [done|]. by left.
      * eexists. split; [done|]. split; [done|]. right.
        split; [done|]. split; [done|]. by intros ? [= <-].
    + eexists. split; [done|]. split; [done|]. right.
      split; [done|]. split; [done|]. intros; discriminate.
  - simpl. eexists. split; [done|]. split; [|done].
    by vm_compute.
Qed.

Lemma tableReply_text table (emotion : list N) :
  emotion ∉ objectPrototypeMembers ->
  Forall (fun entry => entry.2 <> []) table ->
  (exists s, assoc (js "neutral") table = Some s) ->
  exists s, tableReply table emotion = Text s /\ s <> []
            /\ (assoc emotion table = Some s
                \/ (assoc emotion table = None
                    /\ assoc (js "neutral") table = Some s)).
Proof.
  intros Hown Htable Hneutral.
  assert (forall k s, assoc k table = Some s -> s <> []) as Hassoc.
  { clear Hneutral. intros k s.
    induction Htable as [|[k' s'] l Hs Hl IH]; simpl; [done|].
    case_bool_decide; [by intros [= <-]|done]. }
  destruct Hneutral as [neutral Hneutral].
  unfold tableReply, tableLookup.
  destruct (assoc emotion table) as [s|] eqn:Hs.
  - pose proof (Hassoc _ _ Hs). rewrite bool_decide_eq_false_2 by done.
    exists s. auto.
  - rewrite bool_decide_eq_false_2 by done.
    rewrite Hneutral. simpl. exists neutral.
    split; [done|]. split; [by eapply Hassoc|]. auto.
Qed.

Lemma generateText_reply promptOf fallback env cache (emotion : list N) :
  exists r,
    generateText promptOf fallback env cache emotion = Returned r
    /\ (r = fallback emotion \/ exists s, r = Text s /\ s <> [])
    /\ (AIService.ensureSession env cache = None -> r = fallback emotion).
Proof.
  unfold generateText.
  destruct (AIService.ensureSession env cache) as [session|]; simpl.
  - destruct (AIService.prompt session (promptOf emotion)) as [response|e];
      simpl; [|eexists; split; [done|]; split; [by left|done]].
    destruct response; simpl;
      try (eexists; split; [done|]; split; [by left|done]).
    case_bool_decide.
    + eexists. split; [done|]. split; [by left|done].
    + eexists. split; [done|]. split; [right; by eexists|done].
  - eexists. split; [done|]. split; [by left|done].
Qed.

(** X9.  For an emotion that is not the name of a member of
    [Object.prototype], [generateAffirmation] and [generateMindfulnessTip]
    return a text that is not empty; when no session can be had it is the
    text of the fallback table. *)
Theorem generated_text_nonempty env cache (emotion : list N) :
  emotion ∉ objectPrototypeMembers ->
  (exists s, generateAffirmation env cache emotion = Returned (Text s)
             /\ s <> []
             /\ (AIService.ensureSession env cache = None ->
                 getFallbackAffirmation emotion = Text s))
  /\ (exists s, generateMindfulnessTip env cache emotion = Returned (Text s)
                /\ s <> []
                /\ (AIService.ensureSession env cache = None ->
                    getFallbackMindfulnessTip emotion = Text s)).
Proof.
  intros Hown.
  assert (forall promptOf table,
             Forall (fun entry => entry.2 <> []) table ->
             (exists s, assoc (js "neutral") table = Some s) ->
             exists s,
               generateText promptOf (tableReply table) env cache emotion
               = Returned (Text s)
               /\ s <> []
               /\ (AIService.ensureSession env cache = None ->
                   tableReply table emotion = Text s)) as Hgen.
  { intros promptOf table Htable Hneutral.
    destruct (tableReply_text table emotion Hown Htable Hneutral)
      as (t & Ht & Hne & _).
    destruct (generateText_reply promptOf (tableReply table) env cache emotion)
      as (r & -> & [->|(s & -> & Hs)] & Hnone).
    - exists t. rewrite Ht. auto.
    - exists s. split; [done|]. split; [done|].
      intros Hno. by rewrite <- (Hnone Hno). }
  split; apply Hgen.
  - unfold affirmations. repeat constructor; by vm_compute.
  - by eexists.
  - unfold tips. repeat constructor; by vm_compute.
  - by eexists.
Qed.

Lemma unavailable_uninitialised {S} (capability : option (AIService.Capability S)) :
  available capability = false -> AIService.initCapability capability = None.
Proof.
  unfold available, AIService.initCapability.
  destruct capability as [api|]; [|done].
  destruct (AIService.capabilities _ api) as [caps|e]; simpl; [|done].
  destruct (getProp caps (js "available")) as [state|e]; simpl; [|done].
  destruct (is_str (js "no") state); simpl; [done|discriminate].
Qed.

(** X10.  When [checkAIAvailability] reports the language model as
    unavailable and no session is cached, [analyzeEmotion] returns the
    heuristic result and both generators return their fallback texts. *)
Theorem unavailable_model_falls_back env ai_summarizer translator
    (text emotion : list N) :
  let cache := {| AIService.languageModelSession := None;
                  AIService.translatorSession := translator |} in
  languageModel (checkAIAvailability env ai_summarizer) = false ->
  AIService.analyzeEmotion env cache text
  = Returned (AIService.fallbackEmotionAnalysis text)
  /\ generateAffirmation env cache emotion
     = Returned (getFallbackAffirmation emotion)
  /\ generateMindfulnessTip env cache emotion
     = Returned (getFallbackMindfulnessTip emotion).
Proof.
  intros cache Hstatus. simpl in Hstatus.
  apply unavailable_uninitialised in Hstatus.
  unfold AIService.analyzeEmotion, generateAffirmation,
    generateMindfulnessTip, generateText, AIService.ensureSession,
    AIService.initLanguageModel.
  simpl. by rewrite Hstatus.
Qed.

End generation.

(** ** The recommendation engines on arbitrary emotions *)

Section recommend_more.
Context `{Host}.
Import Spec.

Lemma assoc_recommendations emotion :
  emotion ∉ emotionCategories ->
  assoc emotion AIService.recommendations = None.
Proof.
  unfold emotionCategories. rewrite !elem_of_cons, elem_of_nil.
  intros Hnot. unfold AIService.recommendations. simpl.
  repeat (case_bool_decide; [exfalso; apply Hnot; subst; auto 10|]).
  reflexivity.
Qed.

Lemma lookup_unknown emotion :
  emotion ∉ emotionCategories ->
  emotion ∉ objectPrototypeMembers ->
  tableLookup AIService.recommendations emotion (js "neutral")
  = Fallback [js "breathing"; js "affirmation"; js "mindfulness"].
Proof.
  intros Hcat Hown. unfold tableLookup.
  rewrite (assoc_recommendations _ Hcat).
  by rewrite bool_decide_eq_false_2.
Qed.

(** X11.  Both recommendation engines treat an emotion outside the five
    categories, an inherited name apart, as they treat neutral. *)
Theorem unknown_emotion_is_neutral (emotion : list N) (cfg : value) :
  emotion ∉ emotionCategories ->
  emotion ∉ objectPrototypeMembers ->
  AIService.getRecommendedExercise emotion cfg
  = AIService.getRecommendedExercise (js "neutral") cfg
  /\ Background.getRecommendedExercise emotion cfg
     = Background.getRecommendedExercise (js "neutral") cfg.
Proof.
  intros Hcat Hown.
  unfold AIService.getRecommendedExercise, Background.getRecommendedExercise,
    AIService.suggestedFor.
  change Background.recommendations with AIService.recommendations.
  rewrite (lookup_unknown _ Hcat Hown). split; reflexivity.
Qed.

Lemma candidates_known emotion :
  emotion ∉ objectPrototypeMembers ->
  exists cands,
    Forall (fun c => c <> [] /\ c ∈ exerciseIds) cands
    /\ (tableLookup AIService.recommendations emotion (js "neutral") = Own cands
        \/ tableLookup AIService.recommendations emotion (js "neutral")
           = Fallback cands).
Proof.
  intros Hown. unfold tableLookup.
  destruct (assoc emotion AIService.recommendations) as [cands|] eqn:Hc.
  - exists cands. split; [by eapply recommendations_ids|by left].
  - rewrite bool_decide_eq_false_2 by done. eexists. split; [|by right].
    apply (recommendations_ids (js "neutral")). reflexivity.
Qed.

Lemma firstOr_elem fallback l :
  Forall (fun c => c <> []) l ->
  AIService.firstOr fallback l ∈ l \/ (l = [] /\ AIService.firstOr fallback l = fallback).
Proof.
  intros Hl. destruct l as [|x l]; [by right|].
  inversion_clear Hl. simpl. rewrite bool_decide_eq_false_2 by done.
  left. by left.
Qed.

Lemma preferredList_ids mapping :
  Forall (fun c => c <> [] /\ c ∈ exerciseIds) (Background.preferredList mapping)
  /\ Background.preferredList mapping <> [].
Proof.
  unfold Background.preferredList, exerciseIds.
  destruct (Background.isPreferred mapping (js "breathing")),
    (Background.isPreferred mapping (js "affirmation")),
    (Background.isPreferred mapping (js "mindfulness")); simpl;
    (split; [|done]); repeat constructor; try done;
    rewrite !elem_of_cons; auto.
Qed.

(** X12.  For every emotion that is no inherited name and every
    configuration other than [null], the service's engine returns one of
    the three exercise ids; for a configuration that is not [undefined]
    either, the worker's engine returns an exercise that is enabled in its
    reading of the preferences. *)
Theorem recommendation_is_exercise (emotion : list N) (cfg : value) :
  emotion ∉ objectPrototypeMembers ->
  cfg <> JNull ->
  (exists ex,
      AIService.getRecommendedExercise emotion cfg = Returned ex
      /\ ex ∈ exerciseIds)
  /\ (cfg <> JUndefined ->
      exists ex,
        Background.getRecommendedExercise emotion cfg = Returned ex
        /\ enabledIn (prop cfg (js "preferredExercises")) ex).
Proof.
  intros Hown Hnull.
  destruct (candidates_known emotion Hown) as (cands & Hids & Hlookup).
  split.
  - unfold AIService.getRecommendedExercise, AIService.isAvailable,
      AIService.suggestedFor.
    set (preferences := match cfg with JUndefined => JObj [] | _ => cfg end).
    assert (preferences <> JNull /\ preferences <> JUndefined) as [? ?]
      by (subst preferences; destruct cfg; done).
    set (keep := fun ex =>
           negb (truthy (prop preferences (js "preferredExercises")))
           || negb (is_false (prop (prop preferences (js "preferredExercises")) ex))).
    assert (forall suggested,
               suggested = cands ->
               exists ex,
                 (availableExercises ←
                    filterM (fun ex =>
                               preferredExercises ←
                                 getProp preferences (js "preferredExercises");
                               Returned
                                 (negb (truthy preferredExercises)
                                  || negb (is_false (prop preferredExercises ex))))
                            suggested;
                  Returned (AIService.firstOr (js "breathing") availableExercises))
                 = Returned ex /\ ex ∈ exerciseIds) as Hrun.
    { intros suggested ->.
      rewrite (filterM_ext _ (fun ex => Returned (keep ex)))
        by (intros ex; by rewrite getProp_defined).
      rewrite filterM_pure. simpl. eexists. split; [done|].
      assert (Forall (fun c => c <> [] /\ c ∈ exerciseIds)
                     (List.filter keep cands)) as Hkept.
      { rewrite Forall_forall in Hids |- *. intros c Hc. apply Hids.
        apply list_elem_of_In in Hc. apply filter_In in Hc as [Hc _].
        by apply list_elem_of_In. }
      destruct (firstOr_elem (js "breathing") (List.filter keep cands))
        as [Hin|[_ ->]].
      - eapply Forall_impl; [exact Hkept|]. by intros ? [? ?].
      - rewrite Forall_forall in Hkept. by apply Hkept.
      - unfold exerciseIds. left. }
    destruct Hlookup as [-> | ->]; by apply Hrun.
  - intros Hundef. unfold Background.getRecommendedExercise.
    rewrite getProp_defined by done. simpl.
    set (mapping := prop cfg (js "preferredExercises")).
    change Background.recommendations with AIService.recommendations.
    destruct (preferredList_ids mapping) as [Hpref Hne].
    assert (forall suggested,
               exists ex,
                 match Background.firstIncluded
                         (Background.preferredList mapping) suggested with
                 | Some ex => Returned ex
                 | None => Returned (AIService.firstOr (js "breathing")
                                       (Background.preferredList mapping))
                 end = Returned ex
                 /\ enabledIn mapping ex) as Hrun.
    { intros suggested.
      destruct (firstIncluded_first (Background.preferredList mapping) suggested)
        as [[-> _]|(before & x & after & _ & _ & Hx & ->)].
      - eexists. split; [done|]. apply elem_of_preferredList.
        destruct (firstOr_elem (js "breathing")
                    (Background.preferredList mapping)) as [Hin|[Hnil _]];
          [|done|done].
        eapply Forall_impl; [exact Hpref|]. by intros ? [? ?].
      - exists x. split; [done|]. apply elem_of_preferredList.
        by apply bool_decide_eq_true in Hx. }
    destruct Hlookup as [-> | ->]; apply Hrun.
Qed.

Lemma preferredList_none mapping :
  Forall (fun ex => preferredIn mapping ex = false) exerciseIds ->
  Background.preferredList mapping = exerciseIds.
Proof.
  unfold exerciseIds, preferredIn. intros Hnone.
  inversion_clear Hnone as [|? ? Hb Hrest].
  inversion_clear Hrest as [|? ? Ha Hrest'].
  inversion_clear Hrest' as [|? ? Hm _].
  unfold Background.preferredList, Background.isPreferred.
  by rewrite Hb, Ha, Hm.
Qed.

(** X13.  The worker's engine answers a configuration in which no
    exercise is preferred as it answers the default configuration, in which
    all three are, for every emotion. *)
Theorem none_preferred_is_all_preferred (emotion : list N) (cfg : value) :
  cfg <> JNull -> cfg <> JUndefined ->
  Forall (fun ex => preferredIn (prop cfg (js "preferredExercises")) ex = false)
         exerciseIds ->
  Background.getRecommendedExercise emotion cfg
  = Background.getRecommendedExercise emotion Background.DEFAULT_CONFIG.
Proof.
  intros Hnull Hundef Hnone.
  unfold Background.getRecommendedExercise.
  rewrite getProp_defined by done. simpl.
  rewrite (preferredList_none _ Hnone). reflexivity.
Qed.

End recommend_more.

(** ** The content script *)

Section content_script.
Context `{Host}.
Import Spec ContentScript.

Lemma analyzeEmotion_returns env cache text :
  exists result, AIService.analyzeEmotion env cache text = Returned result.
Proof.
  destruct (analyzeEmotion_cases env cache text) as [->|(? & r & _ & ->)];
    by eexists.
Qed.

(** X14.  [analyzeAndReport] skips a page whose visible text has fewer
    than 100 code units.  Otherwise the analysis of the first 8000 code
    units returns, and one TRACK_EMOTION message built from its result is
    sent together with the banner decision.  Nothing after the first 8000
    code units of a page matters. *)
Theorem page_analysis_gate env cache config (visibleText : list N) :
  (length visibleText < 100 ->
   analyzeAndReport env cache config visibleText = Skipped)
  /\ (100 <= length visibleText ->
      exists result,
        AIService.analyzeEmotion env cache (take (8 * 1000) visibleText)
        = Returned result
        /\ analyzeAndReport env cache config visibleText
           = Reported (Content.trackEmotionMessage result)
                      (showsBanner config result))
  /\ analyzeAndReport env cache config (take (8 * 1000) visibleText)
     = analyzeAndReport env cache config visibleText.
Proof.
  split; [|split].
  - intros Hshort. unfold analyzeAndReport.
    destruct (Nat.ltb_spec (length (take (8 * 1000) visibleText)) 100)
      as [_|Hlong].
    + by rewrite orb_true_r.
    + rewrite length_take in Hlong. lia.
  - intros Hlong. unfold analyzeAndReport.
    rewrite bool_decide_eq_false_2.
    + destruct (Nat.ltb_spec (length (take (8 * 1000) visibleText)) 100)
        as [Hshort|_].
      * rewrite length_take in Hshort. lia.
      * simpl orb. cbv iota.
        destruct (analyzeEmotion_returns env cache
                    (take (8 * 1000) visibleText)) as [result Hr].
        exists result. by rewrite Hr.
    + intros Hnil. apply (f_equal length) in Hnil.
      rewrite length_take in Hnil. cbn [length] in Hnil. lia.
  - unfold analyzeAndReport. by rewrite take_take, Nat.min_id.
Qed.

Lemma leb_trans a b c :
  Num.leb a b = true -> Num.leb b c = true -> Num.leb a c = true.
Proof.
  unfold Num.leb, Num.ltb.
  destruct a as [x| |], b as [y| |], c as [z| |]; simpl; try done.
  rewrite !negb_involutive, !Qle_bool_iff. apply Qle_trans.
Qed.

Lemma stressful_spec v :
  stressful v = true
  <-> exists e, v = JStr e /\ e ∈ [js "anxiety"; js "anger"; js "negative"].
Proof.
  unfold stressful. rewrite !orb_true_iff. split.
  - destruct v; simpl; try (intros [[?|?]|?]; done).
    rewrite !bool_decide_eq_true. intros [[-> | ->] | ->];
      eexists; (split; [done|]); rewrite !elem_of_cons; auto.
  - intros (e & -> & He). simpl. rewrite !bool_decide_eq_true.
    rewrite !elem_of_cons, elem_of_nil in He. tauto.
Qed.

Lemma threshold_floor sensitivity threshold :
  tableLookup thresholds sensitivity (js "medium") = Own threshold
  \/ tableLookup thresholds sensitivity (js "medium") = Fallback threshold ->
  Num.leb (Finite (5 # 1000)) threshold = true.
Proof.
  unfold tableLookup, thresholds. simpl.
  repeat case_bool_decide; simpl; intros [[= <-]|[= <-]]; done.
Qed.

(** X15.  A banner is requested only for a result whose emotion is the
    string anxiety, anger or negative, with notifications enabled and a
    score of at least 0.005, whatever the sensitivity. *)
Theorem banner_only_under_stress config result :
  showsBanner config result = true ->
  (exists e, AIService.emotion result = JStr e
             /\ e ∈ [js "anxiety"; js "anger"; js "negative"])
  /\ truthy (enabledNotifications config) = true
  /\ Num.le (Finite (5 # 1000)) (AIService.score result).
Proof.
  unfold showsBanner.
  destruct (tracked _ _); simpl; [|done].
  destruct (truthy (enabledNotifications config)); simpl; [|done].
  destruct (tableLookup thresholds (sensitivity config) (js "medium"))
    as [t| |t] eqn:Hlookup; [|done|];
    intros [Hs Ht]%andb_true_iff;
    (split; [by apply stressful_spec|]); (split; [done|]);
    (eapply leb_trans; [eapply threshold_floor|exact Ht]); eauto.
Qed.

(** X16.  The banner decision is monotone in the sensitivity: a banner
    requested at low sensitivity is requested at medium, and one requested
    at medium is requested at high.  A sensitivity that names neither a
    threshold nor an inherited member acts as medium. *)
Theorem sensitivity_monotone config result :
  let setTo s :=
    showsBanner {| sensitivity := s;
                   enabledNotifications := enabledNotifications config;
                   trackEmotions := trackEmotions config |} result in
  (setTo (js "low") = true -> setTo (js "medium") = true)
  /\ (setTo (js "medium") = true -> setTo (js "high") = true)
  /\ (sensitivity config ∉ [js "low"; js "medium"; js "high"] ->
      sensitivity config ∉ objectPrototypeMembers ->
      showsBanner config result = setTo (js "medium")).
Proof.
  intros setTo. subst setTo. unfold showsBanner. cbn [sensitivity
    enabledNotifications trackEmotions].
  destruct (negb (tracked _ _) || negb (truthy _)); [by repeat split|].
  split; [|split].
  - change (tableLookup thresholds (js "low") (js "medium"))
      with (Own (Finite (15 # 1000))).
    change (tableLookup thresholds (js "medium") (js "medium"))
      with (Own (Finite (10 # 1000))).
    intros [-> Ht]%andb_true_iff. simpl.
    eapply leb_trans; [|exact Ht]. done.
  - change (tableLookup thresholds (js "high") (js "medium"))
      with (Own (Finite (5 # 1000))).
    change (tableLookup thresholds (js "medium") (js "medium"))
      with (Own (Finite (10 # 1000))).
    intros [-> Ht]%andb_true_iff. simpl.
    eapply leb_trans; [|exact Ht]. done.
  - intros Hother Hown.
    rewrite !elem_of_cons, elem_of_nil in Hother.
    unfold tableLookup at 1. unfold thresholds at 1. simpl assoc.
    case_bool_decide as Hl; [exfalso; apply Hother; rewrite <- Hl; auto|].
    case_bool_decide as Hm; [exfalso; apply Hother; rewrite <- Hm; auto|].
    case_bool_decide as Hh; [exfalso; apply Hother; rewrite <- Hh; auto|].
    by rewrite bool_decide_eq_false_2.
Qed.

Lemma leb_div_nat n len :
  0 < len ->
  Num.leb (Finite (10 # 1000)) (Num.div_nat n len) = true <-> len <= 100 * n.
Proof.
  intros Hlen. unfold Num.leb, Num.ltb, Num.div_nat.
  rewrite negb_involutive, Qle_bool_iff. unfold Qle. simpl.
  assert (Z.pos (Pos.of_nat len) = Z.of_nat len) as ->
    by (rewrite <- positive_nat_Z, Nat2Pos.id by lia; done).
  lia.
Qed.

(** X17.  Under the default settings the heuristic result of a text
    requests the banner exactly when its dominant category is negative,
    anxiety or anger and that category has at least one match for every
    100 tokens. *)
Theorem heuristic_banner_rule (text : list N) :
  let lowerText := toLowerCase text in
  showsBanner defaultConfig (AIService.fallbackEmotionAnalysis text) = true
  <-> exists e,
        AIService.emotion (AIService.fallbackEmotionAnalysis text) = JStr e
        /\ e ∈ [js "negative"; js "anxiety"; js "anger"]
        /\ length (Str.split_ws lowerText) <= 100 * categoryCount lowerText e.
Proof.
  intros lowerText.
  destruct (Nat.eq_dec (AIService.totalMatches
                          (AIService.countMatches lowerText)) 0) as [Hz|Hnz].
  - assert (AIService.fallbackEmotionAnalysis text = AIService.neutralResult)
      as ->.
    { unfold AIService.fallbackEmotionAnalysis. fold lowerText.
      by rewrite Hz. }
    split; [done|]. intros (e & [= <-] & He & _).
    rewrite !elem_of_cons, elem_of_nil in He.
    destruct He as [?|[?|[?|[]]]]; discriminate.
  - destruct (fallback_with_matches text) as (e & He & Hpos & _ & Hem & Hsc & _);
      [fold lowerText; lia|].
    fold lowerText in Hpos, Hsc.
    unfold showsBanner. rewrite Hem, Hsc.
    assert (tracked (trackEmotions defaultConfig) (JStr e) = true) as ->.
    { unfold scanOrder in He. rewrite !elem_of_cons, elem_of_nil in He.
      destruct He as [->|[->|[->|[->|[]]]]]; reflexivity. }
    change (tableLookup thresholds (sensitivity defaultConfig) (js "medium"))
      with (Own (Finite (10 # 1000))).
    simpl negb. simpl orb. cbv iota.
    rewrite andb_true_iff, stressful_spec, leb_div_nat
      by apply split_ws_nonempty.
    split.
    + intros [(e' & [= <-] & He') Hlen]. exists e. split; [done|].
      split; [|done]. rewrite !elem_of_cons, elem_of_nil in *. tauto.
    + intros (e' & [= <-] & He' & Hlen). split; [|done].
      exists e. split; [done|].
      rewrite !elem_of_cons, elem_of_nil in *. tauto.
Qed.

Lemma stored_source stamp sender r :
  EmotionRecord.source
    (Background.emotionRecord stamp (Content.trackEmotionMessage r) sender)
  = or_else (AIService.source r) (JStr (js "unknown")).
Proof. reflexivity. Qed.

(** X18.  Every report of the content script is a message that the
    TRACK_EMOTION branch of the worker accepts, and the record stored for
    it carries the source chrome-ai or multilingual-heuristic, never
    unknown; it is multilingual-heuristic when no session can be had. *)
Theorem report_is_stored_with_source env cache config (visibleText : list N)
    message banner stamp sender :
  analyzeAndReport env cache config visibleText = Reported message banner ->
  isTrackEmotion message
  /\ (EmotionRecord.source (Background.emotionRecord stamp message sender)
      = JStr (js "chrome-ai")
      \/ EmotionRecord.source (Background.emotionRecord stamp message sender)
         = JStr (js "multilingual-heuristic"))
  /\ (AIService.ensureSession env cache = None ->
      EmotionRecord.source (Background.emotionRecord stamp message sender)
      = JStr (js "multilingual-heuristic")).
Proof.
  unfold analyzeAndReport.
  destruct (_ || _); [done|].
  set (text := take (8 * 1000) visibleText).
  destruct (AIService.analyzeEmotion env cache text) as [result|] eqn:Hr;
    [|done].
  intros [= <- _].
  assert (AIService.source result = JStr (js "chrome-ai")
          \/ result = AIService.fallbackEmotionAnalysis text) as Hsource.
  { destruct (analyzeEmotion_cases env cache text)
      as [Hf|(response & r & Hparse & Hm)]; rewrite Hr in *.
    - right. by injection Hf.
    - left. injection Hm as Hm. subst r.
      by apply parseResponse_valid in Hparse as [Hs _]. }
  assert (AIService.source (AIService.fallbackEmotionAnalysis text)
          = JStr (js "multilingual-heuristic")) as Hheuristic.
  { unfold AIService.fallbackEmotionAnalysis.
    destruct (_ =? 0); [done|]. by destruct (fold_left _ _ _). }
  rewrite stored_source.
  assert (forall label,
             label <> [] ->
             AIService.source result = JStr label ->
             or_else (AIService.source result) (JStr (js "unknown"))
             = JStr label) as Hkeep.
  { intros label Hne ->. unfold or_else. simpl.
    by rewrite bool_decide_eq_false_2. }
  split; [split; reflexivity|]. split.
  - destruct Hsource as [Hs|Hf].
    + left. by apply Hkeep.
    + right. apply Hkeep; [done|]. by rewrite Hf.
  - intros Hnone. unfold AIService.analyzeEmotion in Hr.
    rewrite Hnone in Hr. simpl in Hr. apply Hkeep; [done|].
    injection Hr as Hr. by rewrite <- Hr.
Qed.

End content_script.

(** ** The worker: the reminder alarm and sequences of messages *)

Section worker.
Import Spec Worker.

Lemma lastN_app {A} n (older recent : list A) :
  n <= length recent -> lastN n (older ++ recent) = lastN n recent.
Proof.
  intros Hn. unfold lastN. rewrite length_app.
  replace (length older + length recent - n)
    with (length older + (length recent - n)) by lia.
  apply drop_app_add.
Qed.

Lemma lastN_length {A} n (arr : list A) : length (lastN n arr) <= length arr.
Proof. unfold lastN. rewrite length_drop. lia. Qed.

(** X19.  The notification of the alarm carries the stress message
    exactly when the alarm is the wellness reminder, notifications are
    enabled and at least six of the last ten stored records have the
    emotion anxiety, anger or negative.  A log of fewer than six records
    never gives it, and records before the last ten have no influence. *)
Theorem alarm_message_rule alarmName cfg (emotionHistory : list EmotionRecord.t) :
  (onAlarm alarmName cfg emotionHistory = Some stressMessage
   <-> alarmName = WELLNESS_ALARM
       /\ truthy (prop cfg (js "enabledNotifications")) = true
       /\ 6 <= length (List.filter stressful (lastN 10 emotionHistory)))
  /\ (length emotionHistory < 6 ->
      onAlarm alarmName cfg emotionHistory <> Some stressMessage)
  /\ (forall older recent,
         emotionHistory = older ++ recent -> 10 <= length recent ->
         onAlarm alarmName cfg emotionHistory = onAlarm alarmName cfg recent).
Proof.
  assert (onAlarm alarmName cfg emotionHistory = Some stressMessage
          <-> alarmName = WELLNESS_ALARM
              /\ truthy (prop cfg (js "enabledNotifications")) = true
              /\ 6 <= length (List.filter stressful (lastN 10 emotionHistory)))
    as Hrule.
  { unfold onAlarm. case_bool_decide as Hname; [|split; [done|tauto]].
    destruct (truthy (prop cfg (js "enabledNotifications")));
      simpl; [|split; [done|intros (_ & ? & _); done]].
    destruct (Nat.ltb_spec 5
                (length (List.filter stressful (lastN 10 emotionHistory))))
      as [Hmany|Hfew].
    - split; [|done]. intros _. split; [done|]. split; [done|lia].
    - split; [intros [= Heq]; by vm_compute in Heq|].
      intros (_ & _ & ?). lia. }
  split; [done|]. split.
  - intros Hshort Hstress. apply Hrule in Hstress as (_ & _ & Hmany).
    pose proof (List.filter_length_le stressful (lastN 10 emotionHistory)).
    pose proof (lastN_length 10 emotionHistory). lia.
  - intros older recent -> Hlen. unfold onAlarm.
    by rewrite lastN_app.
Qed.






End worker.

(** ** The dashboard page *)

Section dashboard_page.
Context `{Host}.
Import Spec Dashboard DashboardPage.

Lemma is_str_ToString k v :
  is_str k v = true -> ToString v = k.
Proof. destruct v; simpl; try done. by intros ->%bool_decide_eq_true. Qed.

Lemma strict_le_loose k (emotionData : list EmotionRecord.t) :
  length (List.filter (fun e => is_str k (EmotionRecord.emotion e)) emotionData)
  <= recordsOf k emotionData.
Proof.
  unfold recordsOf. induction emotionData as [|r data IH]; simpl; [done|].
  destruct (is_str k (EmotionRecord.emotion r)) eqn:Hs.
  - rewrite bool_decide_eq_true_2 by by apply is_str_ToString. simpl. lia.
  - case_bool_decide; simpl; lia.
Qed.

Lemma strict_eq_loose k (emotionData : list EmotionRecord.t) :
  k <> js "undefined" ->
  Forall (fun r => EmotionRecord.emotion r = JUndefined
                   \/ exists s, EmotionRecord.emotion r = JStr s)
         emotionData ->
  length (List.filter (fun e => is_str k (EmotionRecord.emotion e)) emotionData)
  = recordsOf k emotionData.
Proof.
  intros Hk Hall. unfold recordsOf.
  induction Hall as [|r data Hr _ IH]; simpl; [done|].
  destruct Hr as [-> | [s ->]]; simpl.
  - rewrite bool_decide_eq_false_2 by done. exact IH.
  - repeat case_bool_decide; simpl; congruence.
Qed.

(** X21.  Of the figures [updateStats] writes, the positive and the
    anxiety count together do not exceed the total, and each is at most the
    tally the insights use for the same slice; the two agree when the
    emotion of every record is a string or missing. *)
Theorem stats_and_insight_tallies (emotionData : list EmotionRecord.t)
    exerciseData :
  let figures := updateStats emotionData exerciseData in
  let counts := countEmotions emotionData in
  posCount figures + anxCount figures <= emotionTotal figures
  /\ posCount figures <= countOf counts (js "positive")
  /\ anxCount figures <= countOf counts (js "anxiety")
  /\ (Forall (fun r => EmotionRecord.emotion r = JUndefined
                       \/ exists s, EmotionRecord.emotion r = JStr s)
             emotionData ->
      posCount figures = countOf counts (js "positive")
      /\ anxCount figures = countOf counts (js "anxiety")).
Proof.
  intros figures counts. subst figures counts.
  rewrite !countOf_countEmotions. cbn [posCount anxCount emotionTotal updateStats].
  split; [|split; [|split]].
  - induction emotionData as [|r data IH]; simpl; [done|].
    destruct (EmotionRecord.emotion r) as [| | | |s| |]; simpl; try lia.
    repeat case_bool_decide; simpl; try lia.
    exfalso. subst s. discriminate.
  - apply strict_le_loose.
  - apply strict_le_loose.
  - intros Hall. split; apply strict_eq_loose; done.
Qed.

Lemma queryWindow_nested earlier later (log : list EmotionRecord.t) :
  (earlier <= later)%Z ->
  queryWindow later (queryWindow earlier log) = queryWindow later log.
Proof.
  intros Hle. unfold queryWindow. apply list_filter_filter_l. intros r. lia.
Qed.

(** X22.  When the local midnight is not after the clock and lies within
    the last seven days, the slices of the periods nest: the slice of today
    is the slice of the week from midnight on, and the slice of the week is
    the slice of the month from seven days ago on, so the number of records
    shown does not shrink from today to week to month.  A period of any
    other name shows the slice of today. *)
Theorem periods_nest (now today : Z) (log : list EmotionRecord.t) period :
  (today <= now)%Z ->
  (now - 7 * 24 * 60 * 60 * 1000 <= today)%Z ->
  let slice p := queryWindow (getDateRange p now today) log in
  queryWindow today (slice (JStr (js "week"))) = slice (JStr (js "today"))
  /\ queryWindow (now - 7 * 24 * 60 * 60 * 1000) (slice (JStr (js "month")))
     = slice (JStr (js "week"))
  /\ length (slice (JStr (js "today"))) <= length (slice (JStr (js "week")))
  /\ length (slice (JStr (js "week"))) <= length (slice (JStr (js "month")))
  /\ (Forall (fun p => period <> JStr p) [js "today"; js "week"; js "month"] ->
      slice period = slice (JStr (js "today"))).
Proof.
  intros Htoday Hweek slice. subst slice. cbv beta.
  change (getDateRange (JStr (js "week")) now today)
    with (now - 7 * 24 * 60 * 60 * 1000)%Z.
  change (getDateRange (JStr (js "month")) now today)
    with (now - 30 * 24 * 60 * 60 * 1000)%Z.
  change (getDateRange (JStr (js "today")) now today) with today.
  assert (queryWindow today (queryWindow (now - 7 * 24 * 60 * 60 * 1000) log)
          = queryWindow today log) as Hday
    by (by apply queryWindow_nested).
  assert (queryWindow (now - 7 * 24 * 60 * 60 * 1000)
            (queryWindow (now - 30 * 24 * 60 * 60 * 1000) log)
          = queryWindow (now - 7 * 24 * 60 * 60 * 1000) log) as Hw
    by (apply queryWindow_nested; lia).
  split; [done|]. split; [done|]. split; [|split].
  - rewrite <- Hday. apply length_filter.
  - rewrite <- Hw. apply length_filter.
  - intros Hother. f_equal. unfold getDateRange.
    inversion_clear Hother as [|? ? Ht Hrest].
    inversion_clear Hrest as [|? ? Hwk Hrest'].
    inversion_clear Hrest' as [|? ? Hmo _].
    destruct period as [| | | |s| |]; try reflexivity. simpl.
    repeat (case_bool_decide; [congruence|]). reflexivity.
Qed.

(** X23.  After a tracked emotion handled at clock [t], the month view
    of a dashboard opened up to 23 days after [t] shows the whole stored
    emotion log. *)
Theorem month_shows_whole_log stamp clock msg sender data (now today : Z) :
  isTrackEmotion msg ->
  (now <= clock + 23 * 24 * 60 * 60 * 1000)%Z ->
  let log := emotionHistory (Background.onMessage stamp clock msg sender data) in
  queryWindow (getDateRange (JStr (js "month")) now today) log = log.
Proof.
  intros Htrack Hnow log. subst log.
  rewrite onMessage_track by done.
  change (getDateRange (JStr (js "month")) now today)
    with (now - 30 * 24 * 60 * 60 * 1000)%Z.
  unfold queryWindow, Background.evict.
  apply list_filter_filter_r. intros r. unfold Background.sevenDays. lia.
Qed.

Lemma exceeds_three_tenths n total :
  exceeds n total (3 # 10) = (3 * total <? 10 * n).
Proof.
  unfold exceeds, Num.gtb, Num.ltb, Num.of_nat.
  destruct (Nat.ltb_spec (3 * total) (10 * n)) as [Hlt|Hge].
  - apply negb_true_iff, not_true_iff_false. rewrite Qle_bool_iff.
    unfold Qle. simpl. lia.
  - apply negb_false_iff. rewrite Qle_bool_iff. unfold Qle. simpl. lia.
Qed.

Lemma msgCommitment_head n : head (msgCommitment n) = Some 71%N.
Proof. reflexivity. Qed.

Lemma msgAi_tail n : take 2 (rev (msgAi n)) = [46%N; 121%N].
Proof. unfold msgAi. rewrite rev_app_distr. reflexivity. Qed.

(** The assembly of the insight list, on arbitrary texts. *)
Lemma insight_membership (P N B A T C Ai : list N)
    (mood anxious committed untried powered : bool) :
  A <> P -> A <> N -> A <> B -> A <> T -> A <> C -> A <> Ai ->
  T <> P -> T <> N -> T <> B -> T <> C -> T <> Ai ->
  forall first, first = P \/ first = N \/ first = B ->
  let items :=
    [first] ++ (if anxious then [A] else [])
    ++ (if committed then [C] else if untried then [T] else [])
    ++ (if powered then [Ai] else []) in
  1 <= length items <= 4
  /\ (A ∈ items <-> anxious = true)
  /\ (T ∈ items <-> committed = false /\ untried = true).
Proof.
  intros ??????????? first Hfirst items. subst items.
  split; [|split].
  - destruct anxious, committed, untried, powered; simpl; lia.
  - rewrite !elem_of_app.
    destruct anxious, committed, untried, powered;
      rewrite ?elem_of_cons, ?elem_of_nil; intuition congruence.
  - rewrite !elem_of_app.
    destruct anxious, committed, untried, powered;
      rewrite ?elem_of_cons, ?elem_of_nil; intuition congruence.
Qed.

(** X24.  [generateInsights] shows the empty state exactly for a slice
    of fewer than five records.  Otherwise it lists between one and four
    insights; the anxiety insight is among them exactly when the anxiety
    records are more than three tenths of the slice, and the invitation to
    try the exercises exactly when no exercise was completed and more than
    three records are negative, anxiety or anger. *)
Theorem secondary_insights (emotionData : list EmotionRecord.t)
    (exerciseData : list ExerciseRecord.t) :
  let total := length emotionData in
  let anxious := recordsOf (js "anxiety") emotionData in
  let negativeCount :=
    recordsOf (js "negative") emotionData
    + recordsOf (js "anxiety") emotionData
    + recordsOf (js "anger") emotionData in
  let completed :=
    length (List.filter (fun e => truthy (ExerciseRecord.completed e))
                        exerciseData) in
  (generateInsights emotionData exerciseData = NotEnoughData <-> total < 5)
  /\ (5 <= total ->
      exists items,
        generateInsights emotionData exerciseData = Insights items
        /\ 1 <= length items <= 4
        /\ (msgAnxiety ∈ items <-> 3 * total < 10 * anxious)
        /\ (msgTryExercises ∈ items
            <-> completed = 0 /\ 3 < negativeCount)).
Proof.
  intros total anxious negativeCount completed.
  unfold generateInsights. fold total completed.
  destruct (Nat.ltb_spec total 5) as [Hshort|Hlong].
  { split; [split; [done|reflexivity]|]. intros. lia. }
  split; [split; [discriminate|lia]|]. intros _.
  rewrite !exceeds_half, !exceeds_three_tenths, !countOf_countEmotions.
  fold negativeCount. fold anxious.
  set (ai := length (List.filter _ emotionData)).
  assert (msgAnxiety <> msgPositive) as H1
    by (apply (bool_decide_unpack _); vm_compute; exact I).
  assert (msgAnxiety <> msgNegative) as H2
    by (apply (bool_decide_unpack _); vm_compute; exact I).
  assert (msgAnxiety <> msgBalanced) as H3
    by (apply (bool_decide_unpack _); vm_compute; exact I).
  assert (msgAnxiety <> msgTryExercises) as H4
    by (apply (bool_decide_unpack _); vm_compute; exact I).
  assert (msgAnxiety <> msgCommitment completed) as H5.
  { intros Heq. apply (f_equal head) in Heq.
    rewrite msgCommitment_head in Heq. by vm_compute in Heq. }
  assert (msgAnxiety <> msgAi ai) as H6.
  { intros Heq. apply (f_equal (fun l => take 2 (rev l))) in Heq.
    rewrite msgAi_tail in Heq. by vm_compute in Heq. }
  assert (msgTryExercises <> msgPositive) as H7
    by (apply (bool_decide_unpack _); vm_compute; exact I).
  assert (msgTryExercises <> msgNegative) as H8
    by (apply (bool_decide_unpack _); vm_compute; exact I).
  assert (msgTryExercises <> msgBalanced) as H9
    by (apply (bool_decide_unpack _); vm_compute; exact I).
  assert (msgTryExercises <> msgCommitment completed) as H10.
  { intros Heq. apply (f_equal head) in Heq.
    rewrite msgCommitment_head in Heq. by vm_compute in Heq. }
  assert (msgTryExercises <> msgAi ai) as H11.
  { intros Heq. apply (f_equal (fun l => take 2 (rev l))) in Heq.
    rewrite msgAi_tail in Heq. by vm_compute in Heq. }
  match goal with
  | |- context [Insights (?mood ++ _)] => set (first := mood)
  end.
  assert (exists m, first = [m]
                    /\ (m = msgPositive \/ m = msgNegative \/ m = msgBalanced))
    as (m & -> & Hm).
  { subst first.
    destruct (total <? 2 * recordsOf (js "positive") emotionData).
    - exists msgPositive. split; [reflexivity|]. left. reflexivity.
    - destruct (total <? 2 * negativeCount).
      + exists msgNegative. split; [reflexivity|]. right. left. reflexivity.
      + exists msgBalanced. split; [reflexivity|]. right. right. reflexivity. }
  clearbody ai.
  destruct (insight_membership msgPositive msgNegative msgBalanced msgAnxiety
              msgTryExercises (msgCommitment completed) (msgAi ai)
              true (3 * total <? 10 * anxious) (5 <? completed)
              ((completed =? 0) && (3 <? negativeCount)) (0 <? ai)
              H1 H2 H3 H4 H5 H6 H7 H8 H9 H10 H11 m Hm)
    as (Hlen & Hanx & Htry).
  eexists. split; [reflexivity|]. split; [exact Hlen|]. split.
  - rewrite Hanx. apply Nat.ltb_lt.
  - rewrite Htry. clear.
    destruct (Nat.ltb_spec 5 completed), (Nat.eqb_spec completed 0),
      (Nat.ltb_spec 3 negativeCount); simpl; split; intros [Ha Hb];
      first [discriminate | lia | (split; [reflexivity|reflexivity])].
Qed.

End dashboard_page.

(** ** The popup and the breathing page *)

Section popup.
Context `{Host}.
Import Spec Popup.

Lemma assoc_increment key (counts : list (list N * nat)) k :
  assoc k (List.map (fun '(k, c) =>
                       if bool_decide (k = key) then (k, S c) else (k, c))
                    counts)
  = (fun c => (if bool_decide (key = k) then 1 else 0) + c) <$> assoc k counts.
Proof.
  induction counts as [|[k' c'] counts IH]; simpl; [done|].
  destruct (decide (k' = key)) as [Hkey|Hkey],
    (decide (k' = k)) as [Hk|Hk], (decide (key = k)) as [Hkk|Hkk];
    try congruence;
    rewrite ?(bool_decide_eq_true_2 _ Hkey), ?(bool_decide_eq_false_2 _ Hkey);
    simpl;
    rewrite ?(bool_decide_eq_true_2 _ Hk), ?(bool_decide_eq_false_2 _ Hk);
    simpl; rewrite ?IH;
    rewrite ?(bool_decide_eq_true_2 _ Hkk), ?(bool_decide_eq_false_2 _ Hkk);
    reflexivity.
Qed.

Lemma countRecord_assoc counts (r : EmotionRecord.t) k :
  assoc k (countRecord counts r)
  = (fun c => (if bool_decide (ToString (EmotionRecord.emotion r) = k)
               then 1 else 0) + c) <$> assoc k counts.
Proof.
  unfold countRecord.
  destruct (assoc (ToString (EmotionRecord.emotion r)) counts) as [c|] eqn:Hkey.
  - apply assoc_increment.
  - case_bool_decide as Hk.
    + subst k. by rewrite Hkey.
    + by destruct (assoc k counts).
Qed.

Lemma countRecord_fold (data : list EmotionRecord.t) counts k :
  assoc k (fold_left countRecord data counts)
  = (fun c => c + recordsOf k data) <$> assoc k counts.
Proof.
  revert counts. induction data as [|r data IH]; intros counts; simpl.
  - unfold recordsOf. simpl. destruct (assoc k counts); simpl; [|done].
    f_equal. lia.
  - rewrite IH, countRecord_assoc, recordsOf_cons.
    destruct (assoc k counts); simpl; [|done]. f_equal. lia.
Qed.

Lemma recordsOf_four (data : list EmotionRecord.t) :
  recordsOf (js "positive") data + recordsOf (js "negative") data
  + recordsOf (js "anxiety") data + recordsOf (js "anger") data
  <= length data.
Proof.
  induction data as [|r data IH]; [unfold recordsOf; simpl; lia|].
  rewrite !recordsOf_cons. simpl length.
  repeat case_bool_decide; try lia; exfalso;
    match goal with
    | Ha : ToString _ = _, Hb : ToString _ = _ |- _ =>
        rewrite Ha in Hb; vm_compute in Hb; discriminate
    end.
Qed.

(** X25.  The four figures of the popup are the tallies that the
    insights of the dashboard compute on the slice of today, and together
    they do not exceed the number of records of today. *)
Theorem popup_matches_dashboard (today : Z) (arr : list EmotionRecord.t) :
  let slice := Dashboard.queryWindow today arr in
  let counts := Dashboard.countEmotions slice in
  let shown := showEmotionalSummary today arr in
  positive shown = Dashboard.countOf counts (js "positive")
  /\ negative shown = Dashboard.countOf counts (js "negative")
  /\ anxiety shown = Dashboard.countOf counts (js "anxiety")
  /\ anger shown = Dashboard.countOf counts (js "anger")
  /\ positive shown + negative shown + anxiety shown + anger shown
     <= length slice.
Proof.
  intros slice counts shown. subst counts shown.
  unfold showEmotionalSummary. fold (Dashboard.queryWindow today arr).
  fold slice. cbn [positive negative anxiety anger].
  rewrite !countOf_countEmotions, !countRecord_fold.
  change (assoc (js "positive") noCounts) with (Some 0).
  change (assoc (js "negative") noCounts) with (Some 0).
  change (assoc (js "anxiety") noCounts) with (Some 0).
  change (assoc (js "anger") noCounts) with (Some 0).
  cbn [fmap option_fmap option_map default Nat.add].
  split; [reflexivity|]. split; [reflexivity|]. split; [reflexivity|].
  split; [reflexivity|]. apply recordsOf_four.
Qed.

End popup.

Section breathing.
Context `{Host}.
Import Breathing.

Lemma filter_snoc_false {A} (f : A -> bool) l x :
  f x = false -> List.filter f (l ++ [x]) = List.filter f l.
Proof. intros Hx. rewrite List.filter_app. simpl. by rewrite Hx, app_nil_r. Qed.

(** X26.  Starting the breathing cycle from rest appends one record
    without an emotion to the emotion log: in a dashboard period that
    includes that moment the total of captures grows by one while the
    positive and the anxiety count stay.  Starting again while the cycle
    runs changes nothing. *)
Theorem breathing_start_logged (now : Z) page data period (clock today : Z) :
  intervalId page = None ->
  (DashboardPage.getDateRange period clock today <= now)%Z ->
  let started := startCycle now page data in
  let before := DashboardPage.stats (DashboardPage.loadData period clock today data) in
  let after :=
    DashboardPage.stats (DashboardPage.loadData period clock today (snd started)) in
  emotionHistory (snd started) = emotionHistory data ++ [sessionRecord now]
  /\ DashboardPage.emotionTotal after = S (DashboardPage.emotionTotal before)
  /\ DashboardPage.posCount after = DashboardPage.posCount before
  /\ DashboardPage.anxCount after = DashboardPage.anxCount before
  /\ (forall later, startCycle later (fst started) (snd started) = started).
Proof.
  intros Hidle Hshown started before after.
  subst started before after. unfold startCycle. rewrite Hidle.
  cbn [fst snd emotionHistory exerciseHistory intervalId].
  split; [reflexivity|].
  unfold DashboardPage.loadData, DashboardPage.updateStats.
  cbn [DashboardPage.stats DashboardPage.emotionTotal DashboardPage.posCount
         DashboardPage.anxCount emotionHistory exerciseHistory].
  unfold Dashboard.queryWindow. rewrite filter_app.
  rewrite (filter_cons _ (sessionRecord now)), filter_nil.
  rewrite decide_True by done.
  rewrite length_app, !filter_snoc_false by reflexivity.
  split; [simpl; lia|]. split; [reflexivity|]. split; [reflexivity|].
  reflexivity.
Qed.

Lemma tick_running page period :
  intervalId page = Some period ->
  tick page = {| intervalId := Some period;
                 stepIndex := (stepIndex page + 1) mod 4 |}.
Proof. intros Hp. unfold tick. by rewrite Hp. Qed.

(** X27.  While the cycle runs, the period of the timer stays the
    duration of the step that was on display when the cycle started, and
    after [k] firings the step on display is the one [k] places further in
    the cycle of four.  From the initial page every step lasts 4000
    milliseconds. *)
Theorem breathing_period_fixed (now : Z) page data (k : nat) :
  intervalId page = None ->
  stepIndex page < 4 ->
  let running := Nat.iter k tick (fst (startCycle now page data)) in
  intervalId running = Some (duration (stepIndex page))
  /\ stepIndex running = (stepIndex page + k) mod 4
  /\ (stepIndex page = 0 -> intervalId running = Some 4000%Z).
Proof.
  intros Hidle Hstep running.
  assert (intervalId running = Some (duration (stepIndex page))
          /\ stepIndex running = (stepIndex page + k) mod 4) as [Hperiod Hindex].
  { subst running. unfold startCycle. rewrite Hidle. cbn [fst].
    induction k as [|k [IHp IHs]].
    - unfold Nat.iter. cbn [nat_rect intervalId stepIndex]. split; [done|].
      rewrite Nat.add_0_r. by rewrite Nat.mod_small.
    - rewrite Nat.iter_succ, (tick_running _ _ IHp).
      cbn [intervalId stepIndex]. split; [done|]. rewrite IHs.
      rewrite Nat.Div0.add_mod_idemp_l. f_equal. lia. }
  split; [done|]. split; [done|].
  intros Hzero. by rewrite Hperiod, Hzero.
Qed.

End breathing.

(** ** The mindfulness page *)

Section mindfulness.
Context `{Host}.
Import Spec Mindfulness.

Lemma assoc_update key c (counts : list (list N * cell)) k :
  assoc k (update key c counts)
  = if bool_decide (key = k) then (fun _ => c) <$> assoc k counts
    else assoc k counts.
Proof.
  unfold update. induction counts as [|[k' c'] counts IH]; simpl.
  - by case_bool_decide.
  - destruct (decide (k' = key)) as [Hkey|Hkey],
      (decide (k' = k)) as [Hk|Hk], (decide (key = k)) as [Hkk|Hkk];
      try congruence;
      rewrite ?(bool_decide_eq_true_2 _ Hkey), ?(bool_decide_eq_false_2 _ Hkey);
      simpl;
      rewrite ?(bool_decide_eq_true_2 _ Hk), ?(bool_decide_eq_false_2 _ Hk);
      simpl; rewrite ?IH;
      rewrite ?(bool_decide_eq_true_2 _ Hkk), ?(bool_decide_eq_false_2 _ Hkk);
      reflexivity.
Qed.

Lemma assoc_snoc {A} (counts : list (list N * A)) key v k :
  assoc k (counts ++ [(key, v)])
  = match assoc k counts with
    | Some c => Some c
    | None => if bool_decide (key = k) then Some v else None
    end.
Proof.
  induction counts as [|[k' c'] counts IH]; simpl; [done|].
  destruct (bool_decide (k' = k)); [done|exact IH].
Qed.

Lemma assoc_keys {A} (counts : list (list N * A)) k :
  assoc k counts = None <-> k ∉ counts.*1.
Proof.
  induction counts as [|[k' c'] counts IH]; simpl.
  - split; [intros _; apply not_elem_of_nil|done].
  - rewrite not_elem_of_cons. case_bool_decide; split; try done.
    + intros [? _]. congruence.
    + intros ?. split; [congruence|by apply IH].
    + intros [_ ?]. by apply IH.
Qed.

Lemma assoc_elem {A} (counts : list (list N * A)) k c :
  assoc k counts = Some c -> (k, c) ∈ counts.
Proof.
  induction counts as [|[k' c'] counts IH]; simpl; [done|].
  case_bool_decide.
  - intros [= ->]. subst k'. left.
  - intros ?. right. by apply IH.
Qed.

Lemma elem_assoc {A} (counts : list (list N * A)) k c :
  NoDup counts.*1 -> (k, c) ∈ counts -> assoc k counts = Some c.
Proof.
  induction counts as [|[k' c'] counts IH]; simpl.
  - intros _ Hin. by apply elem_of_nil in Hin.
  - intros [Hfresh Hrest]%NoDup_cons [Heq|Hin]%elem_of_cons.
    + injection Heq as -> ->. by rewrite bool_decide_eq_true_2.
    + rewrite bool_decide_eq_false_2; [by apply IH|].
      intros ->. apply Hfresh. by apply (list_elem_of_fmap_2 fst _ (k, c)).
Qed.

Lemma update_keys key c (counts : list (list N * cell)) :
  (update key c counts).*1 = counts.*1.
Proof.
  unfold update. induction counts as [|[k' c'] counts IH]; simpl; [done|].
  f_equal; [by case_bool_decide|exact IH].
Qed.

Lemma recordsOf_snoc k (data : list EmotionRecord.t) r :
  recordsOf k (data ++ [r])
  = recordsOf k data
    + (if bool_decide (ToString (EmotionRecord.emotion r) = k) then 1 else 0).
Proof.
  unfold recordsOf. rewrite List.filter_app, length_app. simpl.
  by case_bool_decide.
Qed.

Lemma countStep_tally counts (data : list EmotionRecord.t) r :
  (forall k, assoc k counts = tally data k) ->
  forall k, assoc k (countStep counts r) = tally (data ++ [r]) k.
Proof.
  intros Hinv k. unfold countStep.
  set (key := ToString (EmotionRecord.emotion r)).
  pose proof (Hinv key) as Hkey.
  unfold tally in *. rewrite recordsOf_snoc. fold key.
  destruct (decide (key = k)) as [<-|Hk].
  - rewrite (bool_decide_eq_true_2 (key = key)) by done.
    replace (recordsOf key data + 1 =? 0) with false
      by (symmetry; apply Nat.eqb_neq; lia).
    case_bool_decide as Hproto.
    { rewrite Hkey. by destruct (_ =? 0). }
    destruct (recordsOf key data =? 0) eqn:Hzero.
    + rewrite Hkey, assoc_snoc, Hkey.
      rewrite bool_decide_eq_true_2 by done.
      apply Nat.eqb_eq in Hzero. rewrite Hzero.
      by case_bool_decide.
    + case_bool_decide as Hown; rewrite Hkey; [done|].
      rewrite assoc_update, bool_decide_eq_true_2, Hkey by done. simpl.
      do 2 f_equal. lia.
  - rewrite (bool_decide_eq_false_2 (key = k)) by done.
    rewrite Nat.add_0_r, <- Hinv.
    case_bool_decide as Hproto; [done|].
    destruct (assoc key counts) as [[n|]|]; [|done|].
    + rewrite assoc_update. by rewrite bool_decide_eq_false_2.
    + rewrite assoc_snoc. rewrite bool_decide_eq_false_2 by done.
      by destruct (assoc k counts).
Qed.

Lemma countStep_keys counts (r : EmotionRecord.t) :
  NoDup counts.*1 -> NoDup (countStep counts r).*1.
Proof.
  intros Hnodup. unfold countStep.
  case_bool_decide; [done|].
  destruct (assoc _ counts) as [[n|]|] eqn:Hkey; [|done|].
  - by rewrite update_keys.
  - rewrite fmap_app. simpl. apply NoDup_app. split; [done|]. split.
    + intros k Hk [->|[]%elem_of_nil]%elem_of_cons.
      by apply assoc_keys in Hkey.
    + apply NoDup_singleton.
Qed.

Lemma counts_tally (data : list EmotionRecord.t) :
  (forall k, assoc k (fold_left countStep data []) = tally data k)
  /\ NoDup (fold_left countStep data []).*1.
Proof.
  induction data as [|r data [IHt IHn]] using rev_ind.
  - split; [|constructor]. intros k. unfold tally, recordsOf. done.
  - rewrite fold_left_app. simpl. split.
    + by apply countStep_tally.
    + by apply countStep_keys.
Qed.

Lemma filter_partition {A} (f : A -> bool) (l : list A) :
  List.filter f l ++ List.filter (fun x => negb (f x)) l ≡ₚ l.
Proof.
  induction l as [|x l IH]; simpl; [done|].
  destruct (f x); simpl.
  - by rewrite IH.
  - rewrite <- Permutation_middle. by rewrite IH.
Qed.

Lemma entries_elem counts entry : entry ∈ entries counts <-> entry ∈ counts.
Proof.
  unfold entries. rewrite merge_sort_Permutation.
  by rewrite filter_partition.
Qed.

Lemma pick_fold l acc :
  let result := fold_left pick l acc in
  acc.2 <= result.2
  /\ (forall k n, (k, Count n) ∈ l -> n <= result.2)
  /\ (result = acc \/ ((result.1, Count result.2) ∈ l /\ acc.2 < result.2)).
Proof.
  revert acc. induction l as [|[k c] l IH]; intros [e m]; simpl.
  - split; [done|]. split; [|by left]. intros ? ? []%elem_of_nil.
  - set (next := match c with
                 | Count count => if m <? count then (k, count) else (e, m)
                 | Garbled => (e, m)
                 end).
    destruct (IH next) as (Hge & Hall & Hres).
    assert (m <= next.2
            /\ (forall n, c = Count n -> n <= next.2)
            /\ (next = (e, m) \/ (c = Count next.2 /\ next.1 = k /\ m < next.2)))
      as (Hm & Hc & Hnext).
    { subst next. destruct c as [count|]; simpl.
      - destruct (Nat.ltb_spec m count); simpl.
        + split; [lia|]. split; [by intros ? [= ->]|]. right. auto.
        + split; [lia|]. split; [intros ? [= ->]; lia|]. by left.
      - split; [lia|]. split; [done|]. by left. }
    clearbody next.
    split; [simpl in *; lia|]. split.
    + intros k' n [[= -> Hn]|Hin]%elem_of_cons.
      * symmetry in Hn. specialize (Hc n Hn). lia.
      * by eapply Hall.
    + destruct Hres as [Hres|[Hin Hlt]].
      * rewrite Hres. destruct Hnext as [->|(-> & Hk & Hlt)]; [by left|].
        right. split; [|simpl; lia]. rewrite <- Hk. left.
      * right. split; [by right|]. simpl in *. lia.
Qed.

Lemma tally_count data k n :
  tally data k = Some (Count n) ->
  n = recordsOf k data /\ k ∉ objectPrototypeMembers.
Proof.
  unfold tally. destruct (_ =? 0); [done|].
  case_bool_decide; [done|]. case_bool_decide; [done|]. by intros [= <-].
Qed.

Lemma tally_named data k :
  k ∉ objectPrototypeMembers -> recordsOf k data <> 0 ->
  tally data k = Some (Count (recordsOf k data)).
Proof.
  intros Hown Hpos. unfold tally.
  rewrite (proj2 (Nat.eqb_neq _ _) Hpos).
  rewrite bool_decide_eq_false_2.
  - by rewrite bool_decide_eq_false_2.
  - intros ->. apply Hown. unfold objectPrototypeMembers.
    rewrite !elem_of_cons. auto 10.
Qed.

(** The emotion picked from a log. *)
Lemma getRecentEmotion_picks (emotionHistory : list EmotionRecord.t) :
  (getRecentEmotion emotionHistory ∉ objectPrototypeMembers)
  /\ (forall k, k ∉ objectPrototypeMembers ->
                recordsOf k (Worker.lastN 5 emotionHistory)
                <= recordsOf (getRecentEmotion emotionHistory)
                             (Worker.lastN 5 emotionHistory)).
Proof.
  set (recent := Worker.lastN 5 emotionHistory).
  assert (js "neutral" ∉ objectPrototypeMembers) as Hneutral.
  { unfold objectPrototypeMembers. rewrite !elem_of_cons, elem_of_nil.
    intros Hin. repeat (destruct Hin as [Hin|Hin]; [discriminate|]). done. }
  unfold getRecentEmotion. fold recent.
  destruct (Nat.eqb_spec (length recent) 0) as [Hempty|_].
  { split; [done|]. intros k _.
    apply length_zero_iff_nil in Hempty. rewrite Hempty.
    unfold recordsOf. simpl. lia. }
  destruct (counts_tally recent) as [Htally Hnodup].
  set (counts := fold_left countStep recent []) in *.
  destruct (pick_fold (entries counts) (js "neutral", 0))
    as (_ & Hall & Hres).
  set (result := fold_left pick (entries counts) (js "neutral", 0)) in *.
  assert (forall k, k ∉ objectPrototypeMembers ->
                    recordsOf k recent <= result.2) as Hmax.
  { intros k Hown.
    destruct (Nat.eq_dec (recordsOf k recent) 0) as [->|Hpos]; [lia|].
    apply (Hall k). apply entries_elem, assoc_elem.
    rewrite Htally. by apply tally_named. }
  destruct Hres as [Hres|[Hin _]].
  - rewrite Hres in *. simpl in *. split; [done|].
    intros k Hown. specialize (Hmax k Hown). lia.
  - apply (proj1 (entries_elem _ _)) in Hin.
    apply elem_assoc in Hin; [|done].
    rewrite Htally in Hin. apply tally_count in Hin as [Hcount Hown].
    split; [done|]. intros k Hk. rewrite <- Hcount. by apply Hmax.
Qed.

(** X28.  [getRecentEmotion] returns neutral for an empty log.  Its
    result is never the name of a member of [Object.prototype], and no name
    other than those occurs more often among the last five records than the
    result does. *)
Theorem recent_emotion_most_common (emotionHistory : list EmotionRecord.t) :
  let recent := Worker.lastN 5 emotionHistory in
  let current := getRecentEmotion emotionHistory in
  (emotionHistory = [] -> current = js "neutral")
  /\ (current ∉ objectPrototypeMembers)
  /\ (forall k, k ∉ objectPrototypeMembers ->
                recordsOf k recent <= recordsOf current recent).
Proof.
  intros recent current. split.
  - intros ->. reflexivity.
  - apply getRecentEmotion_picks.
Qed.

Lemma tips_long emotion s :
  emotion ∉ objectPrototypeMembers ->
  Generation.getFallbackMindfulnessTip emotion = Generation.Text s ->
  15 < length s.
Proof.
  intros Hown Hs.
  assert (Forall (fun entry => (15 <? length entry.2) = true) Generation.tips)
    as Hlong
    by (unfold Generation.tips; repeat constructor; vm_compute; reflexivity).
  destruct (tableReply_text Generation.tips emotion Hown)
    as (t & Ht & _ & Hfrom).
  { unfold Generation.tips. repeat constructor; by vm_compute. }
  { by eexists. }
  unfold Generation.getFallbackMindfulnessTip in Hs.
  rewrite Ht in Hs. injection Hs as <-.
  rewrite Forall_forall in Hlong.
  assert (exists k, (k, t) ∈ Generation.tips) as [k Hk].
  { destruct Hfrom as [Ha|[_ Hn]]; eexists; eapply assoc_elem; eassumption. }
  apply Nat.ltb_lt. exact (Hlong _ Hk).
Qed.

(** X29.  With the service loaded and no session to be had, the tip page
    shows the fallback text of the service as an insight with the AI badge.
    It turns to the curated tips only when the model answered and the
    cleaned answer has between 1 and 15 code units, and always when the
    service is not loaded. *)
Theorem tip_badge env cache (emotionHistory : list EmotionRecord.t) :
  let current := getRecentEmotion emotionHistory in
  (AIService.ensureSession env cache = None ->
   exists s,
     Generation.getFallbackMindfulnessTip current = Generation.Text s
     /\ generateTip env cache true emotionHistory = Insight s)
  /\ (generateTip env cache true emotionHistory = Curated current ->
      exists session response s,
        AIService.ensureSession env cache = Some session
        /\ AIService.prompt session (Generation.tipPrompt current)
           = Returned response
        /\ Generation.cleaned response = Returned s
        /\ 0 < length s <= 15)
  /\ generateTip env cache false emotionHistory = Curated current.
Proof.
  intros current.
  destruct (getRecentEmotion_picks emotionHistory) as [Hown _].
  fold current in Hown.
  destruct (tableReply_text Generation.tips current Hown) as (t & Ht & Hne & _).
  { unfold Generation.tips. repeat constructor; by vm_compute. }
  { by eexists. }
  fold (Generation.getFallbackMindfulnessTip current) in Ht.
  pose proof (tips_long current t Hown Ht) as Hlong.
  assert (forall s : list N,
             15 < length s ->
             negb (bool_decide (s = [])) && (15 <? length s) = true)
    as Hshown.
  { intros s Hs. rewrite bool_decide_eq_false_2 by (intros ->; simpl in Hs; lia).
    simpl. by apply Nat.ltb_lt. }
  split; [|split].
  - intros Hnone. exists t. split; [done|].
    unfold generateTip. fold current.
    unfold Generation.generateMindfulnessTip, Generation.generateText.
    rewrite Hnone. simpl. rewrite Ht. by rewrite Hshown.
  - unfold generateTip. fold current.
    unfold Generation.generateMindfulnessTip, Generation.generateText.
    destruct (AIService.ensureSession env cache) as [session|]; simpl;
      [|rewrite Ht, Hshown by done; discriminate].
    destruct (AIService.prompt session (Generation.tipPrompt current))
      as [response|e] eqn:Hprompt; simpl;
      [|rewrite Ht, Hshown by done; discriminate].
    destruct (Generation.cleaned response) as [s|e] eqn:Hclean; simpl;
      [|rewrite Ht, Hshown by done; discriminate].
    case_bool_decide as Hs; [rewrite Ht, Hshown by done; discriminate|].
    rewrite bool_decide_eq_false_2 by done. simpl.
    destruct (Nat.ltb_spec 15 (length s)) as [|Hshort]; [discriminate|].
    intros _. exists session, response, s.
    split; [done|]. split; [done|]. split; [done|].
    destruct s; [done|]. simpl in *. lia.
  - reflexivity.
Qed.

(** X30.  The message sent when the mindfulness page is closed leaves
    the emotion log as it is and adds one to the completed exercises of the
    dashboard exactly when at least two tips were shown. *)
Theorem mindfulness_completion (stamp now : Z) sender data (tipsShown : nat) :
  (now - Background.thirtyDays <= stamp)%Z ->
  let data' :=
    Background.onMessage stamp now (closeMessage tipsShown) sender data in
  let completed log :=
    DashboardPage.exerciseTotal (DashboardPage.updateStats [] log) in
  emotionHistory data' = emotionHistory data
  /\ completed (exerciseHistory data')
     = completed (Background.evictExercises Background.thirtyDays now
                    (exerciseHistory data))
       + (if 2 <=? tipsShown then 1 else 0).
Proof.
  intros Hfresh data' completed. subst data' completed.
  unfold Background.onMessage, closeMessage, trackExercise.
  change (truthy (JObj _) && is_str (js "TRACK_EMOTION") _) with false.
  change (truthy (JObj _) && is_str (js "TRACK_EXERCISE") _) with true.
  cbv iota. cbn [emotionHistory exerciseHistory]. split; [reflexivity|].
  unfold Background.evictExercises. rewrite filter_app.
  rewrite (filter_cons _ (Background.exerciseRecord _ _)), filter_nil.
  rewrite decide_True by done.
  cbn [DashboardPage.exerciseTotal DashboardPage.updateStats].
  rewrite List.filter_app, length_app. f_equal.
  by destruct (2 <=? tipsShown).
Qed.

End mindfulness.

(** ** Further scenarios, run on the reference host *)

Section further_scenarios.
Local Existing Instance ReferenceHost.host.
Import Spec Scenario Cases.

Lemma heuristic_intensity_by_length_witness :
  AIService.intensity (AIService.fallbackEmotionAnalysis happyText)
  = JStr (js "high").
Proof.
  destruct (heuristic_intensity_by_length happyText)
    as (e & _ & _ & _ & _ & _ & Hshort).
  { exists (js "positive"), (js "happy"). split.
    - apply (bool_decide_unpack _). vm_compute. exact I.
    - vm_compute. lia. }
  apply Hshort. vm_compute. lia.
Defined.

Lemma accented_initial_unmatched_witness :
  matchCount (js "que ótimo dia") (js "ótimo") = 0.
Proof.
  apply (accented_initial_unmatched 243%N (js "timo") (js "que ótimo dia")).
  - apply reference_wordPreserving.
  - reflexivity.
  - vm_compute. reflexivity.
Defined.

Lemma mostly_ascii_untranslated_witness :
  AIService.isEnglishText None happyText = true
  /\ AIService.translateForAnalysis noModel None cold happyText
     = Returned (JStr happyText).
Proof.
  apply (mostly_ascii_untranslated noModel None cold happyText).
  vm_compute. lia.
Defined.

Lemma model_sees_bounded_text_witness :
  AIService.analyzeEmotion noModel (warm steady) happyText
  = AIService.analyzeEmotion noModel (warm guarded) happyText.
Proof.
  apply (model_sees_bounded_text noModel None steady guarded happyText).
  - intros t Ht. vm_compute in Ht. discriminate.
  - intros p Hp. simpl. by rewrite (proj2 (Nat.leb_le _ _) Hp).
Defined.

Lemma generated_text_nonempty_witness :
  exists s,
    Generation.generateAffirmation noModel cold (js "anger")
    = Returned (Generation.Text s)
    /\ s <> [].
Proof.
  destruct (generated_text_nonempty noModel cold (js "anger"))
    as [(s & Hs & Hne & _) _].
  { apply (bool_decide_unpack _). vm_compute. exact I. }
  exists s. split; assumption.
Defined.

Lemma unavailable_model_falls_back_witness :
  AIService.analyzeEmotion refusing cold happyText
  = Returned (AIService.fallbackEmotionAnalysis happyText).
Proof.
  destruct (unavailable_model_falls_back refusing None None happyText
              (js "anger")) as [Hanalysis _].
  { reflexivity. }
  exact Hanalysis.
Defined.

Lemma unknown_emotion_is_neutral_witness :
  AIService.getRecommendedExercise (js "joy") onlyMindfulness
  = AIService.getRecommendedExercise (js "neutral") onlyMindfulness
  /\ Background.getRecommendedExercise (js "joy") onlyMindfulness
     = Background.getRecommendedExercise (js "neutral") onlyMindfulness.
Proof.
  apply (unknown_emotion_is_neutral (js "joy") onlyMindfulness).
  - apply (bool_decide_unpack _). vm_compute. exact I.
  - apply (bool_decide_unpack _). vm_compute. exact I.
Defined.

Lemma recommendation_is_exercise_witness :
  exists ex,
    AIService.getRecommendedExercise (js "joy") onlyMindfulness = Returned ex
    /\ ex ∈ exerciseIds.
Proof.
  apply (recommendation_is_exercise (js "joy") onlyMindfulness).
  - apply (bool_decide_unpack _). vm_compute. exact I.
  - discriminate.
Defined.

Lemma none_preferred_is_all_preferred_witness :
  Background.getRecommendedExercise (js "positive") affirmationOff
  = Background.getRecommendedExercise (js "positive") Background.DEFAULT_CONFIG.
Proof.
  apply (none_preferred_is_all_preferred (js "positive") affirmationOff).
  - discriminate.
  - discriminate.
  - repeat constructor.
Defined.

Lemma banner_only_under_stress_witness :
  (exists e,
      AIService.emotion (AIService.fallbackEmotionAnalysis (js "stress"))
      = JStr e
      /\ e ∈ [js "anxiety"; js "anger"; js "negative"])
  /\ truthy (ContentScript.enabledNotifications ContentScript.defaultConfig)
     = true
  /\ Num.le (Finite (5 # 1000))
            (AIService.score (AIService.fallbackEmotionAnalysis (js "stress"))).
Proof.
  apply (banner_only_under_stress ContentScript.defaultConfig
           (AIService.fallbackEmotionAnalysis (js "stress"))).
  vm_compute. reflexivity.
Defined.

Lemma report_is_stored_with_source_witness :
  EmotionRecord.source
    (Background.emotionRecord clock
       (Content.trackEmotionMessage
          (AIService.fallbackEmotionAnalysis stressfulPage)) sender)
  = JStr (js "multilingual-heuristic").
Proof.
  destruct (report_is_stored_with_source noModel cold
              ContentScript.defaultConfig stressfulPage
              (Content.trackEmotionMessage
                 (AIService.fallbackEmotionAnalysis stressfulPage))
              true clock sender) as (_ & _ & Hheuristic).
  { vm_compute. reflexivity. }
  apply Hheuristic. reflexivity.
Defined.


Lemma periods_nest_witness :
  Dashboard.queryWindow (clock - 1000)
    (Dashboard.queryWindow
       (DashboardPage.getDateRange (JStr (js "week")) clock (clock - 1000))
       (emotionHistory log))
  = Dashboard.queryWindow
      (DashboardPage.getDateRange (JStr (js "today")) clock (clock - 1000))
      (emotionHistory log).
Proof.
  destruct (periods_nest clock (clock - 1000) (emotionHistory log)
              (JStr (js "year"))) as [Hday _].
  - vm_compute. discriminate.
  - vm_compute. discriminate.
  - exact Hday.
Defined.

Lemma month_shows_whole_log_witness :
  Dashboard.queryWindow
    (DashboardPage.getDateRange (JStr (js "month")) (clock + day) clock)
    (emotionHistory
       (Background.onMessage (clock - 5) clock happyMessage sender log))
  = emotionHistory
      (Background.onMessage (clock - 5) clock happyMessage sender log).
Proof.
  apply (month_shows_whole_log (clock - 5) clock happyMessage sender log
           (clock + day) clock).
  - split; reflexivity.
  - vm_compute. discriminate.
Defined.

Lemma breathing_start_logged_witness :
  emotionHistory (snd (Breathing.startCycle clock Breathing.initial log))
  = emotionHistory log ++ [Breathing.sessionRecord clock].
Proof.
  destruct (breathing_start_logged clock Breathing.initial log
              (JStr (js "today")) (clock + 1000) (clock - 1000))
    as [Hlog _].
  - reflexivity.
  - vm_compute. discriminate.
  - exact Hlog.
Defined.

Lemma breathing_period_fixed_witness :
  Breathing.intervalId
    (Nat.iter 2 Breathing.tick
       (fst (Breathing.startCycle clock Breathing.initial log)))
  = Some 4000%Z
  /\ Breathing.stepIndex
       (Nat.iter 2 Breathing.tick
          (fst (Breathing.startCycle clock Breathing.initial log)))
     = 2.
Proof.
  destruct (breathing_period_fixed clock Breathing.initial log 2)
    as (_ & Hstep & Hperiod).
  - reflexivity.
  - simpl. lia.
  - split; [apply Hperiod; reflexivity|exact Hstep].
Defined.

Lemma mindfulness_completion_witness :
  emotionHistory
    (Background.onMessage clock clock (Mindfulness.closeMessage 1) sender log)
  = emotionHistory log.
Proof.
  destruct (mindfulness_completion clock clock sender log 1) as [Hlog _].
  - vm_compute. discriminate.
  - exact Hlog.
Defined.

End further_scenarios.
